(** * The Windows / UWP host layer of XBSX2

    A shallow embedding of the virtual-memory helpers ([HostSys]), of the
    page-fault exception filters and of the UWP unwind-handler registry of
    the Windows host-system source file, followed by the properties
    established about them.  Further parts embed the UWP key-name table,
    the Windows thread handles, the pointer input of the two windows and
    the Win32 window.

    Integers of the program are [Z]; a pointer is a [Z] with [0] for
    [nullptr]; [DWORD] and [DWORD64] casts are written out as reductions
    modulo [2^32] and [2^64].  The operating system is not part of the
    sources: its decisions (does this allocation succeed, which address
    does it return, does this reprotection succeed) are read from a list
    of answers carried by the world, so a statement quantified over all
    worlds covers every behaviour of the platform.  What the platform
    documents as fixed (the argument rules of [VirtualFree]) is modelled as
    documented. *)

From Stdlib Require Import ZArith List Bool Lia String.
From stdpp Require Import base option gmap list strings.

Local Open Scope Z_scope.

(** ** Platform constants (Windows SDK headers, not part of the sources) *)

Definition PAGE_NOACCESS : Z := 0x01.
Definition PAGE_READONLY : Z := 0x02.
Definition PAGE_READWRITE : Z := 0x04.
Definition PAGE_EXECUTE_READ : Z := 0x20.
Definition PAGE_EXECUTE_READWRITE : Z := 0x40.

Definition MEM_COMMIT : Z := 0x1000.
Definition MEM_RESERVE : Z := 0x2000.
Definition MEM_DECOMMIT : Z := 0x4000.
Definition MEM_RELEASE : Z := 0x8000.

Definition ERROR_NOT_ENOUGH_MEMORY : Z := 8.
Definition ERROR_OUTOFMEMORY : Z := 14.
Definition ERROR_INVALID_PARAMETER : Z := 87.
Definition ERROR_INVALID_ADDRESS : Z := 487.
Definition ERROR_COMMITMENT_MINIMUM : Z := 635.

Definition EXCEPTION_ACCESS_VIOLATION : Z := 0xC0000005.
Definition EXCEPTION_EXECUTE_HANDLER : Z := 1.
Definition EXCEPTION_CONTINUE_SEARCH : Z := 0.
Definition EXCEPTION_CONTINUE_EXECUTION : Z := -1.

(** [EXCEPTION_DISPOSITION] *)
Inductive EXCEPTION_DISPOSITION : Type :=
  | ExceptionContinueExecution
  | ExceptionContinueSearch
  | ExceptionNestedException
  | ExceptionCollidedUnwind.

Definition UNW_FLAG_EHANDLER : Z := 1.

Definition DWORD_of (z : Z) : Z := z mod 2 ^ 32.
Definition DWORD64_of (z : Z) : Z := z mod 2 ^ 64.

(** What a page-protection constant lets a thread do with the page, as the
    SDK documents the five constants the program uses. *)
Definition winmode_allows_read (winmode : Z) : bool :=
  (winmode =? PAGE_READONLY) || (winmode =? PAGE_READWRITE)
  || (winmode =? PAGE_EXECUTE_READ) || (winmode =? PAGE_EXECUTE_READWRITE).

Definition winmode_allows_write (winmode : Z) : bool :=
  (winmode =? PAGE_READWRITE) || (winmode =? PAGE_EXECUTE_READWRITE).

Definition winmode_allows_execute (winmode : Z) : bool :=
  (winmode =? PAGE_EXECUTE_READ) || (winmode =? PAGE_EXECUTE_READWRITE).

(** ** PageProtectionMode *)

(** Modelled from the spec: the class [PageProtectionMode] is declared in a
    header that is not among the sources.  The spec gives it as the triple
    of booleans {readable, writable, executable}; the accessors [CanRead],
    [CanWrite], [CanExecute] and the chained setter [Execute] that the code
    calls read and write those fields. *)
Record PageProtectionMode : Type := mkMode {
  m_read : bool;
  m_write : bool;
  m_exec : bool
}.

Definition CanRead (mode : PageProtectionMode) : bool := m_read mode.
Definition CanWrite (mode : PageProtectionMode) : bool := m_write mode.
Definition CanExecute (mode : PageProtectionMode) : bool := m_exec mode.

Definition Execute (allow : bool) (mode : PageProtectionMode) : PageProtectionMode :=
  {| m_read := m_read mode; m_write := m_write mode; m_exec := allow |}.

(** [static DWORD ConvertToWinApi(const PageProtectionMode& mode)] *)
Definition ConvertToWinApi (mode : PageProtectionMode) : Z :=
  let winmode := PAGE_NOACCESS in
  if CanExecute mode then
    (if CanWrite mode then PAGE_EXECUTE_READWRITE else PAGE_EXECUTE_READ)
  else if CanRead mode then
    (if CanWrite mode then PAGE_READWRITE else PAGE_READONLY)
  else winmode.

(** The constant grants every permission the mode asks for. *)
Definition grants_requested (mode : PageProtectionMode) (winmode : Z) : Prop :=
  (CanRead mode = true -> winmode_allows_read winmode = true) /\
  (CanWrite mode = true -> winmode_allows_write winmode = true) /\
  (CanExecute mode = true -> winmode_allows_execute winmode = true).

(** ** The platform and the world the program runs in *)

(** The platform's decision for one call whose outcome the program cannot
    predict. *)
Inductive Answer : Type :=
  | Grant (addr : positive)  (* success; an allocation returns this address *)
  | Refuse (err : Z).        (* failure; [err] becomes the last-error code *)

(** What the platform's table holds for a base address: the range last
    established there by a successful call. *)
Record Region : Type := mkRegion {
  rg_size : Z;
  rg_committed : bool;
  rg_protect : Z
}.

Inductive Event : Type :=
  | EvVirtualAlloc (lpAddress dwSize flAllocationType flProtect ret : Z)
  | EvVirtualProtect (lpAddress dwSize flNewProtect : Z) (ok : bool)
  | EvVirtualFree (lpAddress dwSize dwFreeType : Z) (ok : bool)
  | EvInstallFunctionTable (TableIdentifier BaseAddress Length : Z) (ok : bool)
  | EvSleep (dwMilliseconds : Z)
  | EvConsole (fmt : string) (arg : Z)
  | EvFailDev (msg : string)
  | EvAssertFailed (msg : string).

Record RUNTIME_FUNCTION : Type := mkRUNTIME_FUNCTION {
  BeginAddress : Z;
  EndAddress : Z;
  UnwindInfoAddress : Z
}.

Record UNWIND_INFO : Type := mkUNWIND_INFO {
  version : Z;
  flags : Z;
  size_of_prologue : Z;
  count_of_unwind_codes : Z;
  frame_register : Z;
  frame_offset_scaled : Z;
  exception_handler_address : Z
}.

Record UnwindHandler : Type := mkUnwindHandler {
  runtime_function : RUNTIME_FUNCTION;
  unwind_info : UNWIND_INFO;
  exception_handler_code : list Z;
  code_base : Z;
  code_end : Z;
  next_unwind_handler : Z
}.

(** [offsetof(UnwindHandler, unwind_info)]: after three [DWORD]s. *)
Definition offsetof_unwind_info : Z := 12.
(** [offsetof(UnwindHandler, exception_handler_code)]: after the 8 bytes of
    [UNWIND_INFO]. *)
Definition offsetof_exception_handler_code : Z := 20.

Definition zeroed_handler : UnwindHandler :=
  mkUnwindHandler (mkRUNTIME_FUNCTION 0 0 0) (mkUNWIND_INFO 0 0 0 0 0 0 0)
                  (replicate 32 0) 0 0 0.

Record World : Type := mkWorld {
  answers : list Answer;          (* what the platform will decide next *)
  vm : gmap Z Region;             (* the platform's live allocations *)
  last_error : Z;                 (* what GetLastError returns *)
  trace : list Event;             (* what the program did, oldest first *)
  s_handler_head : Z;
  s_handler_tail : Z;
  heap : gmap Z UnwindHandler     (* contents of unwind-handler storage *)
}.

Definition set_answers (x : list Answer) (w : World) : World :=
  mkWorld x (vm w) (last_error w) (trace w) (s_handler_head w) (s_handler_tail w) (heap w).
Definition set_vm (x : gmap Z Region) (w : World) : World :=
  mkWorld (answers w) x (last_error w) (trace w) (s_handler_head w) (s_handler_tail w) (heap w).
Definition set_last_error (x : Z) (w : World) : World :=
  mkWorld (answers w) (vm w) x (trace w) (s_handler_head w) (s_handler_tail w) (heap w).
Definition set_trace (x : list Event) (w : World) : World :=
  mkWorld (answers w) (vm w) (last_error w) x (s_handler_head w) (s_handler_tail w) (heap w).
Definition set_s_handler_head (x : Z) (w : World) : World :=
  mkWorld (answers w) (vm w) (last_error w) (trace w) x (s_handler_tail w) (heap w).
Definition set_s_handler_tail (x : Z) (w : World) : World :=
  mkWorld (answers w) (vm w) (last_error w) (trace w) (s_handler_head w) x (heap w).
Definition set_heap (x : gmap Z UnwindHandler) (w : World) : World :=
  mkWorld (answers w) (vm w) (last_error w) (trace w) (s_handler_head w) (s_handler_tail w) x.

(** Computations that read and change the world. *)
Definition M (A : Type) : Type := World -> A * World.

Definition ret {A : Type} (a : A) : M A := fun w => (a, w).

Definition bind {A B : Type} (m : M A) (k : A -> M B) : M B :=
  fun w => let '(a, w1) := m w in k a w1.

Notation "'let*' x := c 'in' k" := (bind c (fun x => k))
  (at level 10, x name, c at level 100, k at level 200).
Notation "c ;;; k" := (bind c (fun _ => k))
  (at level 100, k at level 200, right associativity).

Definition gets {A : Type} (f : World -> A) : M A := fun w => (f w, w).
Definition modify (f : World -> World) : M unit := fun w => (tt, f w).

Definition log (e : Event) : M unit :=
  modify (fun w => set_trace (trace w ++ [e]) w).

(** The platform's next decision; a platform with nothing left to say
    refuses for lack of memory. *)
Definition next_answer : M Answer :=
  fun w => match answers w with
           | [] => (Refuse ERROR_NOT_ENOUGH_MEMORY, w)
           | a :: rest => (a, set_answers rest w)
           end.

(** The Windows entry points the code calls.  Whether an allocation, a
    reprotection or a callback installation succeeds is the platform's
    decision ([next_answer]); a successful call has the effect the SDK
    documents for it. *)
Module Platform.

(** [VirtualAlloc]: on success the region at the returned address has the
    requested size and protection, committed when [MEM_COMMIT] is asked. *)
Definition VirtualAlloc (lpAddress dwSize flAllocationType flProtect : Z) : M Z :=
  let* a := next_answer in
  match a with
  | Grant p =>
      modify (fun w => set_vm (<[Z.pos p :=
                mkRegion dwSize (negb (Z.land flAllocationType MEM_COMMIT =? 0)) flProtect]>
              (vm w)) w) ;;;
      log (EvVirtualAlloc lpAddress dwSize flAllocationType flProtect (Z.pos p)) ;;;
      ret (Z.pos p)
  | Refuse err =>
      modify (set_last_error err) ;;;
      log (EvVirtualAlloc lpAddress dwSize flAllocationType flProtect 0) ;;;
      ret 0
  end.

(** The UWP entry point of the same service. *)
Definition VirtualAllocFromApp := VirtualAlloc.

(** [VirtualProtect]: it succeeds only on committed pages, which then carry
    the new protection. *)
Definition VirtualProtect (lpAddress dwSize flNewProtect : Z) : M bool :=
  let* a := next_answer in
  match a with
  | Grant _ =>
      modify (fun w => set_vm (<[lpAddress := mkRegion dwSize true flNewProtect]> (vm w)) w) ;;;
      log (EvVirtualProtect lpAddress dwSize flNewProtect true) ;;;
      ret true
  | Refuse err =>
      modify (set_last_error err) ;;;
      log (EvVirtualProtect lpAddress dwSize flNewProtect false) ;;;
      ret false
  end.

Definition VirtualProtectFromApp := VirtualProtect.

(** A call the platform rejects because of its arguments. *)
Definition rejected (e : Event) (err : Z) : M bool :=
  modify (set_last_error err) ;;; log e ;;; ret false.

(** [VirtualFree], as the SDK documents it.  With [MEM_RELEASE] the size
    must be 0 and the address the base of an allocation, which is released
    whole; the call fails otherwise.  With [MEM_DECOMMIT] the region goes
    back to reserved, also when it already was. *)
Definition VirtualFree (lpAddress dwSize dwFreeType : Z) : M bool :=
  let* region := gets (fun w => vm w !! lpAddress) in
  if dwFreeType =? MEM_RELEASE then
    if negb (dwSize =? 0) then
      rejected (EvVirtualFree lpAddress dwSize dwFreeType false) ERROR_INVALID_PARAMETER
    else
      match region with
      | Some _ =>
          modify (fun w => set_vm (delete lpAddress (vm w)) w) ;;;
          log (EvVirtualFree lpAddress dwSize dwFreeType true) ;;;
          ret true
      | None =>
          rejected (EvVirtualFree lpAddress dwSize dwFreeType false) ERROR_INVALID_ADDRESS
      end
  else if dwFreeType =? MEM_DECOMMIT then
    match region with
    | Some r =>
        modify (fun w => set_vm (<[lpAddress := mkRegion (rg_size r) false PAGE_NOACCESS]> (vm w)) w) ;;;
        log (EvVirtualFree lpAddress dwSize dwFreeType true) ;;;
        ret true
    | None =>
        rejected (EvVirtualFree lpAddress dwSize dwFreeType false) ERROR_INVALID_ADDRESS
    end
  else
    rejected (EvVirtualFree lpAddress dwSize dwFreeType false) ERROR_INVALID_PARAMETER.

Definition RtlInstallFunctionTableCallback (TableIdentifier BaseAddress Length : Z) : M bool :=
  let* a := next_answer in
  match a with
  | Grant _ =>
      log (EvInstallFunctionTable TableIdentifier BaseAddress Length true) ;;;
      ret true
  | Refuse err =>
      modify (set_last_error err) ;;;
      log (EvInstallFunctionTable TableIdentifier BaseAddress Length false) ;;;
      ret false
  end.

Definition GetLastError : M Z := gets last_error.

Definition Sleep (dwMilliseconds : Z) : M unit := log (EvSleep dwMilliseconds).

End Platform.

(** ** Diagnostics *)

(** [Console.WriteLn], [Console.Warning] and [Console.Error] only print. *)
Definition Console_WriteLn (fmt : string) (arg : Z) : M unit := log (EvConsole fmt arg).
Definition Console_Warning (fmt : string) (arg : Z) : M unit := log (EvConsole fmt arg).
Definition Console_Error (fmt : string) (arg : Z) : M unit := log (EvConsole fmt arg).

(** The assertion macros [pxFailDev], [pxAssert] and [pxAssertRel] are
    declared in a header that is not among the sources; a failed check is
    recorded and the code after it runs, as it does when the check is
    compiled out or dismissed. *)
Definition pxFailDev (msg : string) : M unit := log (EvFailDev msg).
Definition pxAssert (cond : bool) (msg : string) : M unit :=
  if cond then ret tt else log (EvAssertFailed msg).
Definition pxAssertRel (cond : bool) (msg : string) : M unit :=
  if cond then ret tt else log (EvAssertFailed msg).

(** ** Build configuration *)

(** The preprocessor symbols and link-time addresses the file depends on. *)
Record Build : Type := mkBuild {
  UWP : bool;                              (* [_UWP] is defined *)
  M_AMD64 : bool;                          (* [_M_AMD64] is defined *)
  pagesize : Z;                            (* [__pagesize] *)
  UWP_JIT_EXCEPTION_HANDLER_SIZE : Z;
  addr_UWPInstallExceptionHandlerForJIT : Z;
  addr_UnwindExceptionHandler : Z
}.

(** ** HostSys *)

Module HostSys.
Section WithBuild.
Variable cfg : Build.

(** [void* HostSys::MmapReservePtr(void* base, size_t size)] *)
Definition MmapReservePtr (base size : Z) : M Z :=
  if negb (UWP cfg) then
    Platform.VirtualAlloc base size MEM_RESERVE PAGE_NOACCESS
  else
    Platform.VirtualAllocFromApp base size MEM_RESERVE PAGE_NOACCESS.

(** [bool HostSys::MmapCommitPtr(void* base, size_t size, const PageProtectionMode& mode)] *)
Definition MmapCommitPtr (base size : Z) (mode : PageProtectionMode) : M bool :=
  let* result :=
    (if negb (UWP cfg) then
       Platform.VirtualAlloc base size MEM_COMMIT (ConvertToWinApi mode)
     else
       (* UWP requires allocating as RW and then reprotecting to RWX. *)
       let* result := Platform.VirtualAllocFromApp base size MEM_COMMIT
                        (ConvertToWinApi (Execute false mode)) in
       if negb (result =? 0) && CanExecute mode then
         let* ok := Platform.VirtualProtectFromApp base size PAGE_EXECUTE_READWRITE in
         if negb ok then
           Platform.VirtualFree base size MEM_RELEASE ;;;
           ret 0
         else ret result
       else ret result) in
  if negb (result =? 0) then ret true
  else
    let* errcode := Platform.GetLastError in
    if errcode =? ERROR_COMMITMENT_MINIMUM then
      Console_Warning "(MmapCommit) Received windows error %u {Virtual Memory Minimum Too Low}."
                      ERROR_COMMITMENT_MINIMUM ;;;
      Platform.Sleep 1000 ;;;
      ret false
    else if negb (errcode =? ERROR_NOT_ENOUGH_MEMORY) && negb (errcode =? ERROR_OUTOFMEMORY) then
      pxFailDev "VirtualAlloc COMMIT failed: " ;;;
      ret false
    else ret false.

(** [void HostSys::MmapResetPtr(void* base, size_t size)] *)
Definition MmapResetPtr (base size : Z) : M unit :=
  Platform.VirtualFree base size MEM_DECOMMIT ;;; ret tt.

Definition MmapReserve (base size : Z) : M Z := MmapReservePtr base size.
Definition MmapCommit (base size : Z) (mode : PageProtectionMode) : M bool :=
  MmapCommitPtr base size mode.
Definition MmapReset (base size : Z) : M unit := MmapResetPtr base size.

(** [void* HostSys::Mmap(uptr base, size_t size)] *)
Definition Mmap (base size : Z) : M Z :=
  if negb (UWP cfg) then
    Platform.VirtualAlloc base size (Z.lor MEM_RESERVE MEM_COMMIT) PAGE_EXECUTE_READWRITE
  else
    let* result := Platform.VirtualAllocFromApp base size MEM_COMMIT PAGE_READWRITE in
    if negb (result =? 0) then
      let* ok := Platform.VirtualProtectFromApp result size PAGE_EXECUTE_READWRITE in
      if negb ok then
        Platform.VirtualFree result size MEM_RELEASE ;;;
        ret 0
      else ret result
    else ret result.

(** [void HostSys::Munmap(uptr base, size_t size)] *)
Definition Munmap (base size : Z) : M unit :=
  if base =? 0 then ret tt
  else Platform.VirtualFree base 0 MEM_RELEASE ;;; ret tt.

(** [void HostSys::MemProtect(void* baseaddr, size_t size, const PageProtectionMode& mode)] *)
Definition MemProtect (baseaddr size : Z) (mode : PageProtectionMode) : M unit :=
  pxAssert (Z.land size (pagesize cfg - 1) =? 0) "(size & (__pagesize - 1)) == 0" ;;;
  let* ok := Platform.VirtualProtect baseaddr size (ConvertToWinApi mode) in
  if negb ok then
    pxFailDev "VirtualProtect failed" ;;;
    ret tt
  else ret tt.

End WithBuild.
End HostSys.

(** ** Page-fault exception filters *)

(** What a call to [Source_PageFault->Dispatch] followed by [WasHandled]
    comes to: the listeners were consulted and one of them did or did not
    handle the fault, or the dispatch itself raised a structured exception
    (the dispatcher had been deallocated, a listener faulted). *)
Inductive DispatchOutcome : Type :=
  | Dispatched (WasHandled : bool)
  | DispatchRaised (code : Z).

(** A computation under structured exception handling: it returns, or an
    exception with the given code leaves it. *)
Inductive Seh (A : Type) : Type :=
  | Returned (a : A)
  | Raised (code : Z).
Arguments Returned {A} a.
Arguments Raised {A} code.

Inductive FilterEvent : Type :=
  | EvLock                (* [PageFault_Mutex] acquired *)
  | EvDispatch (addr : Z) (* [Source_PageFault->Dispatch] entered *)
  | EvUnlock.             (* [PageFault_Mutex] released on return *)

Record EXCEPTION_RECORD : Type := mkEXCEPTION_RECORD {
  ExceptionCode : Z;
  ExceptionInformation : list Z
}.

Record EXCEPTION_POINTERS : Type := mkEXCEPTION_POINTERS {
  ExceptionRecord : EXCEPTION_RECORD
}.

(** [__try { body } __except (filter(GetExceptionCode())) { return handler; }] *)
Definition try_except {A : Type} (body : list FilterEvent * Seh A)
    (filter : Z -> Z) (handler : A) : list FilterEvent * Seh A :=
  match body with
  | (evs, Returned a) => (evs, Returned a)
  | (evs, Raised code) =>
      if filter code =? EXCEPTION_EXECUTE_HANDLER then (evs, Returned handler)
      else (evs, Raised code)
  end.

Module PageFault.
Section WithDispatcher.
(** The dispatcher behind [Source_PageFault] (common/PageFaultSource.h) is
    not among the sources: it is a parameter. *)
Variable Source_PageFault : Z -> DispatchOutcome.

(** [static long DoSysPageFaultExceptionFilter(const EXCEPTION_RECORD* er)] *)
Definition DoSysPageFaultExceptionFilter (er : EXCEPTION_RECORD)
    : list FilterEvent * Seh Z :=
  if negb (ExceptionCode er =? EXCEPTION_ACCESS_VIOLATION) then
    ([], Returned EXCEPTION_CONTINUE_SEARCH)
  else
    let addr := nth 1 (ExceptionInformation er) 0 in
    match Source_PageFault addr with
    | Dispatched WasHandled =>
        ([EvLock; EvDispatch addr; EvUnlock],
         Returned (if WasHandled then EXCEPTION_CONTINUE_EXECUTION
                   else EXCEPTION_CONTINUE_SEARCH))
    | DispatchRaised code => ([EvLock; EvDispatch addr], Raised code)
    end.

(** The filter expression of both [__except] clauses. *)
Definition except_filter (code : Z) : Z :=
  if code =? EXCEPTION_ACCESS_VIOLATION then EXCEPTION_EXECUTE_HANDLER
  else EXCEPTION_CONTINUE_SEARCH.

(** [long __stdcall SysPageFaultExceptionFilter(EXCEPTION_POINTERS* eps)] *)
Definition SysPageFaultExceptionFilter (eps : EXCEPTION_POINTERS)
    : list FilterEvent * Seh Z :=
  try_except (DoSysPageFaultExceptionFilter (ExceptionRecord eps))
             except_filter EXCEPTION_CONTINUE_SEARCH.

(** [static EXCEPTION_DISPOSITION UnwindExceptionHandler(PEXCEPTION_RECORD
    ExceptionRecord, ...)] *)
Definition UnwindExceptionHandler (ExceptionRecord : EXCEPTION_RECORD)
    : list FilterEvent * Seh EXCEPTION_DISPOSITION :=
  try_except
    (match DoSysPageFaultExceptionFilter ExceptionRecord with
     | (evs, Returned result) =>
         (evs, Returned (if result =? EXCEPTION_CONTINUE_EXECUTION
                         then ExceptionContinueExecution
                         else ExceptionContinueSearch))
     | (evs, Raised code) => (evs, Raised code)
     end)
    except_filter ExceptionContinueSearch.

End WithDispatcher.
End PageFault.

(** How often the dispatcher was entered, and the lock taken. *)
Definition dispatch_count (evs : list FilterEvent) : nat :=
  length (List.filter (fun e => match e with EvDispatch _ => true | _ => false end) evs).
Definition lock_count (evs : list FilterEvent) : nat :=
  length (List.filter (fun e => match e with EvLock => true | _ => false end) evs).

(** ** The unwind-handler registry (UWP) *)

Definition set_runtime_function (x : RUNTIME_FUNCTION) (h : UnwindHandler) : UnwindHandler :=
  mkUnwindHandler x (unwind_info h) (exception_handler_code h)
                  (code_base h) (code_end h) (next_unwind_handler h).
Definition set_unwind_info (x : UNWIND_INFO) (h : UnwindHandler) : UnwindHandler :=
  mkUnwindHandler (runtime_function h) x (exception_handler_code h)
                  (code_base h) (code_end h) (next_unwind_handler h).
Definition set_exception_handler_code (x : list Z) (h : UnwindHandler) : UnwindHandler :=
  mkUnwindHandler (runtime_function h) (unwind_info h) x
                  (code_base h) (code_end h) (next_unwind_handler h).
Definition set_code_base (x : Z) (h : UnwindHandler) : UnwindHandler :=
  mkUnwindHandler (runtime_function h) (unwind_info h) (exception_handler_code h)
                  x (code_end h) (next_unwind_handler h).
Definition set_code_end (x : Z) (h : UnwindHandler) : UnwindHandler :=
  mkUnwindHandler (runtime_function h) (unwind_info h) (exception_handler_code h)
                  (code_base h) x (next_unwind_handler h).
Definition set_next_unwind_handler (x : Z) (h : UnwindHandler) : UnwindHandler :=
  mkUnwindHandler (runtime_function h) (unwind_info h) (exception_handler_code h)
                  (code_base h) (code_end h) x.

(** The [UnwindHandler] stored at [p]; storage nothing was written to reads
    as zeroes. *)
Definition deref (hp : gmap Z UnwindHandler) (p : Z) : UnwindHandler :=
  default zeroed_handler (hp !! p).

(** The storage after the entry at [p] was changed by [f]. *)
Definition poke (p : Z) (f : UnwindHandler -> UnwindHandler)
    (hp : gmap Z UnwindHandler) : gmap Z UnwindHandler :=
  <[p := f (deref hp p)]> hp.

(** [p->field = ...] *)
Definition store (p : Z) (f : UnwindHandler -> UnwindHandler) : M unit :=
  modify (fun w => set_heap (poke p f (heap w)) w).

(** Byte [i] of the little-endian image of a pointer. *)
Definition pointer_byte (ptr : Z) (i : Z) : Z := Z.land (Z.shiftr ptr (8 * i)) 0xff.

(** [std::memcpy(&code[at], &handler, sizeof(handler))] *)
Definition memcpy_pointer (code : list Z) (at_ : nat) (ptr : Z) : list Z :=
  fold_left (fun c i => <[(at_ + i)%nat := pointer_byte ptr (Z.of_nat i)]> c)
            (seq 0 8) code.

(** The loop of [GetRuntimeFunctionCallback], cut after [fuel] entries. *)
Fixpoint scan_handlers (fuel : nat) (hp : gmap Z UnwindHandler)
    (handler ControlPc : Z) : option Z :=
  match fuel with
  | O => None
  | S fuel' =>
      if handler =? 0 then Some 0
      else if (code_base (deref hp handler) <=? ControlPc)
              && (ControlPc <? code_end (deref hp handler))
      then Some handler  (* [&handler->runtime_function], the first member *)
      else scan_handlers fuel' hp (next_unwind_handler (deref hp handler)) ControlPc
  end.

(** [static PRUNTIME_FUNCTION GetRuntimeFunctionCallback(DWORD64 ControlPc, PVOID Context)] *)
Definition GetRuntimeFunctionCallback (fuel : nat) (ControlPc Context : Z) (w : World)
    : option Z :=
  scan_handlers fuel (heap w) (s_handler_head w) ControlPc.

Module Registry.
Section WithBuild.
Variable cfg : Build.

(** The part of [UWPInstallExceptionHandlerForJIT] after the entry has been
    added to the chain: fill the entry in and make it executable. *)
Definition populate (start_pc code_size uh unwind_handler_offset : Z) : M bool :=
  (* This is only valid on x86 for now. *)
  store uh (set_code_base (DWORD64_of start_pc)) ;;;
  store uh (set_code_end (DWORD64_of (DWORD64_of start_pc + code_size))) ;;;
  store uh (set_next_unwind_handler 0) ;;;
  store uh (set_runtime_function
              (mkRUNTIME_FUNCTION 0 (DWORD_of code_size)
                 (DWORD_of (unwind_handler_offset + offsetof_unwind_info)))) ;;;
  store uh (set_unwind_info
              (mkUNWIND_INFO 1 UNW_FLAG_EHANDLER 0 0 0 0
                 (DWORD_of (unwind_handler_offset + offsetof_exception_handler_code)))) ;;;
  if negb (M_AMD64 cfg) then
    Console_Error "Exception unwind codegen not implemented" 0 ;;;
    ret false
  else
    (* mov rax, handler *)
    store uh (fun h => set_exception_handler_code (<[0%nat := 0x48]> (exception_handler_code h)) h) ;;;
    store uh (fun h => set_exception_handler_code (<[1%nat := 0xb8]> (exception_handler_code h)) h) ;;;
    store uh (fun h => set_exception_handler_code
                (memcpy_pointer (exception_handler_code h) 2 (addr_UnwindExceptionHandler cfg)) h) ;;;
    (* jmp rax *)
    store uh (fun h => set_exception_handler_code (<[10%nat := 0xff]> (exception_handler_code h)) h) ;;;
    store uh (fun h => set_exception_handler_code (<[11%nat := 0xe0]> (exception_handler_code h)) h) ;;;
    let* ok := Platform.VirtualProtectFromApp uh (UWP_JIT_EXCEPTION_HANDLER_SIZE cfg) PAGE_EXECUTE_READ in
    if negb ok then
      let* err := Platform.GetLastError in
      Console_Error "VirtualProtectFromApp(RX) for exception handler failed: %08X" err ;;;
      ret false
    else ret true.

(** [bool UWPInstallExceptionHandlerForJIT(void* start_pc, size_t code_size,
    void* unwind_handler)] *)
Definition UWPInstallExceptionHandlerForJIT (start_pc code_size unwind_handler : Z) : M bool :=
  let* ok := Platform.RtlInstallFunctionTableCallback
          (Z.lor (addr_UWPInstallExceptionHandlerForJIT cfg) 0x3)
          (DWORD64_of start_pc) (DWORD_of code_size) in
  if negb ok then
    let* err := Platform.GetLastError in
    Console_WriteLn "RtlInstallFunctionTableCallback() failed: %08X" err ;;;
    ret false
  else
    let uh := unwind_handler in
    (* unwind handler must be after code *)
    let unwind_handler_offset := DWORD64_of (unwind_handler - start_pc) in
    pxAssertRel (DWORD64_of (start_pc + code_size) <=? unwind_handler) "Unwind handler is not after code" ;;;
    pxAssertRel (code_size <=? 2 ^ 32 - 1) "Code size is <4GB" ;;;
    pxAssertRel (unwind_handler_offset <=? 2 ^ 32 - 1) "Unwind handler is <4GB away from code" ;;;
    (* protect it to RW *)
    let* ok := Platform.VirtualProtectFromApp uh (UWP_JIT_EXCEPTION_HANDLER_SIZE cfg) PAGE_READWRITE in
    if negb ok then
      let* err := Platform.GetLastError in
      Console_Error "VirtualProtectFromApp(RW) for exception handler failed: %08X" err ;;;
      ret false
    else
      (* add it to the handler chain *)
      let* tail := gets s_handler_tail in
      if tail =? 0 then
        modify (set_s_handler_head uh) ;;;
        modify (set_s_handler_tail uh) ;;;
        populate start_pc code_size uh unwind_handler_offset
      else
        let* ok := Platform.VirtualProtectFromApp tail (UWP_JIT_EXCEPTION_HANDLER_SIZE cfg) PAGE_READWRITE in
        if negb ok then
          let* err := Platform.GetLastError in
          Console_Error "VirtualProtectFromApp(RW) for previous handler failed: %08X" err ;;;
          ret false
        else
          store tail (set_next_unwind_handler uh) ;;;
          let* ok := Platform.VirtualProtectFromApp tail (UWP_JIT_EXCEPTION_HANDLER_SIZE cfg) PAGE_EXECUTE_READ in
          if negb ok then
            let* err := Platform.GetLastError in
            Console_Error "VirtualProtectFromApp(RX) for previous handler failed: %08X" err ;;;
            ret false
          else
            modify (set_s_handler_tail uh) ;;;
            populate start_pc code_size uh unwind_handler_offset.

End WithBuild.
End Registry.

(** The registry as a caller sees it: the two roots and the stored entries. *)
Definition registry (w : World) : Z * Z * gmap Z UnwindHandler :=
  (s_handler_head w, s_handler_tail w, heap w).

(** [chain hp p l]: following [next_unwind_handler] from [p] visits exactly
    the entries at the addresses [l], in that order, and ends at [nullptr]. *)
Inductive chain (hp : gmap Z UnwindHandler) : Z -> list Z -> Prop :=
  | chain_nil : chain hp 0 []
  | chain_cons (p : Z) (l : list Z) :
      p <> 0 ->
      chain hp (next_unwind_handler (deref hp p)) l ->
      chain hp p (p :: l).

(** [ControlPc] lies in the half-open code range of the entry at [p]. *)
Definition covers (hp : gmap Z UnwindHandler) (ControlPc p : Z) : bool :=
  (code_base (deref hp p) <=? ControlPc) && (ControlPc <? code_end (deref hp p)).

(** ** Reading traces *)

Definition sleeps (evs : list Event) : list Z :=
  flat_map (fun e => match e with EvSleep ms => [ms] | _ => [] end) evs.

Definition alloc_calls (evs : list Event) : nat :=
  length (List.filter (fun e => match e with EvVirtualAlloc _ _ _ _ _ => true | _ => false end) evs).

Definition is_refusal (a : option Answer) : bool :=
  match a with
  | Some (Grant _) => false
  | _ => true
  end.

(** The platform refuses the commit: the allocation itself or, on UWP for an
    executable mode, the reprotection that follows it. *)
Definition commit_refused (cfg : Build) (mode : PageProtectionMode) (ans : list Answer) : bool :=
  is_refusal (ans !! 0%nat)
  || (UWP cfg && CanExecute mode && is_refusal (ans !! 1%nat)).

(** The platform refuses a step of [UWPInstallExceptionHandlerForJIT] that
    comes before the new entry is linked: the callback installation, the
    read-write reprotection of the new entry, or (with a previous tail) the
    read-write reprotection of that tail. *)
Definition refused_before_linking (w : World) : bool :=
  is_refusal (answers w !! 0%nat)
  || is_refusal (answers w !! 1%nat)
  || (negb (s_handler_tail w =? 0) && is_refusal (answers w !! 2%nat)).

(** ** Concrete builds and worlds *)

Definition uwp_build : Build :=
  mkBuild true true 4096 4096 0x7ff600001000 0x7ff600002000.

Definition desktop_build : Build :=
  mkBuild false true 4096 4096 0x7ff600001000 0x7ff600002000.

(** A fresh process: nothing allocated, nothing registered. *)
Definition fresh_world (ans : list Answer) : World :=
  mkWorld ans ∅ 0 [] 0 0 ∅.

Definition write_only : PageProtectionMode := mkMode false true false.
Definition read_execute : PageProtectionMode := mkMode true false true.

(** A dispatcher whose dispatch faults with an access violation. *)
Definition faulting_dispatcher (addr : Z) : DispatchOutcome :=
  DispatchRaised EXCEPTION_ACCESS_VIOLATION.

(** The world after two code buffers were registered one after the other. *)
Definition two_buffers_world : World :=
  snd (Registry.UWPInstallExceptionHandlerForJIT uwp_build 0x20000 0x1000 0x21000
         (snd (Registry.UWPInstallExceptionHandlerForJIT uwp_build 0x10000 0x1000 0x11000
                 (fresh_world [Grant 1; Grant 1; Grant 1;
                               Grant 1; Grant 1; Grant 1; Grant 1; Grant 1])))).

(** ** Reasoning about runs *)

(** [wp m Q w]: running [m] from the world [w] ends with a result and a
    world that satisfy [Q]. *)
Definition wp {A : Type} (m : M A) (Q : A -> World -> Prop) (w : World) : Prop :=
  Q (fst (m w)) (snd (m w)).

(** ** Reading what a registration wrote *)

(** The integer a little-endian byte sequence stands for. *)
Fixpoint le_decode (bytes : list Z) : Z :=
  match bytes with
  | [] => 0
  | b :: rest => b + 256 * le_decode rest
  end.

(** Events that only report: console output, assertion and failure
    diagnostics. *)
Definition is_diagnostic (e : Event) : bool :=
  match e with
  | EvConsole _ _ | EvFailDev _ | EvAssertFailed _ => true
  | _ => false
  end.

(** A build without [_M_AMD64]. *)
Definition uwp_arm_build : Build :=
  mkBuild true false 4096 4096 0x7ff600001000 0x7ff600002000.

(** A stack overflow raised while dispatching. *)
Definition EXCEPTION_STACK_OVERFLOW : Z := 0xC00000FD.
Definition overflowing_dispatcher (addr : Z) : DispatchOutcome :=
  DispatchRaised EXCEPTION_STACK_OVERFLOW.

(** The world of two registered code buffers, with the platform ready to
    grant the five steps of a third registration. *)
Definition third_registration_world : World :=
  set_answers [Grant 1; Grant 1; Grant 1; Grant 1; Grant 1] two_buffers_world.

(** A dispatcher that handles every fault. *)
Definition handling_dispatcher (addr : Z) : DispatchOutcome := Dispatched true.

(** The calls into the platform among the events of a trace. *)
Definition platform_calls (evs : list Event) : list Event :=
  List.filter (fun e => negb (is_diagnostic e)) evs.

(** * Key names (UWP)

    [UWPKeyNames] holds a table from [VirtualKey] values to key names and
    the two conversions the UWP window uses for keyboard bindings. *)

(** The initializer list of [s_key_names], row by row: the enumerator of
    [winrt::Windows::System::VirtualKey] and the name given to it. *)
Definition s_key_names_rows : list (string * string) :=
  [("LeftButton", "LeftButton"); ("RightButton", "RightButton"); ("Cancel", "Cancel");
   ("MiddleButton", "MiddleButton"); ("XButton1", "XButton1"); ("XButton2", "XButton2");
   ("Back", "Back"); ("Tab", "Tab"); ("Clear", "Clear"); ("Enter", "Return");
   ("Shift", "Shift"); ("Control", "Control"); ("Menu", "Menu"); ("Pause", "Pause");
   ("CapitalLock", "CapitalLock"); ("Kana", "Kana"); ("Hangul", "Hangul");
   ("Junja", "Junja"); ("Final", "Final"); ("Hanja", "Hanja"); ("Kanji", "Kanji");
   ("Escape", "Escape"); ("Convert", "Convert"); ("NonConvert", "NonConvert");
   ("Accept", "Accept"); ("ModeChange", "ModeChange"); ("Space", "Space");
   ("PageUp", "PageUp"); ("PageDown", "PageDown"); ("End", "End"); ("Home", "Home");
   ("Left", "Left"); ("Up", "Up"); ("Right", "Right"); ("Down", "Down");
   ("Select", "Select"); ("Print", "Print"); ("Execute", "Execute");
   ("Snapshot", "Snapshot"); ("Insert", "Insert"); ("Delete", "Delete"); ("Help", "Help");
   ("Number0", "Number0"); ("Number1", "Number1"); ("Number2", "Number2");
   ("Number3", "Number3"); ("Number4", "Number4"); ("Number5", "Number5");
   ("Number6", "Number6"); ("Number7", "Number7"); ("Number8", "Number8");
   ("Number9", "Number9"); ("A", "A"); ("B", "B"); ("C", "C"); ("D", "D"); ("E", "E");
   ("F", "F"); ("G", "G"); ("H", "H"); ("I", "I"); ("J", "J"); ("K", "K"); ("L", "L");
   ("M", "M"); ("N", "N"); ("O", "O"); ("P", "P"); ("Q", "Q"); ("R", "R"); ("S", "S");
   ("T", "T"); ("U", "U"); ("V", "V"); ("W", "W"); ("X", "X"); ("Y", "Y"); ("Z", "Z");
   ("LeftWindows", "LeftWindows"); ("RightWindows", "RightWindows");
   ("Application", "Application"); ("Sleep", "Sleep"); ("NumberPad0", "Keypad+0");
   ("NumberPad1", "Keypad+1"); ("NumberPad2", "Keypad+2"); ("NumberPad3", "Keypad+3");
   ("NumberPad4", "Keypad+4"); ("NumberPad5", "Keypad+5"); ("NumberPad6", "Keypad+6");
   ("NumberPad7", "Keypad+7"); ("NumberPad8", "Keypad+8"); ("NumberPad9", "Keypad+9");
   ("Multiply", "Multiply"); ("Add", "Add"); ("Separator", "Separator");
   ("Subtract", "Subtract"); ("Decimal", "Decimal"); ("Divide", "Divide"); ("F1", "F1");
   ("F2", "F2"); ("F3", "F3"); ("F4", "F4"); ("F5", "F5"); ("F6", "F6"); ("F7", "F7");
   ("F8", "F8"); ("F9", "F9"); ("F10", "F10"); ("F11", "F11"); ("F12", "F12");
   ("F13", "F13"); ("F14", "F14"); ("F15", "F15"); ("F16", "F16"); ("F17", "F17");
   ("F18", "F18"); ("F19", "F19"); ("F20", "F20"); ("F21", "F21"); ("F22", "F22");
   ("F23", "F23"); ("F24", "F24"); ("NavigationView", "NavigationView");
   ("NavigationMenu", "NavigationMenu"); ("NavigationUp", "NavigationUp");
   ("NavigationDown", "NavigationDown"); ("NavigationLeft", "NavigationLeft");
   ("NavigationRight", "NavigationRight"); ("NavigationAccept", "NavigationAccept");
   ("NavigationCancel", "NavigationCancel"); ("NumberKeyLock", "NumberKeyLock");
   ("Scroll", "Scroll"); ("LeftShift", "LeftShift"); ("RightShift", "RightShift");
   ("LeftControl", "LeftControl"); ("RightControl", "RightControl");
   ("LeftMenu", "LeftMenu"); ("RightMenu", "RightMenu"); ("GoBack", "GoBack");
   ("GoForward", "GoForward"); ("Refresh", "Refresh"); ("Stop", "Stop");
   ("Search", "Search"); ("Favorites", "Favorites"); ("GoHome", "GoHome")].

(** [std::map<VirtualKey, const char*>] as its sequence of pairs in
    ascending key order.  [map_insert] is the insertion the initializer-list
    constructor performs for each row: a key that is already present keeps
    its value. *)
Fixpoint map_insert (k : Z) (v : string) (m : list (Z * string)) : list (Z * string) :=
  match m with
  | [] => [(k, v)]
  | (k', v') :: rest =>
      if k <? k' then (k, v) :: m
      else if k =? k' then m
      else (k', v') :: map_insert k v rest
  end.

(** [m.find(k)], with [None] for [m.end()]. *)
Definition map_find (k : Z) (m : list (Z * string)) : option string :=
  option_map snd (List.find (fun it => fst it =? k) m).

(** [static_cast<u32>] of a [VirtualKey] and [static_cast<VirtualKey>] of a
    [u32]; the enumeration is a 32-bit signed one. *)
Definition u32_of (z : Z) : Z := z mod 2 ^ 32.
Definition s32_of (z : Z) : Z := (z + 2 ^ 31) mod 2 ^ 32 - 2 ^ 31.

Module UWPKeyNames.
Section WithVirtualKey.
(** The numeric values of the enumerators come from a platform header that
    is not among the sources: [VirtualKey e] is the value of the enumerator
    named [e]. *)
Variable VirtualKey : string -> Z.

(** [static const std::map<VirtualKey, const char*> s_key_names = {...}] *)
Definition insert_row (m : list (Z * string)) (row : string * string) : list (Z * string) :=
  map_insert (VirtualKey (fst row)) (snd row) m.

Definition s_key_names : list (Z * string) :=
  fold_left insert_row s_key_names_rows [].

(** [static const char* GetKeyName(VirtualKey key)], [None] for [nullptr] *)
Definition GetKeyName (key : Z) : option string :=
  map_find key s_key_names.

(** [static std::optional<VirtualKey> GetKeyCodeForName(const std::string_view& key_name)] *)
Definition GetKeyCodeForName (key_name : string) : option Z :=
  option_map fst (List.find (fun it => String.eqb key_name (snd it)) s_key_names).

End WithVirtualKey.
End UWPKeyNames.

Module UWPNoGUIPlatform.
Section WithVirtualKey.
Variable VirtualKey : string -> Z.

(** [std::optional<u32> UWPNoGUIPlatform::ConvertHostKeyboardStringToCode(const std::string_view& str)] *)
Definition ConvertHostKeyboardStringToCode (str : string) : option Z :=
  match UWPKeyNames.GetKeyCodeForName VirtualKey str with
  | Some converted => Some (u32_of converted)
  | None => None
  end.

(** [std::optional<std::string> UWPNoGUIPlatform::ConvertHostKeyboardCodeToString(u32 code)] *)
Definition ConvertHostKeyboardCodeToString (code : Z) : option string :=
  match UWPKeyNames.GetKeyName VirtualKey (s32_of code) with
  | Some converted => Some converted
  | None => None
  end.

End WithVirtualKey.
End UWPNoGUIPlatform.

(** Two valuations to run the conversions on: every enumerator gets its row
    number (from 1), and in the second one [Hangul] shares the value of
    [Kana] and [Kanji] that of [Hanja]. *)
Definition row_number (e : string) : Z :=
  match list_find (fun row => String.eqb (fst row) e = true) s_key_names_rows with
  | Some (i, _) => Z.of_nat i + 1
  | None => 0
  end.

Definition row_number_with_aliases (e : string) : Z :=
  if String.eqb e "Hangul" then row_number "Kana"
  else if String.eqb e "Kanji" then row_number "Hanja"
  else row_number e.

(** The pairs of a map are in strictly ascending key order. *)
Fixpoint keys_ascending (m : list (Z * string)) : Prop :=
  match m with
  | [] => True
  | it :: rest => Forall (fun it' => fst it < fst it') rest /\ keys_ascending rest
  end.

(** Every enumerator of the table has a value the 32-bit signed enumeration
    can hold. *)
Definition values_fit (VirtualKey : string -> Z) : bool :=
  forallb (fun row => (- 2 ^ 31 <=? VirtualKey (fst row)) && (VirtualKey (fst row) <? 2 ^ 31))
          s_key_names_rows.

(** * Threads (common/Windows/WinThreads.cpp)

    Thread handles are [Z] with [0] for the null handle.  The platform keeps
    the set of open handles; whether a duplication, a thread creation or a
    wait succeeds is its decision, read from a list of answers as for the
    memory layer.  C++ objects live in a store indexed by their address, so
    that [a = a] is the same object on both sides. *)

Definition ERROR_SUCCESS : Z := 0.
Definition ERROR_INVALID_HANDLE : Z := 6.
Definition THREAD_QUERY_INFORMATION : Z := 0x0040.
Definition THREAD_SET_LIMITED_INFORMATION : Z := 0x0400.
Definition WAIT_OBJECT_0 : Z := 0.
Definition WAIT_FAILED : Z := 0xFFFFFFFF.
Definition INFINITE : Z := 0xFFFFFFFF.

Module Threading.

Inductive Call : Type :=
  | CallDuplicateHandle (hSourceHandle dwDesiredAccess ret : Z)
  | CallCloseHandle (hObject : Z) (ok : bool)
  | CallBeginThreadEx (stack_size ret : Z)
  | CallWaitForSingleObject (hHandle dwMilliseconds ret : Z)
  | CallSetThreadAffinityMask (dwThreadAffinityMask ret : Z)
  | CallAssertFailed (msg : string).

(** A [Threading::Thread]; a plain [Threading::ThreadHandle] is its base
    part [m_native_handle]. *)
Record Object : Type := mkObject {
  m_native_handle : Z;
  m_stack_size : Z
}.

Record State : Type := mkState {
  verdicts : list Answer;      (* what the platform will decide next *)
  open_handles : gset Z;       (* the handles the process holds open *)
  error : Z;                   (* what GetLastError returns *)
  calls : list Call;           (* what the program did, oldest first *)
  objects : gmap Z Object      (* the C++ objects, by address *)
}.

Definition obj (s : State) (p : Z) : Object :=
  default (mkObject 0 0) (objects s !! p).

Definition set_native_handle (p h : Z) (s : State) : State :=
  mkState (verdicts s) (open_handles s) (error s) (calls s)
          (<[p := mkObject h (m_stack_size (obj s p))]> (objects s)).

Definition set_stack_size (p size : Z) (s : State) : State :=
  mkState (verdicts s) (open_handles s) (error s) (calls s)
          (<[p := mkObject (m_native_handle (obj s p)) size]> (objects s)).

Definition record (c : Call) (s : State) : State :=
  mkState (verdicts s) (open_handles s) (error s) (calls s ++ [c]) (objects s).

Definition fail_with (err : Z) (s : State) : State :=
  mkState (verdicts s) (open_handles s) err (calls s) (objects s).

Definition next_verdict (s : State) : Answer * State :=
  match verdicts s with
  | [] => (Refuse ERROR_NOT_ENOUGH_MEMORY, s)
  | a :: rest => (a, mkState rest (open_handles s) (error s) (calls s) (objects s))
  end.

Definition open_handle (h : Z) (s : State) : State :=
  mkState (verdicts s) ({[h]} ∪ open_handles s) (error s) (calls s) (objects s).

(** ** The platform *)

(** [DuplicateHandle] within the current process: the source must be an
    open handle; the result is the call's verdict and the handle written to
    [lpTargetHandle]. *)
Definition DuplicateHandle (hSourceHandle dwDesiredAccess : Z) (s : State)
    : bool * Z * State :=
  if bool_decide (hSourceHandle ∈ open_handles s) then
    match next_verdict s with
    | (Grant p, s) =>
        (true, Z.pos p, record (CallDuplicateHandle hSourceHandle dwDesiredAccess (Z.pos p))
                          (open_handle (Z.pos p) s))
    | (Refuse err, s) =>
        (false, 0, record (CallDuplicateHandle hSourceHandle dwDesiredAccess 0)
                     (fail_with err s))
    end
  else
    (false, 0, record (CallDuplicateHandle hSourceHandle dwDesiredAccess 0)
                 (fail_with ERROR_INVALID_HANDLE s)).

(** [CloseHandle]: an open handle is closed; anything else is an error. *)
Definition CloseHandle (hObject : Z) (s : State) : bool * State :=
  if bool_decide (hObject ∈ open_handles s) then
    (true, record (CallCloseHandle hObject true)
             (mkState (verdicts s) (open_handles s ∖ {[hObject]}) (error s) (calls s)
                      (objects s)))
  else
    (false, record (CallCloseHandle hObject false) (fail_with ERROR_INVALID_HANDLE s)).

(** [_beginthreadex]: the handle of the new thread, or [0]. *)
Definition beginthreadex (stack_size : Z) (s : State) : Z * State :=
  match next_verdict s with
  | (Grant p, s) => (Z.pos p, record (CallBeginThreadEx stack_size (Z.pos p))
                               (open_handle (Z.pos p) s))
  | (Refuse err, s) => (0, record (CallBeginThreadEx stack_size 0) (fail_with err s))
  end.

Definition WaitForSingleObject (hHandle dwMilliseconds : Z) (s : State) : Z * State :=
  if bool_decide (hHandle ∈ open_handles s) then
    match next_verdict s with
    | (Grant _, s) =>
        (WAIT_OBJECT_0, record (CallWaitForSingleObject hHandle dwMilliseconds WAIT_OBJECT_0) s)
    | (Refuse err, s) =>
        (WAIT_FAILED, record (CallWaitForSingleObject hHandle dwMilliseconds WAIT_FAILED)
                        (fail_with err s))
    end
  else
    (WAIT_FAILED, record (CallWaitForSingleObject hHandle dwMilliseconds WAIT_FAILED)
                    (fail_with ERROR_INVALID_HANDLE s)).

(** [SetThreadAffinityMask] on the calling thread: the previous mask, or
    [0] on failure. *)
Definition SetThreadAffinityMask (dwThreadAffinityMask : Z) (s : State) : Z * State :=
  match next_verdict s with
  | (Grant previous, s) =>
      (Z.pos previous, record (CallSetThreadAffinityMask dwThreadAffinityMask (Z.pos previous)) s)
  | (Refuse err, s) =>
      (0, record (CallSetThreadAffinityMask dwThreadAffinityMask 0) (fail_with err s))
  end.

(** [pxAssertRel] and [pxFailRel] on this side, as for the memory layer: a
    failed check is recorded and the code after it runs. *)
Definition pxAssertRel_thread (cond : bool) (msg : string) (s : State) : State :=
  if cond then s else record (CallAssertFailed msg) s.
Definition pxFailRel_thread (msg : string) (s : State) : State :=
  record (CallAssertFailed msg) s.

(** ** ThreadHandle *)

Definition copy_access : Z := Z.lor THREAD_QUERY_INFORMATION THREAD_SET_LIMITED_INFORMATION.

(** [ThreadHandle::ThreadHandle(const ThreadHandle& handle)].  The member's
    default initializer is in Threading.h, which is not among the sources:
    the new object is taken as the store holds it. *)
Definition ThreadHandle_copy (this handle : Z) (s : State) : State :=
  if negb (m_native_handle (obj s handle) =? 0) then
    let '(ok, new_handle, s) :=
      DuplicateHandle (m_native_handle (obj s handle)) copy_access s in
    if ok then set_native_handle this new_handle s else s
  else s.

(** [ThreadHandle::ThreadHandle(ThreadHandle&& handle)] *)
Definition ThreadHandle_move (this handle : Z) (s : State) : State :=
  let s := set_native_handle this (m_native_handle (obj s handle)) s in
  set_native_handle handle 0 s.

(** [ThreadHandle::~ThreadHandle()] *)
Definition ThreadHandle_destroy (this : Z) (s : State) : State :=
  if negb (m_native_handle (obj s this) =? 0) then
    snd (CloseHandle (m_native_handle (obj s this)) s)
  else s.

(** [ThreadHandle& ThreadHandle::operator=(ThreadHandle&& handle)] *)
Definition ThreadHandle_assign_move (this handle : Z) (s : State) : State :=
  let s := if negb (m_native_handle (obj s this) =? 0)
           then snd (CloseHandle (m_native_handle (obj s this)) s)
           else s in
  let s := set_native_handle this (m_native_handle (obj s handle)) s in
  set_native_handle handle 0 s.

(** [ThreadHandle& ThreadHandle::operator=(const ThreadHandle& handle)] *)
Definition ThreadHandle_assign_copy (this handle : Z) (s : State) : State :=
  let s := if negb (m_native_handle (obj s this) =? 0)
           then set_native_handle this 0 (snd (CloseHandle (m_native_handle (obj s this)) s))
           else s in
  let '(ok, new_handle, s) :=
    DuplicateHandle (m_native_handle (obj s handle)) copy_access s in
  if ok then set_native_handle this new_handle s else s.

(** [bool ThreadHandle::SetAffinity(u64 processor_mask) const]; the cast to
    [DWORD_PTR] keeps all 64 bits on the x64 targets of this code. *)
Definition SetAffinity (this processor_mask : Z) (s : State) : bool * State :=
  let processor_mask :=
    if processor_mask =? 0 then DWORD64_of (Z.lnot processor_mask) else processor_mask in
  let '(previous, s) := SetThreadAffinityMask processor_mask s in
  if negb (previous =? 0) then (true, s)
  else (negb (error s =? ERROR_SUCCESS), s).

(** ** Thread *)

(** [Thread::Thread(Thread&& thread) : ThreadHandle(thread),
    m_stack_size(thread.m_stack_size)]: the named parameter [thread] is an
    lvalue, so the base is built by the copy constructor. *)
Definition Thread_move (this thread : Z) (s : State) : State :=
  let s := ThreadHandle_copy this thread s in
  let s := set_stack_size this (m_stack_size (obj s thread)) s in
  set_stack_size thread 0 s.

(** [Thread::~Thread()], followed by the destructor of the base. *)
Definition Thread_destroy (this : Z) (s : State) : State :=
  let s := pxAssertRel_thread (m_native_handle (obj s this) =? 0)
             "Thread should be detached or joined at destruction" s in
  ThreadHandle_destroy this s.

(** [void Thread::SetStackSize(u32 size)] *)
Definition SetStackSize (this size : Z) (s : State) : State :=
  let s := pxAssertRel_thread (m_native_handle (obj s this) =? 0)
             "Can't change the stack size on a started thread" s in
  set_stack_size this size s.

(** [bool Thread::Start(EntryPoint func)] *)
Definition Start (this : Z) (s : State) : bool * State :=
  let s := pxAssertRel_thread (m_native_handle (obj s this) =? 0)
             "Can't start an already-started thread" s in
  let '(h, s) := beginthreadex (m_stack_size (obj s this)) s in
  let s := set_native_handle this h s in
  if m_native_handle (obj s this) =? 0 then (false, s)
  else (true, s).

(** [void Thread::Detach()] *)
Definition Detach (this : Z) (s : State) : State :=
  let s := pxAssertRel_thread (negb (m_native_handle (obj s this) =? 0))
             "Can't detach without a thread" s in
  let s := snd (CloseHandle (m_native_handle (obj s this)) s) in
  set_native_handle this 0 s.

(** [void Thread::Join()] *)
Definition Join (this : Z) (s : State) : State :=
  let s := pxAssertRel_thread (negb (m_native_handle (obj s this) =? 0))
             "Can't join without a thread" s in
  let '(res, s) := WaitForSingleObject (m_native_handle (obj s this)) INFINITE s in
  let s := if negb (res =? WAIT_OBJECT_0)
           then pxFailRel_thread "WaitForSingleObject() for thread join failed" s
           else s in
  let s := snd (CloseHandle (m_native_handle (obj s this)) s) in
  set_native_handle this 0 s.

(** [ThreadHandle& Thread::operator=(Thread&& thread)]: again [thread] is an
    lvalue, and [ThreadHandle::operator=(thread)] is the copy assignment. *)
Definition Thread_assign_move (this thread : Z) (s : State) : State :=
  let s := ThreadHandle_assign_copy this thread s in
  let s := set_stack_size this (m_stack_size (obj s thread)) s in
  set_stack_size thread 0 s.

(** Any call but a [CloseHandle] that the platform rejected. *)
Definition not_failed_close (c : Call) : Prop := forall h, c <> CallCloseHandle h false.

End Threading.

(** A process with one started thread object at address [0x100], holding
    the open handle [0x44]; no other object has been written to. *)
Definition one_thread (ans : list Answer) : Threading.State :=
  Threading.mkState ans {[0x44]} 0 []
    (<[0x100 := Threading.mkObject 0x44 0x10000]> ∅).

(** * Pointer input (Win32 and UWP windows)

    Both windows turn what the platform reports about the mouse into calls
    of [NoGUIHost::ProcessPlatformMouseButtonEvent] and
    [NoGUIHost::ProcessPlatformMouseWheelEvent].  What those hand to the
    input manager is kept as a list of requests, in the order issued.  A
    wheel amount [d = clamp(k / WHEEL_DELTA, -1, 1)] is kept as its
    numerator [clamp(k, -WHEEL_DELTA, WHEEL_DELTA)] over [WHEEL_DELTA], which
    is zero exactly when [d] is. *)

Definition MK_LBUTTON : Z := 0x0001.
Definition MK_RBUTTON : Z := 0x0002.
Definition MK_MBUTTON : Z := 0x0010.
Definition MK_XBUTTON1 : Z := 0x0020.
Definition MK_XBUTTON2 : Z := 0x0040.
Definition WHEEL_DELTA : Z := 120.

Definition LOWORD (l : Z) : Z := Z.land l 0xffff.
Definition HIWORD (l : Z) : Z := Z.land (Z.shiftr l 16) 0xffff.
(** [static_cast<s16>] of a 16-bit word *)
Definition s16_of (z : Z) : Z := (z + 2 ^ 15) mod 2 ^ 16 - 2 ^ 15.
(** [std::clamp(v, lo, hi)] *)
Definition clamp (v lo hi : Z) : Z := if v <? lo then lo else if hi <? v then hi else v.

Inductive InputPointerAxis : Type := WheelX | WheelY.

Inductive InputRequest : Type :=
  | InvokePointerButton (button : Z) (pressed : bool)
  | UpdatePointerRelativeDelta (axis : InputPointerAxis) (numerator : Z).

Module NoGUIHost.

(** [void NoGUIHost::ProcessPlatformMouseButtonEvent(s32 button, bool pressed)] *)
Definition ProcessPlatformMouseButtonEvent (button : Z) (pressed : bool) : list InputRequest :=
  [InvokePointerButton button pressed].

(** [void NoGUIHost::ProcessPlatformMouseWheelEvent(float x, float y)] *)
Definition ProcessPlatformMouseWheelEvent (x y : Z) : list InputRequest :=
  (if negb (x =? 0) then [UpdatePointerRelativeDelta WheelX x] else [])
  ++ (if negb (y =? 0) then [UpdatePointerRelativeDelta WheelY y] else []).

End NoGUIHost.

Module Win32Input.

(** [static constexpr DWORD masks[]] of [WndProc] *)
Definition masks : list Z := [MK_LBUTTON; MK_RBUTTON; MK_MBUTTON; MK_XBUTTON1; MK_XBUTTON2].

(** The body of the mouse-button cases of [Win32NoGUIPlatform::WndProc]:
    the new [m_last_mouse_buttons] and the requests issued. *)
Definition WndProc_mouse_button (m_last_mouse_buttons wParam : Z) : Z * list InputRequest :=
  let buttons := DWORD_of wParam in
  let changed := Z.lxor m_last_mouse_buttons buttons in
  (buttons,
   flat_map (fun i : nat =>
               let mask := nth i masks 0 in
               if negb (Z.land changed mask =? 0)
               then NoGUIHost.ProcessPlatformMouseButtonEvent
                      (Z.of_nat i) (negb (Z.land buttons mask =? 0))
               else [])
            (seq 0 (length masks))).

(** The body of the cases [WM_MOUSEWHEEL] ([horizontal = false]) and
    [WM_MOUSEHWHEEL] ([horizontal = true]) of [WndProc]. *)
Definition WndProc_mouse_wheel (horizontal : bool) (wParam : Z) : list InputRequest :=
  let d := clamp (s16_of (HIWORD wParam)) (- WHEEL_DELTA) WHEEL_DELTA in
  NoGUIHost.ProcessPlatformMouseWheelEvent (if horizontal then d else 0)
                                           (if negb horizontal then d else 0).

End Win32Input.

Module UWPInput.

(** [void UWPNoGUIPlatform::UpdateMouseButtonState(const PointerPoint& point)]:
    [states] are the left, right and middle button of the point; the result
    is the new [m_last_mouse_state] and the requests issued. *)
Definition UpdateMouseButtonState (m_last_mouse_state states : list bool)
    : list bool * list InputRequest :=
  fold_left
    (fun (acc : list bool * list InputRequest) (i : nat) =>
       let '(last, reqs) := acc in
       if Bool.eqb (nth i last false) (nth i states false) then acc
       else (<[i := nth i states false]> last,
             reqs ++ NoGUIHost.ProcessPlatformMouseButtonEvent
                       (Z.of_nat i + 1) (nth i states false)))
    (seq 0 3) (m_last_mouse_state, []).

(** [void UWPNoGUIPlatform::OnPointerWheelChanged(...)], from the wheel
    delta and the horizontal flag of the point. *)
Definition OnPointerWheelChanged (delta : Z) (horizontal : bool) : list InputRequest :=
  let d := clamp delta (- WHEEL_DELTA) WHEEL_DELTA in
  NoGUIHost.ProcessPlatformMouseWheelEvent (if horizontal then d else 0)
                                           (if horizontal then d else 0).

End UWPInput.

(** The button state an observer of the requests holds: a request for a
    button sets that button. *)
Definition replay (reqs : list InputRequest) (held : Z -> bool) : Z -> bool :=
  fold_left (fun st r =>
               match r with
               | InvokePointerButton b v => fun b' => if b' =? b then v else st b'
               | UpdatePointerRelativeDelta _ _ => st
               end) reqs held.

(** Button [i] of a Win32 button word. *)
Definition held_in (buttons : Z) (i : Z) : bool :=
  negb (Z.land buttons (nth (Z.to_nat i) Win32Input.masks 0) =? 0).

(** The request of a button renumbered one higher. *)
Definition one_higher (r : InputRequest) : InputRequest :=
  match r with
  | InvokePointerButton b v => InvokePointerButton (b + 1) v
  | UpdatePointerRelativeDelta axis n => UpdatePointerRelativeDelta axis n
  end.

(** The requests about the left, right and middle button. *)
Definition main_buttons (reqs : list InputRequest) : list InputRequest :=
  List.filter (fun r => match r with
                        | InvokePointerButton b _ => b <? 3
                        | UpdatePointerRelativeDelta _ _ => false
                        end) reqs.

(** * The Win32 window

    [Win32NoGUIPlatform] owns one window.  What the platform holds for a
    window (its style words and its rectangle) is part of the state; what
    the platform decides during a call is passed in as a [Desktop].  Style
    words are kept as unsigned 32-bit patterns, [~] is [Z.lnot]; a window
    scale [dpi / 96] is kept as its numerator over 96. *)

Definition WS_OVERLAPPEDWINDOW : Z := 0x00CF0000.
Definition WS_CAPTION : Z := 0x00C00000.
Definition WS_MINIMIZEBOX : Z := 0x00020000.
Definition WS_SYSMENU : Z := 0x00080000.
Definition WS_SIZEBOX : Z := 0x00040000.
Definition WS_POPUP : Z := 0x80000000.
Definition WS_EX_DLGMODALFRAME : Z := 0x00000001.
Definition WS_EX_CLIENTEDGE : Z := 0x00000200.
Definition WS_EX_STATICEDGE : Z := 0x00020000.
Definition CW_USEDEFAULT : Z := - 2 ^ 31.

(** [static constexpr DWORD WINDOWED_STYLE], [WINDOWED_EXSTYLE], [FULLSCREEN_STYLE] *)
Definition WINDOWED_STYLE : Z :=
  Z.lor (Z.lor (Z.lor (Z.lor WS_OVERLAPPEDWINDOW WS_CAPTION) WS_MINIMIZEBOX) WS_SYSMENU)
        WS_SIZEBOX.
Definition WINDOWED_EXSTYLE : Z :=
  Z.lor (Z.lor WS_EX_DLGMODALFRAME WS_EX_CLIENTEDGE) WS_EX_STATICEDGE.
Definition FULLSCREEN_STYLE : Z := Z.lor WS_POPUP WS_MINIMIZEBOX.

(** [NoGUIPlatform::DEFAULT_WINDOW_WIDTH], [DEFAULT_WINDOW_HEIGHT] *)
Definition DEFAULT_WINDOW_WIDTH : Z := 1280.
Definition DEFAULT_WINDOW_HEIGHT : Z := 720.

Record RECT : Type := mkRECT { left : Z; top : Z; right : Z; bottom : Z }.

(** What the platform holds for a window. *)
Record WindowState : Type := mkWindowState {
  ws_style : Z;
  ws_exstyle : Z;
  ws_rect : RECT
}.

(** What the platform decides during one call. *)
Record Desktop : Type := mkDesktop {
  CreateWindowExW_result : Z;            (* the new window, 0 on failure *)
  default_placement : RECT;              (* where a CW_USEDEFAULT window goes *)
  GetDpiForWindow : option Z;            (* None: user32 does not export it *)
  MonitorFromWindow_result : Z;          (* the nearest monitor, 0 when none *)
  GetMonitorInfo_result : option RECT;   (* its rcMonitor, None on failure *)
  GetWindowRect_ok : bool
}.

Inductive UiCall : Type :=
  | CallCreateWindowExW (dwExStyle dwStyle X Y nWidth nHeight ret : Z)
  | CallShowWindow (hwnd : Z)
  | CallUpdateWindow (hwnd : Z)
  | CallMessageBoxW (text : string)
  | CallDestroyWindow (hwnd : Z).

Record Win32 : Type := mkWin32 {
  m_hwnd : Z;
  m_fullscreen : bool;
  m_windowed_rect : RECT;
  m_window_scale : Z;
  m_last_mouse_buttons : Z;
  s_is_fullscreen : bool;                (* of NoGUIHost *)
  settings : gmap string Z;              (* section NoGUI of the base settings *)
  windows : gmap Z WindowState;          (* the platform's windows *)
  ui_calls : list UiCall
}.

Module Win32NoGUIPlatform.

Definition window_of (p : Win32) (hwnd : Z) : WindowState :=
  default (mkWindowState 0 0 (mkRECT 0 0 0 0)) (windows p !! hwnd).

Definition with_window (hwnd : Z) (f : WindowState -> WindowState) (p : Win32) : Win32 :=
  mkWin32 (m_hwnd p) (m_fullscreen p) (m_windowed_rect p) (m_window_scale p)
          (m_last_mouse_buttons p) (s_is_fullscreen p) (settings p)
          (<[hwnd := f (window_of p hwnd)]> (windows p)) (ui_calls p).

Definition ui (c : UiCall) (p : Win32) : Win32 :=
  mkWin32 (m_hwnd p) (m_fullscreen p) (m_windowed_rect p) (m_window_scale p)
          (m_last_mouse_buttons p) (s_is_fullscreen p) (settings p)
          (windows p) (ui_calls p ++ [c]).

(** [SetWindowLongPtrW(hwnd, GWL_STYLE, style)], [... GWL_EXSTYLE ...] and
    [SetWindowPos(hwnd, NULL, X, Y, cx, cy, SWP_SHOWWINDOW)] *)
Definition SetWindowLongPtrW_style (hwnd style : Z) : Win32 -> Win32 :=
  with_window hwnd (fun w => mkWindowState style (ws_exstyle w) (ws_rect w)).
Definition SetWindowLongPtrW_exstyle (hwnd exstyle : Z) : Win32 -> Win32 :=
  with_window hwnd (fun w => mkWindowState (ws_style w) exstyle (ws_rect w)).
Definition SetWindowPos (hwnd X Y cx cy : Z) : Win32 -> Win32 :=
  with_window hwnd (fun w => mkWindowState (ws_style w) (ws_exstyle w)
                                           (mkRECT X Y (X + cx) (Y + cy))).

(** [bool NoGUIHost::GetSavedPlatformWindowGeometry(s32* x, s32* y, s32* width, s32* height)] *)
Definition GetSavedPlatformWindowGeometry (p : Win32) : option (Z * Z * Z * Z) :=
  match settings p !! "WindowX"%string with
  | None => None
  | Some x =>
      match settings p !! "WindowY"%string with
      | None => None
      | Some y =>
          match settings p !! "WindowWidth"%string with
          | None => None
          | Some width =>
              match settings p !! "WindowHeight"%string with
              | None => None
              | Some height => Some (x, y, width, height)
              end
          end
      end
  end.

(** [void NoGUIHost::SavePlatformWindowGeometry(s32 x, s32 y, s32 width, s32 height)] *)
Definition SavePlatformWindowGeometry (x y width height : Z) (p : Win32) : Win32 :=
  if s_is_fullscreen p then p
  else
    mkWin32 (m_hwnd p) (m_fullscreen p) (m_windowed_rect p) (m_window_scale p)
            (m_last_mouse_buttons p) (s_is_fullscreen p)
            (<["WindowHeight"%string := height]>
               (<["WindowWidth"%string := width]>
                  (<["WindowY"%string := y]> (<["WindowX"%string := x]> (settings p)))))
            (windows p) (ui_calls p).

(** [static float GetWindowScale(HWND hwnd)], as a numerator over 96 *)
Definition GetWindowScale (d : Desktop) (hwnd : Z) : Z :=
  match GetDpiForWindow d with
  | None => 96
  | Some window_dpi =>
      (* less than 100% scaling seems unlikely. *)
      let dpi := if negb (hwnd =? 0) then window_dpi else 96 in
      if dpi >? 0 then Z.max 96 dpi else 96
  end.

(** [void Win32NoGUIPlatform::SetFullscreen(bool enabled)] *)
Definition SetFullscreen (d : Desktop) (enabled : bool) (p : Win32) : Win32 :=
  if (m_hwnd p =? 0) || Bool.eqb (m_fullscreen p) enabled then p
  else
    let style := ws_style (window_of p (m_hwnd p)) in
    let exstyle := ws_exstyle (window_of p (m_hwnd p)) in
    let finish (p : Win32) (style exstyle : Z) (rc : RECT) : Win32 :=
      let p := SetWindowLongPtrW_style (m_hwnd p) style p in
      let p := SetWindowLongPtrW_exstyle (m_hwnd p) exstyle p in
      let p := SetWindowPos (m_hwnd p) (left rc) (top rc)
                            (right rc - left rc) (bottom rc - top rc) p in
      mkWin32 (m_hwnd p) enabled (m_windowed_rect p) (m_window_scale p)
              (m_last_mouse_buttons p) (s_is_fullscreen p) (settings p)
              (windows p) (ui_calls p) in
    if enabled then
      if MonitorFromWindow_result d =? 0 then p
      else
        match GetMonitorInfo_result d with
        | None => p
        | Some rcMonitor =>
            if negb (GetWindowRect_ok d) then p
            else
              let p := mkWin32 (m_hwnd p) (m_fullscreen p)
                               (ws_rect (window_of p (m_hwnd p))) (m_window_scale p)
                               (m_last_mouse_buttons p) (s_is_fullscreen p) (settings p)
                               (windows p) (ui_calls p) in
              let style := Z.lor (Z.land style (Z.lnot WINDOWED_STYLE)) FULLSCREEN_STYLE in
              let exstyle := Z.land style (Z.lnot WINDOWED_EXSTYLE) in
              finish p style exstyle rcMonitor
        end
    else
      let style := Z.lor (Z.land style (Z.lnot FULLSCREEN_STYLE)) WINDOWED_STYLE in
      let exstyle := Z.lor exstyle WINDOWED_EXSTYLE in
      finish p style exstyle (m_windowed_rect p).

(** [bool Win32NoGUIPlatform::CreatePlatformWindow(std::string title)]; the
    platform creates the window with the style words it is asked for, at the
    rectangle it is asked for or, for [CW_USEDEFAULT], where it chooses. *)
Definition CreatePlatformWindow (d : Desktop) (p : Win32) : bool * Win32 :=
  let '(window_x, window_y, window_width, window_height) :=
    match GetSavedPlatformWindowGeometry p with
    | Some g => g
    | None => (CW_USEDEFAULT, CW_USEDEFAULT, DEFAULT_WINDOW_WIDTH, DEFAULT_WINDOW_HEIGHT)
    end in
  let hwnd := CreateWindowExW_result d in
  let p := ui (CallCreateWindowExW WS_EX_CLIENTEDGE WINDOWED_STYLE
                 window_x window_y window_width window_height hwnd) p in
  if hwnd =? 0 then
    (false, ui (CallMessageBoxW "CreateWindowEx failed.") p)
  else
    let p := with_window hwnd
               (fun _ => mkWindowState WINDOWED_STYLE WS_EX_CLIENTEDGE
                           (if window_x =? CW_USEDEFAULT then default_placement d
                            else mkRECT window_x window_y (window_x + window_width)
                                        (window_y + window_height))) p in
    (* deliberately not stored to m_hwnd yet, because otherwise the msg handlers will run *)
    let p := ui (CallUpdateWindow hwnd) (ui (CallShowWindow hwnd) p) in
    let p := mkWin32 hwnd (m_fullscreen p) (m_windowed_rect p) (GetWindowScale d hwnd) 0
                     (s_is_fullscreen p) (settings p) (windows p) (ui_calls p) in
    let p := if m_fullscreen p then SetFullscreen d true p else p in
    (true, p).

(** [void Win32NoGUIPlatform::DestroyPlatformWindow()] *)
Definition DestroyPlatformWindow (d : Desktop) (p : Win32) : Win32 :=
  if m_hwnd p =? 0 then p
  else
    let p :=
      if negb (m_fullscreen p) && GetWindowRect_ok d then
        let rc := ws_rect (window_of p (m_hwnd p)) in
        SavePlatformWindowGeometry (left rc) (top rc) (right rc - left rc)
                                   (bottom rc - top rc) p
      else p in
    let p := ui (CallDestroyWindow (m_hwnd p)) p in
    mkWin32 0 (m_fullscreen p) (m_windowed_rect p) (m_window_scale p)
            (m_last_mouse_buttons p) (s_is_fullscreen p) (settings p)
            (delete (m_hwnd p) (windows p)) (ui_calls p).

(** [bool Win32NoGUIPlatform::RequestRenderWindowSize(s32 new_window_width,
    s32 new_window_height)]; [SetWindowPos_ok] is the platform's verdict on
    the move. *)
Definition RequestRenderWindowSize (d : Desktop) (SetWindowPos_ok : bool)
    (new_window_width new_window_height : Z) (p : Win32) : bool * Win32 :=
  if (m_hwnd p =? 0) || m_fullscreen p || negb (GetWindowRect_ok d) then (false, p)
  else
    let rc := ws_rect (window_of p (m_hwnd p)) in
    if SetWindowPos_ok
    then (true, SetWindowPos (m_hwnd p) (left rc) (top rc)
                             new_window_width new_window_height p)
    else (false, p).

End Win32NoGUIPlatform.

(** A desktop on which everything succeeds: one 1920 x 1080 monitor. *)
Definition plain_desktop : Desktop :=
  mkDesktop 0x50 (mkRECT 100 100 1380 820) (Some 96) 0x7 (Some (mkRECT 0 0 1920 1080)) true.

(** A process with no window yet and empty settings. *)
Definition no_window : Win32 :=
  mkWin32 0 false (mkRECT 0 0 0 0) 96 0 false ∅ ∅ [].

(** The window of [plain_desktop], created with no saved geometry. *)
Definition plain_window : Win32 :=
  snd (Win32NoGUIPlatform.CreatePlatformWindow plain_desktop no_window).

(** * Delivery of a fault raised while a fault is being dispatched

    [PageFault] says what one invocation of a handler returns once an
    exception raised by the dispatch has reached that invocation's
    [__except].  Which handler the platform offers such an exception to
    first is not decided by the invocation: the vectored handlers of the
    process are called before any frame-based handler, for a nested
    exception as for any other.  On the desktop build
    [_platform_InstallSignalHandler] makes [SysPageFaultExceptionFilter] the
    first vectored handler; on UWP it installs nothing, and
    [UnwindExceptionHandler] is reached as the frame handler of the
    generated code.  [PageFault_Mutex] is declared in a header that is not
    among the sources: whether it is recursive is a parameter. *)

Inductive MutexKind : Type := PlainMutex | RecursiveMutex.

(** What becomes of a handler invocation. *)
Inductive Delivered (A : Type) : Type :=
  | Answered (a : A)      (* the handler returned [a] *)
  | Unhandled (code : Z)  (* an exception with this code leaves the handler *)
  | Continued             (* a vectored handler answered continue-execution for
                             the nested fault: the interrupted dispatch goes on *)
  | Relocked              (* the thread requests [PageFault_Mutex] while it holds
                             it, and the mutex is not recursive *)
  | OutOfFuel.
Arguments Answered {A} a.
Arguments Unhandled {A} code.
Arguments Continued {A}.
Arguments Relocked {A}.
Arguments OutOfFuel {A}.

(** [void _platform_InstallSignalHandler()]: whether
    [SysPageFaultExceptionFilter] is a vectored handler afterwards. *)
Definition _platform_InstallSignalHandler (cfg : Build) : bool := negb (UWP cfg).

Module Nested.
Section WithPlatform.
Variable vectored : bool.
Variable PageFault_Mutex : MutexKind.
Variable Source_PageFault : Z -> DispatchOutcome.
(** The [ExceptionInformation] of a fault raised while the fault at the
    given address is dispatched. *)
Variable nested_information : Z -> list Z.

(** [__try { body } __except (GetExceptionCode() == EXCEPTION_ACCESS_VIOLATION
    ? EXCEPTION_EXECUTE_HANDLER : EXCEPTION_CONTINUE_SEARCH) { return handler; }] *)
Definition caught {A : Type} (body : list FilterEvent * Delivered A) (handler : A)
    : list FilterEvent * Delivered A :=
  match body with
  | (evs, Unhandled code) =>
      if PageFault.except_filter code =? EXCEPTION_EXECUTE_HANDLER
      then (evs, Answered handler)
      else (evs, Unhandled code)
  | other => other
  end.

(** [DoSysPageFaultExceptionFilter] run by a thread that holds
    [PageFault_Mutex] [held] times, with the platform's delivery of an
    exception raised by the dispatch: first to the vectored handler, which is
    [SysPageFaultExceptionFilter] (the body under its [__except]) when
    [vectored], and, unless that answers continue-execution, on to the frame
    handlers, that is out of this function. *)
Fixpoint DoSysPageFaultExceptionFilter_delivered (fuel held : nat) (er : EXCEPTION_RECORD)
    : list FilterEvent * Delivered Z :=
  match fuel with
  | O => ([], OutOfFuel)
  | S fuel' =>
      if negb (ExceptionCode er =? EXCEPTION_ACCESS_VIOLATION) then
        ([], Answered EXCEPTION_CONTINUE_SEARCH)
      else
        (* std::unique_lock lock(PageFault_Mutex); *)
        match PageFault_Mutex, held with
        | PlainMutex, S _ => ([], Relocked)
        | _, _ =>
            let addr := nth 1 (ExceptionInformation er) 0 in
            match Source_PageFault addr with
            | Dispatched WasHandled =>
                ([EvLock; EvDispatch addr; EvUnlock],
                 Answered (if WasHandled then EXCEPTION_CONTINUE_EXECUTION
                           else EXCEPTION_CONTINUE_SEARCH))
            | DispatchRaised code =>
                let nested := mkEXCEPTION_RECORD code (nested_information addr) in
                let '(evs, first_chance) :=
                  if vectored
                  then caught (DoSysPageFaultExceptionFilter_delivered fuel' (S held) nested)
                              EXCEPTION_CONTINUE_SEARCH
                  else ([], Answered EXCEPTION_CONTINUE_SEARCH) in
                ([EvLock; EvDispatch addr] ++ evs,
                 match first_chance with
                 | Answered disposition =>
                     if disposition =? EXCEPTION_CONTINUE_EXECUTION then Continued
                     else Unhandled code
                 | Unhandled code' => Unhandled code'
                 | Continued => Continued
                 | Relocked => Relocked
                 | OutOfFuel => OutOfFuel
                 end)
            end
        end
  end.

(** [SysPageFaultExceptionFilter] and [UnwindExceptionHandler], called by the
    platform on a thread that does not hold the lock. *)
Definition SysPageFaultExceptionFilter_delivered (fuel : nat) (eps : EXCEPTION_POINTERS)
    : list FilterEvent * Delivered Z :=
  caught (DoSysPageFaultExceptionFilter_delivered fuel 0 (ExceptionRecord eps))
         EXCEPTION_CONTINUE_SEARCH.

Definition UnwindExceptionHandler_delivered (fuel : nat) (ExceptionRecord : EXCEPTION_RECORD)
    : list FilterEvent * Delivered EXCEPTION_DISPOSITION :=
  caught
    (match DoSysPageFaultExceptionFilter_delivered fuel 0 ExceptionRecord with
     | (evs, Answered result) =>
         (evs, Answered (if result =? EXCEPTION_CONTINUE_EXECUTION
                         then ExceptionContinueExecution
                         else ExceptionContinueSearch))
     | (evs, Unhandled code) => (evs, Unhandled code)
     | (evs, Continued) => (evs, Continued)
     | (evs, Relocked) => (evs, Relocked)
     | (evs, OutOfFuel) => (evs, OutOfFuel)
     end)
    ExceptionContinueSearch.

End WithPlatform.
End Nested.

(** The function-level answer, read as a delivery. *)
Definition delivered_of {A : Type} (r : Seh A) : Delivered A :=
  match r with
  | Returned a => Answered a
  | Raised code => Unhandled code
  end.

(** The nested fault is at the address of the fault being dispatched. *)
Definition same_address (addr : Z) : list Z := [0; addr].

(** A write fault at [0x5000]. *)
Definition recursive_fault : EXCEPTION_POINTERS :=
  mkEXCEPTION_POINTERS (mkEXCEPTION_RECORD EXCEPTION_ACCESS_VIOLATION [1; 0x5000]).

(** * Properties *)

(** ** Rules for runs *)

Section WpRules.
Context {A B : Type}.

Lemma wp_ret (a : A) (Q : A -> World -> Prop) (w : World) :
  Q a w -> wp (ret a) Q w.
Proof. exact id. Qed.

Lemma wp_bind (m : M A) (k : A -> M B) (Q : B -> World -> Prop) (w : World) :
  wp m (fun a w1 => wp (k a) Q w1) w -> wp (bind m k) Q w.
Proof. unfold wp, bind. destruct (m w) as [a w1]. exact id. Qed.

Lemma wp_gets (f : World -> A) (Q : A -> World -> Prop) (w : World) :
  Q (f w) w -> wp (gets f) Q w.
Proof. exact id. Qed.

End WpRules.

Lemma wp_modify (f : World -> World) (Q : unit -> World -> Prop) (w : World) :
  Q tt (f w) -> wp (modify f) Q w.
Proof. exact id. Qed.

Lemma wp_log (e : Event) (Q : unit -> World -> Prop) (w : World) :
  Q tt (set_trace (trace w ++ [e]) w) -> wp (log e) Q w.
Proof. exact id. Qed.

Lemma wp_next_answer (Q : Answer -> World -> Prop) (w : World) :
  match answers w with
  | [] => Q (Refuse ERROR_NOT_ENOUGH_MEMORY) w
  | a :: rest => Q a (set_answers rest w)
  end ->
  wp next_answer Q w.
Proof. unfold wp, next_answer. destruct (answers w); exact id. Qed.

(** An assertion changes nothing but the trace. *)
Lemma wp_pxAssertRel (cond : bool) (msg : string) (Q : unit -> World -> Prop) (w : World) :
  (forall evs : list Event, Q tt (set_trace (trace w ++ evs) w)) ->
  wp (pxAssertRel cond msg) Q w.
Proof.
  intros H. unfold pxAssertRel. destruct cond.
  - unfold wp, ret. cbn. specialize (H []). rewrite app_nil_r in H.
    destruct w; exact H.
  - apply wp_log, H.
Qed.

Create HintDb prims.
#[global] Hint Unfold
  Platform.VirtualAlloc Platform.VirtualAllocFromApp
  Platform.VirtualProtect Platform.VirtualProtectFromApp
  Platform.VirtualFree Platform.rejected
  Platform.RtlInstallFunctionTableCallback Platform.GetLastError Platform.Sleep
  Console_WriteLn Console_Warning Console_Error pxFailDev pxAssert
  store : prims.

(** Simplify what is read from a world that was just written. *)
Ltac simpl_world :=
  repeat match goal with
         | |- context [Z.pos ?p =? 0] => change (Z.pos p =? 0) with false
         end;
  cbn [fst snd answers vm last_error trace s_handler_head s_handler_tail heap
       set_answers set_vm set_last_error set_trace set_s_handler_head
       set_s_handler_tail set_heap negb andb orb].

Ltac mentions_variable x :=
  match goal with
  | v : _ |- _ => lazymatch x with context [v] => idtac end
  end.

(** Decide a closed test; split on the first undecided part of an open one. *)
Ltac split_test c :=
  lazymatch c with
  | negb ?d => split_test d
  | ?a && ?b => first [split_test a | split_test b]
  | ?a || ?b => first [split_test a | split_test b]
  | true => fail
  | false => fail
  | _ => tryif mentions_variable c
         then destruct c eqn:?
         else (let v := eval vm_compute in c in change c with v)
  end.

(** One step of a run, following the shape of the program. *)
Ltac wp_step :=
  lazymatch goal with
  | |- wp (bind _ _) _ _ => apply wp_bind
  | |- wp (ret _) _ _ => apply wp_ret
  | |- wp (gets _) _ _ => apply wp_gets
  | |- wp (modify _) _ _ => apply wp_modify
  | |- wp (log _) _ _ => apply wp_log
  | |- wp next_answer _ _ => apply wp_next_answer
  | |- wp (pxAssertRel _ _) _ _ => apply wp_pxAssertRel; intros ?
  | |- wp (if ?c then _ else _) _ _ => split_test c
  | |- wp (match ?a with _ => _ end) _ _ => destruct a eqn:?
  | |- match ?l with _ => _ end => destruct l eqn:?
  | |- wp _ _ _ => progress autounfold with prims
  end; simpl_world.

Ltac wp_run := simpl_world; repeat wp_step.

(** State a goal about [fst (m w)] and [snd (m w)] as a [wp]. *)
Ltac by_wp m w :=
  pattern (fst (m w)), (snd (m w));
  lazymatch goal with |- ?Q _ _ => change (wp m Q w) end.

(** Exhibit the events a run appended to the trace. *)
Ltac new_events :=
  rewrite <- ?app_assoc; cbn [app];
  first [ eexists; split; [reflexivity |]
        | exists []; split; [symmetry; apply app_nil_r |] ].

Ltac rewrite_tests :=
  repeat match goal with
         | H : ?c = true |- context [?c] => rewrite H
         | H : ?c = false |- context [?c] => rewrite H
         end.

(** ** ConvertToWinApi *)

(** C2, amended: for every protection triple except write-only (writable
    with neither readable nor executable), the constant produced by
    [ConvertToWinApi] grants every permission the triple asks for. *)
Theorem ConvertToWinApi_grants_unless_write_only (mode : PageProtectionMode) :
  (CanWrite mode = true -> CanRead mode = true \/ CanExecute mode = true) ->
  grants_requested mode (ConvertToWinApi mode).
Proof.
  destruct mode as [[] [] []]; cbn; intros H; repeat split; intros; try reflexivity;
    try discriminate.
  destruct H as [H | H]; [reflexivity | discriminate | discriminate].
Qed.

(** The amended statement at the read-execute triple. *)
Lemma ConvertToWinApi_grants_unless_write_only_witness :
  (CanWrite read_execute = true ->
   CanRead read_execute = true \/ CanExecute read_execute = true) /\
  grants_requested read_execute (ConvertToWinApi read_execute).
Proof.
  split; [intros _; left; reflexivity |].
  apply (ConvertToWinApi_grants_unless_write_only read_execute).
  intros _; left; reflexivity.
Defined.

(** C2, counterexample: a write-only request maps to [PAGE_NOACCESS], which
    does not grant the requested write access. *)
Lemma ConvertToWinApi_write_only_drops_write :
  CanWrite write_only = true /\
  ConvertToWinApi write_only = PAGE_NOACCESS /\
  winmode_allows_write (ConvertToWinApi write_only) = false /\
  ~ grants_requested write_only (ConvertToWinApi write_only).
Proof.
  repeat split.
  intros (_ & Hw & _). specialize (Hw eq_refl). discriminate Hw.
Qed.

(** Read and execute requests are granted for every triple. *)
Lemma ConvertToWinApi_keeps_read_execute (mode : PageProtectionMode) :
  (CanRead mode = true -> winmode_allows_read (ConvertToWinApi mode) = true) /\
  (CanExecute mode = true -> winmode_allows_execute (ConvertToWinApi mode) = true).
Proof. destruct mode as [[] [] []]; cbn; split; intros; congruence. Qed.

(** ** Page-fault exception filters *)

Section FilterProperties.
Variable Source_PageFault : Z -> DispatchOutcome.

(** C3: the filter answers continue-execution exactly when the exception is
    an access violation and the dispatcher reports the fault as handled; an
    exception with another code is answered continue-search without the
    dispatcher being consulted, and so is a fault the dispatcher does not
    handle. *)
Theorem DoSysPageFaultExceptionFilter_resumes_iff_handled (er : EXCEPTION_RECORD) :
  let addr := nth 1 (ExceptionInformation er) 0 in
  let run := PageFault.DoSysPageFaultExceptionFilter Source_PageFault er in
  (snd run = Returned EXCEPTION_CONTINUE_EXECUTION <->
     ExceptionCode er = EXCEPTION_ACCESS_VIOLATION /\
     Source_PageFault addr = Dispatched true) /\
  (ExceptionCode er <> EXCEPTION_ACCESS_VIOLATION ->
     run = ([], Returned EXCEPTION_CONTINUE_SEARCH)) /\
  (ExceptionCode er = EXCEPTION_ACCESS_VIOLATION ->
     Source_PageFault addr = Dispatched false ->
     run = ([EvLock; EvDispatch addr; EvUnlock], Returned EXCEPTION_CONTINUE_SEARCH)).
Proof.
  cbn zeta. unfold PageFault.DoSysPageFaultExceptionFilter.
  destruct (Z.eqb_spec (ExceptionCode er) EXCEPTION_ACCESS_VIOLATION) as [Hc | Hc]; cbn.
  - destruct (Source_PageFault _) as [[] | code]; cbn;
      repeat split; try tauto; try discriminate; try congruence;
      intros [_ ?]; discriminate.
  - repeat split; try tauto; try discriminate; intros [? _]; contradiction.
Qed.

(** One invocation of either outer handler, taken by itself: when the
    dispatch of an access violation raises an access violation and that
    exception reaches the invocation's own [__except], the handler answers
    continue-search, the dispatcher having been entered once and the
    dispatch lock taken once by this invocation.  Whether the exception
    gets there is the platform's doing, see [Nested]. *)
Theorem recursive_fault_continues_search (eps : EXCEPTION_POINTERS) :
  let er := ExceptionRecord eps in
  let addr := nth 1 (ExceptionInformation er) 0 in
  ExceptionCode er = EXCEPTION_ACCESS_VIOLATION ->
  Source_PageFault addr = DispatchRaised EXCEPTION_ACCESS_VIOLATION ->
  PageFault.SysPageFaultExceptionFilter Source_PageFault eps
    = ([EvLock; EvDispatch addr], Returned EXCEPTION_CONTINUE_SEARCH) /\
  PageFault.UnwindExceptionHandler Source_PageFault er
    = ([EvLock; EvDispatch addr], Returned ExceptionContinueSearch) /\
  dispatch_count (fst (PageFault.SysPageFaultExceptionFilter Source_PageFault eps)) = 1%nat /\
  lock_count (fst (PageFault.SysPageFaultExceptionFilter Source_PageFault eps)) = 1%nat /\
  dispatch_count (fst (PageFault.UnwindExceptionHandler Source_PageFault er)) = 1%nat /\
  lock_count (fst (PageFault.UnwindExceptionHandler Source_PageFault er)) = 1%nat.
Proof.
  cbn zeta. intros Hc Hd.
  unfold PageFault.SysPageFaultExceptionFilter, PageFault.UnwindExceptionHandler,
    PageFault.DoSysPageFaultExceptionFilter.
  rewrite Hc, Hd. cbn. repeat split.
Qed.

(** Whatever the dispatcher does, neither outer handler enters it more than
    once, and an exception that is not an access violation is not caught. *)
Lemma SysPageFaultExceptionFilter_single_dispatch (eps : EXCEPTION_POINTERS) :
  (dispatch_count (fst (PageFault.SysPageFaultExceptionFilter Source_PageFault eps)) <= 1)%nat /\
  (lock_count (fst (PageFault.SysPageFaultExceptionFilter Source_PageFault eps)) <= 1)%nat /\
  snd (PageFault.SysPageFaultExceptionFilter Source_PageFault eps)
    <> Raised EXCEPTION_ACCESS_VIOLATION.
Proof.
  unfold PageFault.SysPageFaultExceptionFilter, PageFault.DoSysPageFaultExceptionFilter.
  destruct (ExceptionCode (ExceptionRecord eps) =? EXCEPTION_ACCESS_VIOLATION); cbn;
    [| repeat split; try lia; discriminate].
  destruct (Source_PageFault _) as [[] | code]; cbn;
    try (repeat split; try lia; discriminate).
  unfold PageFault.except_filter.
  destruct (Z.eqb_spec code EXCEPTION_ACCESS_VIOLATION) as [-> | Hne]; cbn;
    repeat split; try lia; try discriminate.
  intros H; injection H as H; contradiction.
Qed.

End FilterProperties.

(** An access violation at [0x5000] whose dispatch faults again. *)
Lemma recursive_fault_continues_search_witness :
  ExceptionCode (mkEXCEPTION_RECORD EXCEPTION_ACCESS_VIOLATION [1; 0x5000])
    = EXCEPTION_ACCESS_VIOLATION /\
  faulting_dispatcher 0x5000 = DispatchRaised EXCEPTION_ACCESS_VIOLATION /\
  PageFault.SysPageFaultExceptionFilter faulting_dispatcher
      (mkEXCEPTION_POINTERS (mkEXCEPTION_RECORD EXCEPTION_ACCESS_VIOLATION [1; 0x5000]))
    = ([EvLock; EvDispatch 0x5000], Returned EXCEPTION_CONTINUE_SEARCH) /\
  PageFault.UnwindExceptionHandler faulting_dispatcher
      (mkEXCEPTION_RECORD EXCEPTION_ACCESS_VIOLATION [1; 0x5000])
    = ([EvLock; EvDispatch 0x5000], Returned ExceptionContinueSearch).
Proof.
  split; [reflexivity |]. split; [reflexivity |].
  destruct (recursive_fault_continues_search faulting_dispatcher
              (mkEXCEPTION_POINTERS (mkEXCEPTION_RECORD EXCEPTION_ACCESS_VIOLATION [1; 0x5000]))
              eq_refl eq_refl)
    as (H1 & H2 & _).
  split; [exact H1 | exact H2].
Defined.

(** ** HostSys *)

(** C6: a commit the platform refuses is reported as [false] (and only such a
    commit is); the allocation is attempted once, never retried; the only
    wait is one [Sleep(1000)], made exactly when the failure's error code is
    [ERROR_COMMITMENT_MINIMUM], and no other failure sleeps. *)
Theorem MmapCommitPtr_reports_failure (cfg : Build) (base size : Z)
    (mode : PageProtectionMode) (w : World) :
  let run := HostSys.MmapCommitPtr cfg base size mode w in
  exists evs : list Event,
    trace (snd run) = trace w ++ evs /\
    fst run = negb (commit_refused cfg mode (answers w)) /\
    alloc_calls evs = 1%nat /\
    sleeps evs =
      (if negb (fst run) && (last_error (snd run) =? ERROR_COMMITMENT_MINIMUM)
       then [1000] else []).
Proof.
  destruct w as [ans vm0 err tr hd tl hp]. cbn zeta.
  by_wp (HostSys.MmapCommitPtr cfg base size mode) (mkWorld ans vm0 err tr hd tl hp).
  unfold HostSys.MmapCommitPtr, commit_refused.
  wp_run; new_events; rewrite_tests; repeat split.
Qed.

(** C9: on UWP a successful commit of an executable mode first allocates
    with the execute permission stripped and then reprotects the range to
    [PAGE_EXECUTE_READWRITE], whatever the mode said about writing. *)
Theorem MmapCommitPtr_uwp_executable_is_rwx (cfg : Build) (base size : Z)
    (mode : PageProtectionMode) (w : World) :
  let run := HostSys.MmapCommitPtr cfg base size mode w in
  UWP cfg = true ->
  CanExecute mode = true ->
  fst run = true ->
  vm (snd run) !! base = Some (mkRegion size true PAGE_EXECUTE_READWRITE) /\
  winmode_allows_write PAGE_EXECUTE_READWRITE = true /\
  winmode_allows_execute (ConvertToWinApi (Execute false mode)) = false /\
  exists result : Z,
    trace (snd run) = trace w ++
      [EvVirtualAlloc base size MEM_COMMIT (ConvertToWinApi (Execute false mode)) result;
       EvVirtualProtect base size PAGE_EXECUTE_READWRITE true].
Proof.
  destruct w as [ans vm0 err tr hd tl hp]. cbn zeta. intros Hu Hx.
  by_wp (HostSys.MmapCommitPtr cfg base size mode) (mkWorld ans vm0 err tr hd tl hp).
  unfold HostSys.MmapCommitPtr. rewrite Hu, Hx.
  wp_run; intros Hr; try discriminate Hr.
  all: split; [apply lookup_insert_eq |].
  all: split; [reflexivity |].
  all: split; [destruct mode as [[] [] ?]; reflexivity |].
  all: rewrite <- ?app_assoc; eexists; reflexivity.
Qed.

(** A read-execute commit on UWP that the platform grants. *)
Lemma MmapCommitPtr_uwp_executable_is_rwx_witness :
  UWP uwp_build = true /\
  CanExecute read_execute = true /\
  fst (HostSys.MmapCommitPtr uwp_build 0x10000 0x1000 read_execute
         (fresh_world [Grant 0x10000; Grant 1])) = true /\
  vm (snd (HostSys.MmapCommitPtr uwp_build 0x10000 0x1000 read_execute
             (fresh_world [Grant 0x10000; Grant 1]))) !! 0x10000
    = Some (mkRegion 0x1000 true PAGE_EXECUTE_READWRITE).
Proof.
  split; [reflexivity |]. split; [reflexivity |]. split; [reflexivity |].
  exact (proj1 (MmapCommitPtr_uwp_executable_is_rwx uwp_build 0x10000 0x1000 read_execute
                  (fresh_world [Grant 0x10000; Grant 1]) eq_refl eq_refl eq_refl)).
Defined.

(** C10: [Munmap] with a null base does nothing at all; with any other base
    it asks the platform to release the allocation that starts at [base]
    with size 0, that is whole, so the [size] argument plays no part and the
    allocation at [base] is gone afterwards. *)
Theorem Munmap_releases_whole_allocation (base size : Z) (w : World) :
  HostSys.Munmap 0 size w = (tt, w) /\
  (base <> 0 ->
   HostSys.Munmap base size w = HostSys.Munmap base 0 w /\
   vm (snd (HostSys.Munmap base size w)) = delete base (vm w) /\
   exists ok : bool,
     trace (snd (HostSys.Munmap base size w))
       = trace w ++ [EvVirtualFree base 0 MEM_RELEASE ok]).
Proof.
  split; [reflexivity |].
  intros Hb. unfold HostSys.Munmap.
  destruct (Z.eqb_spec base 0) as [? | _]; [contradiction |].
  split; [reflexivity |].
  destruct w as [ans vm0 err tr hd tl hp].
  by_wp (Platform.VirtualFree base 0 MEM_RELEASE ;;; ret tt) (mkWorld ans vm0 err tr hd tl hp).
  wp_run.
  - split; [reflexivity | eexists; reflexivity].
  - split; [symmetry; apply delete_id; assumption | eexists; reflexivity].
Qed.

(** Releasing, with a size that is not the allocation's, what [Mmap] allocated. *)
Lemma Munmap_releases_whole_allocation_witness :
  0x10000 <> 0 /\
  vm (snd (HostSys.Munmap 0x10000 0x2000
             (snd (HostSys.Mmap desktop_build 0 0x4000 (fresh_world [Grant 0x10000])))))
    = delete 0x10000
        (vm (snd (HostSys.Mmap desktop_build 0 0x4000 (fresh_world [Grant 0x10000])))).
Proof.
  split; [discriminate |].
  exact (proj1 (proj2 (proj2 (Munmap_releases_whole_allocation 0x10000 0x2000
           (snd (HostSys.Mmap desktop_build 0 0x4000 (fresh_world [Grant 0x10000]))))
           ltac:(discriminate)))).
Defined.

(** C5, counterexample: a reservation whose address and size are not
    multiples of the page size is passed to the platform as it is and
    succeeds when the platform grants it. *)
Lemma MmapReservePtr_accepts_unaligned :
  pagesize desktop_build = 4096 /\
  0x10001 mod pagesize desktop_build <> 0 /\
  100 mod pagesize desktop_build <> 0 /\
  HostSys.MmapReservePtr desktop_build 0x10001 100 (fresh_world [Grant 0x10000])
    = (0x10000,
       mkWorld [] {[ 0x10000 := mkRegion 100 false PAGE_NOACCESS ]} 0
               [EvVirtualAlloc 0x10001 100 MEM_RESERVE PAGE_NOACCESS 0x10000] 0 0 ∅).
Proof. repeat split; discriminate. Qed.


(** C5, amended: no arena operation checks the alignment of its address or
    size and none reports [InvalidRange].  Reserve, commit, decommit and
    protect hand the caller's address and size to the platform unchanged,
    release hands over the address; the result is the platform's.  Protect
    alone tests the size (never the address) against the page size, and only
    records a failed assertion before making the same platform call. *)
Theorem arena_operations_forward_arguments (cfg : Build) (base size : Z)
    (mode : PageProtectionMode) (w : World) :
  (exists r : Z,
     fst (HostSys.MmapReservePtr cfg base size w) = r /\
     trace (snd (HostSys.MmapReservePtr cfg base size w))
       = trace w ++ [EvVirtualAlloc base size MEM_RESERVE PAGE_NOACCESS r]) /\
  (exists (r : Z) (evs : list Event),
     trace (snd (HostSys.MmapCommitPtr cfg base size mode w))
       = trace w ++
         EvVirtualAlloc base size MEM_COMMIT
           (ConvertToWinApi (if UWP cfg then Execute false mode else mode)) r :: evs) /\
  (exists ok : bool,
     trace (snd (HostSys.MmapResetPtr base size w))
       = trace w ++ [EvVirtualFree base size MEM_DECOMMIT ok]) /\
  (exists ok : bool,
     trace (snd (HostSys.Munmap base size w))
       = trace w ++ (if base =? 0 then [] else [EvVirtualFree base 0 MEM_RELEASE ok])) /\
  (exists (ok : bool) (evs : list Event),
     trace (snd (HostSys.MemProtect cfg base size mode w))
       = trace w ++
         (if Z.land size (pagesize cfg - 1) =? 0 then []
          else [EvAssertFailed "(size & (__pagesize - 1)) == 0"]) ++
         EvVirtualProtect base size (ConvertToWinApi mode) ok :: evs).
Proof.
  destruct w as [ans vm0 err tr hd tl hp].
  repeat apply conj.
  - by_wp (HostSys.MmapReservePtr cfg base size) (mkWorld ans vm0 err tr hd tl hp).
    unfold HostSys.MmapReservePtr.
    wp_run; eexists; split; reflexivity.
  - by_wp (HostSys.MmapCommitPtr cfg base size mode) (mkWorld ans vm0 err tr hd tl hp).
    unfold HostSys.MmapCommitPtr.
    wp_run; rewrite <- ?app_assoc; cbn [app]; do 2 eexists; reflexivity.
  - by_wp (HostSys.MmapResetPtr base size) (mkWorld ans vm0 err tr hd tl hp).
    unfold HostSys.MmapResetPtr.
    wp_run; eexists; reflexivity.
  - by_wp (HostSys.Munmap base size) (mkWorld ans vm0 err tr hd tl hp).
    unfold HostSys.Munmap.
    wp_run; first [ exists true; symmetry; apply app_nil_r | eexists; reflexivity ].
  - by_wp (HostSys.MemProtect cfg base size mode) (mkWorld ans vm0 err tr hd tl hp).
    unfold HostSys.MemProtect.
    wp_run; rewrite <- ?app_assoc; cbn [app]; do 2 eexists; reflexivity.
Qed.

(** The executable allocation, success side: a non-null result of [Mmap] is
    a committed range whose protection allows reading and executing. *)
Lemma Mmap_success_is_executable (cfg : Build) (base size : Z) (w : World) :
  let run := HostSys.Mmap cfg base size w in
  fst run = 0 \/
  vm (snd run) !! fst run = Some (mkRegion size true PAGE_EXECUTE_READWRITE) /\
  winmode_allows_read PAGE_EXECUTE_READWRITE = true /\
  winmode_allows_execute PAGE_EXECUTE_READWRITE = true.
Proof.
  destruct w as [ans vm0 err tr hd tl hp]. cbn zeta.
  by_wp (HostSys.Mmap cfg base size) (mkWorld ans vm0 err tr hd tl hp).
  unfold HostSys.Mmap.
  wp_run; first [ left; reflexivity | right ];
    (split; [apply lookup_insert_eq | split; reflexivity]).
Qed.

(** C4, failure side, at a concrete run on UWP: the platform grants the
    read-write allocation at [0x10000] and refuses the reprotection.  [Mmap]
    returns null, but its release request carries the allocation's size with
    [MEM_RELEASE], which the platform rejects, so the allocation is still
    there; [Munmap] on the same address, which passes size 0, releases it. *)
Theorem Mmap_failed_reprotect_keeps_allocation :
  let run := HostSys.Mmap uwp_build 0 0x1000 (fresh_world [Grant 0x10000; Refuse 5]) in
  fst run = 0 /\
  trace (snd run)
    = [EvVirtualAlloc 0 0x1000 MEM_COMMIT PAGE_READWRITE 0x10000;
       EvVirtualProtect 0x10000 0x1000 PAGE_EXECUTE_READWRITE false;
       EvVirtualFree 0x10000 0x1000 MEM_RELEASE false] /\
  vm (snd run) !! 0x10000 = Some (mkRegion 0x1000 true PAGE_READWRITE) /\
  vm (snd (HostSys.Munmap 0x10000 0x1000 (snd run))) !! 0x10000 = None.
Proof. cbn zeta. repeat split. Qed.

(** The same on the executable branch of [MmapCommitPtr]: the commit is
    reported as failed and the committed pages stay. *)
Lemma MmapCommitPtr_failed_reprotect_keeps_allocation :
  let run := HostSys.MmapCommitPtr uwp_build 0x10000 0x1000 read_execute
               (fresh_world [Grant 0x10000; Refuse 5]) in
  fst run = false /\
  vm (snd run) !! 0x10000 = Some (mkRegion 0x1000 true PAGE_READONLY).
Proof. cbn zeta. repeat split. Qed.


(** In general: whenever the reprotection is refused after a granted
    allocation of non-zero size, [Mmap] on UWP returns null and leaves the
    allocation in place. *)
Lemma Mmap_uwp_failure_leaves_allocation (cfg : Build) (base size : Z) (w : World)
    (p : positive) (err : Z) (rest : list Answer) :
  UWP cfg = true ->
  size <> 0 ->
  answers w = Grant p :: Refuse err :: rest ->
  fst (HostSys.Mmap cfg base size w) = 0 /\
  vm (snd (HostSys.Mmap cfg base size w)) !! Z.pos p
    = Some (mkRegion size true PAGE_READWRITE).
Proof.
  destruct w as [ans vm0 e0 tr hd tl hp].
  cbn [answers]. intros Hu Hs ->.
  by_wp (HostSys.Mmap cfg base size)
        (mkWorld (Grant p :: Refuse err :: rest) vm0 e0 tr hd tl hp).
  unfold HostSys.Mmap. rewrite Hu.
  wp_run;
    try match goal with
        | H : (size =? 0) = true |- _ => apply Z.eqb_eq in H; contradiction
        end.
  split; [reflexivity | apply lookup_insert_eq].
Qed.

(** ** The unwind-handler registry *)

Arguments deref : simpl never.
Arguments poke : simpl never.
Arguments DWORD_of : simpl never.
Arguments DWORD64_of : simpl never.

Lemma deref_poke_eq (hp : gmap Z UnwindHandler) (p : Z)
    (f : UnwindHandler -> UnwindHandler) :
  deref (poke p f hp) p = f (deref hp p).
Proof. unfold deref at 1, poke. by rewrite lookup_insert_eq. Qed.

Lemma deref_poke_ne (hp : gmap Z UnwindHandler) (p q : Z)
    (f : UnwindHandler -> UnwindHandler) :
  p <> q -> deref (poke p f hp) q = deref hp q.
Proof. intros Hne. unfold deref at 1, poke. by rewrite lookup_insert_ne. Qed.

Section ChainFacts.
Variable hp : gmap Z UnwindHandler.

Lemma chain_nonzero (p : Z) (l : list Z) : chain hp p l -> Forall (fun q => q <> 0) l.
Proof. induction 1; constructor; assumption. Qed.

Lemma chain_head (p : Z) (l : list Z) : chain hp p l -> p = hd 0 l.
Proof. destruct 1; reflexivity. Qed.




(** The callback's loop on a chain: the first entry whose range contains
    the address, or null. *)
Lemma scan_handlers_chain (ControlPc : Z) (l : list Z) :
  forall (p : Z) (fuel : nat),
    chain hp p l -> (length l < fuel)%nat ->
    scan_handlers fuel hp p ControlPc
      = Some (default 0 (List.find (covers hp ControlPc) l)).
Proof.
  induction l as [| q l IH]; intros p fuel Hc Hf; inversion Hc; subst;
    (destruct fuel as [| fuel]; [cbn in Hf; lia |]); cbn [scan_handlers].
  - reflexivity.
  - destruct (Z.eqb_spec q 0) as [? | _]; [contradiction |].
    cbn [List.find]. unfold covers at 1.
    destruct (_ && _); [reflexivity |].
    apply IH; [assumption | cbn in Hf; lia].
Qed.

End ChainFacts.

(** Chains only depend on the [next_unwind_handler] fields of their entries. *)
Lemma chain_ext (hp hp' : gmap Z UnwindHandler) (p : Z) (l : list Z) :
  chain hp p l ->
  (forall q, In q l -> next_unwind_handler (deref hp' q) = next_unwind_handler (deref hp q)) ->
  chain hp' p l.
Proof.
  induction 1 as [| p l Hp Hc IH]; intros Hext; constructor; [assumption |].
  rewrite Hext by (left; reflexivity).
  apply IH. intros q Hq. apply Hext. right; assumption.
Qed.


(** C8: on a registry whose entries form the chain [l] (in insertion
    order), the lookup callback returns the address of the first entry of
    [l] whose half-open range [code_base, code_end) contains [ControlPc]
    (its [runtime_function] is the first member, at that address), and
    returns null exactly when no entry of [l] contains it. *)
Theorem GetRuntimeFunctionCallback_first_match (w : World) (l : list Z)
    (ControlPc Context : Z) (fuel : nat) :
  chain (heap w) (s_handler_head w) l ->
  (length l < fuel)%nat ->
  GetRuntimeFunctionCallback fuel ControlPc Context w
    = Some (default 0 (List.find (covers (heap w) ControlPc) l)) /\
  (GetRuntimeFunctionCallback fuel ControlPc Context w = Some 0 <->
   Forall (fun p => covers (heap w) ControlPc p = false) l).
Proof.
  intros Hc Hf. unfold GetRuntimeFunctionCallback.
  rewrite (scan_handlers_chain (heap w) ControlPc l _ _ Hc Hf).
  split; [reflexivity |].
  pose proof (chain_nonzero _ _ _ Hc) as Hnz.
  destruct (List.find _ l) as [p |] eqn:Hfind; cbn.
  - apply List.find_some in Hfind as [Hin Hcov].
    rewrite List.Forall_forall in Hnz. specialize (Hnz p Hin).
    split.
    + intros E. injection E as E. contradiction.
    + intros Hall. rewrite List.Forall_forall in Hall.
      rewrite (Hall p Hin) in Hcov. discriminate.
  - split; [| reflexivity]. intros _. rewrite List.Forall_forall.
    intros p Hin. exact (List.find_none _ _ Hfind p Hin).
Qed.

(** Lookups in a registry of two code buffers: inside the second, inside the
    first, and outside both. *)
Lemma GetRuntimeFunctionCallback_first_match_witness :
  chain (heap two_buffers_world) (s_handler_head two_buffers_world) [0x11000; 0x21000] /\
  (length [0x11000%Z; 0x21000%Z] < 3)%nat /\
  GetRuntimeFunctionCallback 3 0x20010 0 two_buffers_world = Some 0x21000 /\
  GetRuntimeFunctionCallback 3 0x10fff 0 two_buffers_world = Some 0x11000 /\
  GetRuntimeFunctionCallback 3 0x11000 0 two_buffers_world = Some 0.
Proof.
  assert (Hc : chain (heap two_buffers_world) (s_handler_head two_buffers_world)
                 [0x11000; 0x21000]).
  { apply chain_cons; [discriminate |].
    apply chain_cons; [discriminate |].
    apply chain_nil. }
  split; [exact Hc |]. split; [cbn; lia |].
  split; [| split].
  - exact (proj1 (GetRuntimeFunctionCallback_first_match two_buffers_world
                    [0x11000; 0x21000] 0x20010 0 3 Hc ltac:(cbn; lia))).
  - exact (proj1 (GetRuntimeFunctionCallback_first_match two_buffers_world
                    [0x11000; 0x21000] 0x10fff 0 3 Hc ltac:(cbn; lia))).
  - exact (proj1 (GetRuntimeFunctionCallback_first_match two_buffers_world
                    [0x11000; 0x21000] 0x11000 0 3 Hc ltac:(cbn; lia))).
Defined.


(** Reading entries of a storage that was written to. *)
Ltac simpl_heap :=
  repeat first
    [ rewrite deref_poke_eq
    | rewrite deref_poke_ne by congruence ];
  cbn [runtime_function unwind_info exception_handler_code code_base code_end
       next_unwind_handler set_runtime_function set_unwind_info
       set_exception_handler_code set_code_base set_code_end
       set_next_unwind_handler].

(** C1, amended: a call that the platform refuses before the new entry is
    linked (at the callback installation, at the read-write reprotection of
    the new entry, or at the read-write reprotection of the previous tail)
    fails and leaves the two roots and every stored entry as they were. *)
Theorem install_refused_before_linking_keeps_registry (cfg : Build)
    (start_pc code_size unwind_handler : Z) (w : World) :
  let run := Registry.UWPInstallExceptionHandlerForJIT cfg start_pc code_size unwind_handler w in
  refused_before_linking w = true ->
  fst run = false /\ registry (snd run) = registry w.
Proof.
  destruct w as [ans vm0 err tr hd tl hp]. cbn zeta.
  by_wp (Registry.UWPInstallExceptionHandlerForJIT cfg start_pc code_size unwind_handler)
        (mkWorld ans vm0 err tr hd tl hp).
  unfold Registry.UWPInstallExceptionHandlerForJIT, Registry.populate,
    refused_before_linking, registry.
  wp_run; rewrite_tests; cbn; intros H; try discriminate H; split; reflexivity.
Qed.

(** A third registration whose read-write reprotection of the previous tail
    is refused. *)
Lemma install_refused_before_linking_keeps_registry_witness :
  refused_before_linking (set_answers [Grant 1; Grant 1; Refuse 5] two_buffers_world) = true /\
  fst (Registry.UWPInstallExceptionHandlerForJIT uwp_build 0x30000 0x1000 0x31000
         (set_answers [Grant 1; Grant 1; Refuse 5] two_buffers_world)) = false /\
  registry (snd (Registry.UWPInstallExceptionHandlerForJIT uwp_build 0x30000 0x1000 0x31000
                   (set_answers [Grant 1; Grant 1; Refuse 5] two_buffers_world)))
    = registry (set_answers [Grant 1; Grant 1; Refuse 5] two_buffers_world).
Proof.
  split; [reflexivity |].
  exact (install_refused_before_linking_keeps_registry uwp_build 0x30000 0x1000 0x31000
           (set_answers [Grant 1; Grant 1; Refuse 5] two_buffers_world) eq_refl).
Defined.

(** C1, counterexample: on an empty registry the callback installation and
    the read-write reprotection succeed and the final read-execute
    reprotection is refused.  The call returns failure, yet the new entry is
    the head and the tail of the registry and the lookup callback finds it. *)
Lemma install_failure_leaves_entry_linked :
  fst (Registry.UWPInstallExceptionHandlerForJIT uwp_build 0x10000 0x1000 0x11000
         (fresh_world [Grant 1; Grant 1; Refuse 5])) = false /\
  registry (fresh_world [Grant 1; Grant 1; Refuse 5]) = (0, 0, ∅) /\
  s_handler_head (snd (Registry.UWPInstallExceptionHandlerForJIT uwp_build 0x10000 0x1000 0x11000
                         (fresh_world [Grant 1; Grant 1; Refuse 5]))) = 0x11000 /\
  s_handler_tail (snd (Registry.UWPInstallExceptionHandlerForJIT uwp_build 0x10000 0x1000 0x11000
                         (fresh_world [Grant 1; Grant 1; Refuse 5]))) = 0x11000 /\
  GetRuntimeFunctionCallback 2 0x10800 0
    (snd (Registry.UWPInstallExceptionHandlerForJIT uwp_build 0x10000 0x1000 0x11000
            (fresh_world [Grant 1; Grant 1; Refuse 5]))) = Some 0x11000 /\
  GetRuntimeFunctionCallback 2 0x10800 0 (fresh_world [Grant 1; Grant 1; Refuse 5]) = Some 0.
Proof. repeat split. Qed.

(** The same with a previous tail: when the read-execute reprotection of the
    previous tail is refused, the call fails after the tail's link was
    written, and the chain now runs into the new storage. *)
Lemma install_failure_leaves_tail_linked :
  fst (Registry.UWPInstallExceptionHandlerForJIT uwp_build 0x30000 0x1000 0x31000
         (set_answers [Grant 1; Grant 1; Grant 1; Refuse 5] two_buffers_world)) = false /\
  next_unwind_handler (deref (heap two_buffers_world) 0x21000) = 0 /\
  next_unwind_handler
    (deref (heap (snd (Registry.UWPInstallExceptionHandlerForJIT uwp_build 0x30000 0x1000 0x31000
                         (set_answers [Grant 1; Grant 1; Grant 1; Refuse 5] two_buffers_world))))
           0x21000) = 0x31000.
Proof. repeat split. Qed.

(** Whatever the step that fails after the first three, the new entry has
    been linked by then. *)
Lemma install_late_failure_links_entry (cfg : Build)
    (start_pc code_size unwind_handler : Z) (w : World) :
  let run := Registry.UWPInstallExceptionHandlerForJIT cfg start_pc code_size unwind_handler w in
  refused_before_linking w = false ->
  (s_handler_tail w = 0 -> s_handler_head (snd run) = unwind_handler) /\
  (s_handler_tail w <> 0 -> s_handler_tail w <> unwind_handler ->
   next_unwind_handler (deref (heap (snd run)) (s_handler_tail w)) = unwind_handler).
Proof.
  destruct w as [ans vm0 err tr hd tl hp]. cbn zeta.
  by_wp (Registry.UWPInstallExceptionHandlerForJIT cfg start_pc code_size unwind_handler)
        (mkWorld ans vm0 err tr hd tl hp).
  unfold Registry.UWPInstallExceptionHandlerForJIT, Registry.populate,
    refused_before_linking.
  wp_run; rewrite_tests; cbn; intros H; try discriminate H.
  all: repeat match goal with
              | E : (_ =? _) = true |- _ => apply Z.eqb_eq in E
              | E : (_ =? _) = false |- _ => apply Z.eqb_neq in E
              end.
  all: split; [intros ?; try reflexivity; try contradiction |].
  all: intros Ht Hne; try contradiction; simpl_heap; reflexivity.
Qed.



(** * Further properties *)

(** ** HostSys, continued *)

(** What [Munmap] does to the platform's table. *)
Lemma Munmap_table (base size : Z) (w : World) :
  base <> 0 -> vm (snd (HostSys.Munmap base size w)) = delete base (vm w).
Proof.
  intros Hb. unfold HostSys.Munmap.
  destruct (Z.eqb_spec base 0) as [? | _]; [contradiction |].
  destruct w as [ans vm0 err tr hd tl hp].
  by_wp (Platform.VirtualFree base 0 MEM_RELEASE ;;; ret tt) (mkWorld ans vm0 err tr hd tl hp).
  wp_run; [reflexivity | symmetry; apply delete_id; assumption].
Qed.

(** X1: allocate and release.  When [Mmap] succeeds at an address that held
    no allocation before, [Munmap] of its result (with whatever size) puts
    the platform's table back to what it was before the allocation. *)
Theorem Mmap_Munmap_round_trip (cfg : Build) (base size size' : Z) (w : World) :
  let run := HostSys.Mmap cfg base size w in
  fst run <> 0 ->
  vm w !! fst run = None ->
  vm (snd (HostSys.Munmap (fst run) size' (snd run))) = vm w.
Proof.
  cbn zeta. intros Hr Hfresh.
  rewrite Munmap_table by assumption.
  revert Hr Hfresh.
  destruct w as [ans vm0 err tr hd tl hp].
  by_wp (HostSys.Mmap cfg base size) (mkWorld ans vm0 err tr hd tl hp).
  unfold HostSys.Mmap.
  wp_run; intros Hr Hfresh; try contradiction;
    rewrite ?delete_insert_eq; apply delete_id; assumption.
Qed.

(** A granted [Mmap] at a fresh address, released again. *)
Lemma Mmap_Munmap_round_trip_witness :
  fst (HostSys.Mmap uwp_build 0 0x4000 (fresh_world [Grant 0x10000; Grant 1])) <> 0 /\
  vm (fresh_world [Grant 0x10000; Grant 1])
    !! fst (HostSys.Mmap uwp_build 0 0x4000 (fresh_world [Grant 0x10000; Grant 1])) = None /\
  vm (snd (HostSys.Munmap
             (fst (HostSys.Mmap uwp_build 0 0x4000 (fresh_world [Grant 0x10000; Grant 1])))
             0x2000
             (snd (HostSys.Mmap uwp_build 0 0x4000 (fresh_world [Grant 0x10000; Grant 1])))))
    = vm (fresh_world [Grant 0x10000; Grant 1]).
Proof.
  split; [discriminate |]. split; [reflexivity |].
  exact (Mmap_Munmap_round_trip uwp_build 0 0x4000 0x2000
           (fresh_world [Grant 0x10000; Grant 1]) ltac:(discriminate) eq_refl).
Defined.

(** X2: [MemProtect] has no result.  When the platform grants the change,
    the range at [baseaddr] carries [ConvertToWinApi mode] and nothing is
    reported; when it refuses, the table is untouched and the only sign of
    the failure is the [pxFailDev] diagnostic. *)
Theorem MemProtect_outcome (cfg : Build) (baseaddr size : Z)
    (mode : PageProtectionMode) (w : World) :
  let run := HostSys.MemProtect cfg baseaddr size mode w in
  (is_refusal (answers w !! 0%nat) = true ->
   vm (snd run) = vm w /\
   exists evs, trace (snd run) = trace w ++ evs ++ [EvFailDev "VirtualProtect failed"]) /\
  (is_refusal (answers w !! 0%nat) = false ->
   vm (snd run) = <[baseaddr := mkRegion size true (ConvertToWinApi mode)]> (vm w) /\
   exists evs, trace (snd run) = trace w ++ evs /\
               Forall (fun e => forall msg, e <> EvFailDev msg) evs).
Proof.
  destruct w as [ans vm0 err tr hd tl hp]. cbn zeta.
  by_wp (HostSys.MemProtect cfg baseaddr size mode) (mkWorld ans vm0 err tr hd tl hp).
  unfold HostSys.MemProtect.
  wp_run; cbn [is_refusal lookup list_lookup]; (split; intros Hans; try discriminate Hans);
    (split; [reflexivity |]); rewrite <- ?app_assoc; cbn [app].
  all: try (eexists; split; [reflexivity |]; repeat constructor; discriminate).
  all: first [ exists []; reflexivity | eexists [_]; reflexivity | eexists [_; _]; reflexivity ].
Qed.

(** ** The unwind-handler registry, continued *)





(** The two hypotheses on the storage are needed.  Registering the storage
    of the first of two entries again succeeds, and makes that entry, still
    the head, the tail as well, with a null successor: an address of the
    second code buffer, found before, is not found afterwards. *)
Lemma reregistration_cuts_chain :
  let run := Registry.UWPInstallExceptionHandlerForJIT uwp_build 0x10000 0x1000 0x11000
               third_registration_world in
  GetRuntimeFunctionCallback 4 0x20010 0 third_registration_world = Some 0x21000 /\
  fst run = true /\
  GetRuntimeFunctionCallback 4 0x20010 0 (snd run) = Some 0 /\
  GetRuntimeFunctionCallback 4 0x10010 0 (snd run) = Some 0x11000.
Proof.
  vm_compute. repeat split.
Qed.

(** X4: a call that returned success has left the storage of the new entry,
    and of the previous tail when there was one, read-execute in the
    platform's table: nothing the registry owns stays writable. *)
Theorem install_success_seals_storage (cfg : Build)
    (start_pc code_size unwind_handler : Z) (w : World) :
  let run := Registry.UWPInstallExceptionHandlerForJIT cfg start_pc code_size unwind_handler w in
  fst run = true ->
  vm (snd run) !! unwind_handler
    = Some (mkRegion (UWP_JIT_EXCEPTION_HANDLER_SIZE cfg) true PAGE_EXECUTE_READ) /\
  (s_handler_tail w <> 0 -> s_handler_tail w <> unwind_handler ->
   vm (snd run) !! s_handler_tail w
     = Some (mkRegion (UWP_JIT_EXCEPTION_HANDLER_SIZE cfg) true PAGE_EXECUTE_READ)).
Proof.
  destruct w as [ans vm0 err tr hd tl hp]. cbn zeta.
  by_wp (Registry.UWPInstallExceptionHandlerForJIT cfg start_pc code_size unwind_handler)
        (mkWorld ans vm0 err tr hd tl hp).
  unfold Registry.UWPInstallExceptionHandlerForJIT, Registry.populate.
  wp_run; intros Hr; try discriminate Hr.
  all: repeat match goal with
              | E : (_ =? _) = true |- _ => apply Z.eqb_eq in E
              | E : (_ =? _) = false |- _ => apply Z.eqb_neq in E
              end.
  all: split; [apply lookup_insert_eq |].
  all: intros Ht Hne; try contradiction.
  rewrite lookup_insert_ne by congruence. apply lookup_insert_eq.
Qed.

(** The third of three registrations. *)
Lemma install_success_seals_storage_witness :
  fst (Registry.UWPInstallExceptionHandlerForJIT uwp_build 0x30000 0x1000 0x31000
         third_registration_world) = true /\
  vm (snd (Registry.UWPInstallExceptionHandlerForJIT uwp_build 0x30000 0x1000 0x31000
             third_registration_world))
    !! 0x31000 = Some (mkRegion 4096 true PAGE_EXECUTE_READ).
Proof.
  assert (Hr : fst (Registry.UWPInstallExceptionHandlerForJIT uwp_build 0x30000 0x1000 0x31000
                      third_registration_world) = true)
    by (vm_compute; reflexivity).
  split; [exact Hr |].
  exact (proj1 (install_success_seals_storage uwp_build 0x30000 0x1000 0x31000
                  third_registration_world Hr)).
Defined.

(** X5: a build without [_M_AMD64] never registers successfully: every call
    returns failure, whatever the platform answers. *)
Theorem install_without_amd64_fails (cfg : Build)
    (start_pc code_size unwind_handler : Z) (w : World) :
  M_AMD64 cfg = false ->
  fst (Registry.UWPInstallExceptionHandlerForJIT cfg start_pc code_size unwind_handler w) = false.
Proof.
  destruct w as [ans vm0 err tr hd tl hp]. intros Hm.
  by_wp (Registry.UWPInstallExceptionHandlerForJIT cfg start_pc code_size unwind_handler)
        (mkWorld ans vm0 err tr hd tl hp).
  unfold Registry.UWPInstallExceptionHandlerForJIT, Registry.populate.
  rewrite Hm. wp_run; reflexivity.
Qed.

(** Every step granted, on a build without [_M_AMD64]. *)
Lemma install_without_amd64_fails_witness :
  M_AMD64 uwp_arm_build = false /\
  fst (Registry.UWPInstallExceptionHandlerForJIT uwp_arm_build 0x10000 0x1000 0x11000
         (fresh_world [Grant 1; Grant 1; Grant 1])) = false.
Proof.
  split; [reflexivity |].
  exact (install_without_amd64_fails uwp_arm_build 0x10000 0x1000 0x11000
           (fresh_world [Grant 1; Grant 1; Grant 1]) eq_refl).
Defined.

(** *** What a registration writes into the entry *)

Lemma pointer_byte_mod (a i : Z) :
  0 <= i -> pointer_byte a i = (a / 2 ^ (8 * i)) mod 256.
Proof.
  intros Hi. unfold pointer_byte. change 0xff with (Z.ones 8).
  rewrite Z.land_ones by lia. rewrite Z.shiftr_div_pow2 by lia. reflexivity.
Qed.

(** The eight bytes [memcpy] copies, read back as a little-endian number,
    are the pointer's 64 bits. *)
Lemma le_decode_pointer_bytes (a : Z) :
  le_decode (map (pointer_byte a) [0; 1; 2; 3; 4; 5; 6; 7]) = a mod 2 ^ 64.
Proof.
  cbn [map le_decode]. rewrite !pointer_byte_mod by lia.
  change (2 ^ (8 * 0)) with 1. change (2 ^ (8 * 1)) with 256.
  change (2 ^ (8 * 2)) with 65536. change (2 ^ (8 * 3)) with 16777216.
  change (2 ^ (8 * 4)) with 4294967296. change (2 ^ (8 * 5)) with 1099511627776.
  change (2 ^ (8 * 6)) with 281474976710656.
  change (2 ^ (8 * 7)) with 72057594037927936.
  change (2 ^ 64) with 18446744073709551616.
  Z.div_mod_to_equations. lia.
Qed.

(** Linking an entry behind the tail does not touch the handler code of any
    entry, the tail's included. *)
Lemma code_after_link (hp : gmap Z UnwindHandler) (tl uh x : Z) :
  exception_handler_code (deref (poke tl (set_next_unwind_handler x) hp) uh)
    = exception_handler_code (deref hp uh).
Proof.
  destruct (Z.eq_dec tl uh) as [-> | Hne].
  - rewrite deref_poke_eq. reflexivity.
  - rewrite deref_poke_ne by assumption. reflexivity.
Qed.

(** X6: the trampoline.  After a successful registration the 32-byte code
    array of the entry starts with [48 b8 imm64 ff e0] (mov rax, imm64;
    jmp rax), where imm64, read back as a little-endian number, is the
    address of [UnwindExceptionHandler]; the bytes from offset 12 on are
    what the storage held before. *)
Theorem install_writes_trampoline (cfg : Build)
    (start_pc code_size unwind_handler : Z) (w : World) :
  let run := Registry.UWPInstallExceptionHandlerForJIT cfg start_pc code_size unwind_handler w in
  let old := exception_handler_code (deref (heap w) unwind_handler) in
  let new := exception_handler_code (deref (heap (snd run)) unwind_handler) in
  fst run = true ->
  length old = 32%nat ->
  new = [0x48; 0xb8]
          ++ map (pointer_byte (addr_UnwindExceptionHandler cfg)) [0; 1; 2; 3; 4; 5; 6; 7]
          ++ [0xff; 0xe0] ++ skipn 12 old /\
  le_decode (firstn 8 (skipn 2 new)) = addr_UnwindExceptionHandler cfg mod 2 ^ 64.
Proof.
  destruct w as [ans vm0 err tr hd tl hp]. cbn zeta. cbn [heap].
  by_wp (Registry.UWPInstallExceptionHandlerForJIT cfg start_pc code_size unwind_handler)
        (mkWorld ans vm0 err tr hd tl hp).
  unfold Registry.UWPInstallExceptionHandlerForJIT, Registry.populate.
  wp_run; intros Hr Hlen; try discriminate Hr.
  all: simpl_heap; rewrite ?code_after_link.
  all: remember (exception_handler_code (deref hp unwind_handler)) as old eqn:Eold; clear Eold.
  all: do 32 (destruct old as [| ? old]; [discriminate Hlen |]).
  all: destruct old; [| discriminate Hlen].
  all: split; [reflexivity |].
  all: cbn [memcpy_pointer fold_left seq]; cbn [skipn firstn app map].
  all: exact (le_decode_pointer_bytes _).
Qed.

(** The first registration of a process, on zeroed storage. *)
Lemma install_writes_trampoline_witness :
  fst (Registry.UWPInstallExceptionHandlerForJIT uwp_build 0x10000 0x1000 0x11000
         (fresh_world [Grant 1; Grant 1; Grant 1])) = true /\
  length (exception_handler_code
            (deref (heap (fresh_world [Grant 1; Grant 1; Grant 1])) 0x11000)) = 32%nat /\
  le_decode
    (firstn 8 (skipn 2
       (exception_handler_code
          (deref (heap (snd (Registry.UWPInstallExceptionHandlerForJIT uwp_build
                               0x10000 0x1000 0x11000
                               (fresh_world [Grant 1; Grant 1; Grant 1]))))
                 0x11000))))
    = addr_UnwindExceptionHandler uwp_build mod 2 ^ 64.
Proof.
  assert (Hr : fst (Registry.UWPInstallExceptionHandlerForJIT uwp_build 0x10000 0x1000 0x11000
                      (fresh_world [Grant 1; Grant 1; Grant 1])) = true)
    by (vm_compute; reflexivity).
  assert (Hl : length (exception_handler_code
                         (deref (heap (fresh_world [Grant 1; Grant 1; Grant 1])) 0x11000))
               = 32%nat)
    by (vm_compute; reflexivity).
  split; [exact Hr |]. split; [exact Hl |].
  exact (proj2 (install_writes_trampoline uwp_build 0x10000 0x1000 0x11000
                  (fresh_world [Grant 1; Grant 1; Grant 1]) Hr Hl)).
Defined.

(** X7: the unwind metadata.  After a successful registration whose entry
    lies behind the code, at most [2 ^ 32 - 21] bytes from its start, the
    function-table record spans the code ([BeginAddress] 0, [EndAddress]
    the 32-bit code size) and its two image-relative addresses, rebased on
    [start_pc], are the addresses of the entry's own [unwind_info] and
    [exception_handler_code]; the unwind information is version 1 with the
    exception-handler flag and no unwind codes. *)
Theorem install_metadata_points_into_entry (cfg : Build)
    (start_pc code_size unwind_handler : Z) (w : World) :
  let run := Registry.UWPInstallExceptionHandlerForJIT cfg start_pc code_size unwind_handler w in
  let uh := deref (heap (snd run)) unwind_handler in
  fst run = true ->
  0 <= unwind_handler - start_pc ->
  unwind_handler - start_pc + offsetof_exception_handler_code < 2 ^ 32 ->
  BeginAddress (runtime_function uh) = 0 /\
  EndAddress (runtime_function uh) = DWORD_of code_size /\
  start_pc + UnwindInfoAddress (runtime_function uh)
    = unwind_handler + offsetof_unwind_info /\
  start_pc + exception_handler_address (unwind_info uh)
    = unwind_handler + offsetof_exception_handler_code /\
  version (unwind_info uh) = 1 /\
  flags (unwind_info uh) = UNW_FLAG_EHANDLER /\
  count_of_unwind_codes (unwind_info uh) = 0.
Proof.
  destruct w as [ans vm0 err tr hd tl hp]. cbn zeta.
  by_wp (Registry.UWPInstallExceptionHandlerForJIT cfg start_pc code_size unwind_handler)
        (mkWorld ans vm0 err tr hd tl hp).
  unfold Registry.UWPInstallExceptionHandlerForJIT, Registry.populate.
  wp_run; intros Hr Hlo Hhi; try discriminate Hr.
  all: simpl_heap;
    cbn [BeginAddress EndAddress UnwindInfoAddress exception_handler_address
         version flags count_of_unwind_codes].
  all: unfold offsetof_exception_handler_code in Hhi.
  all: unfold DWORD_of, DWORD64_of, offsetof_unwind_info, offsetof_exception_handler_code.
  all: change (2 ^ 32) with 4294967296 in *; change (2 ^ 64) with 18446744073709551616.
  all: rewrite (Z.mod_small (unwind_handler - start_pc)) by lia.
  all: rewrite !(Z.mod_small (unwind_handler - start_pc + _)) by lia.
  all: repeat split; lia.
Qed.

(** The first registration of a process: the entry sits right behind a
    4 KiB code buffer. *)
Lemma install_metadata_points_into_entry_witness :
  fst (Registry.UWPInstallExceptionHandlerForJIT uwp_build 0x10000 0x1000 0x11000
         (fresh_world [Grant 1; Grant 1; Grant 1])) = true /\
  0x10000
    + exception_handler_address
        (unwind_info
           (deref (heap (snd (Registry.UWPInstallExceptionHandlerForJIT uwp_build
                                0x10000 0x1000 0x11000
                                (fresh_world [Grant 1; Grant 1; Grant 1]))))
                  0x11000))
    = 0x11000 + offsetof_exception_handler_code.
Proof.
  assert (Hr : fst (Registry.UWPInstallExceptionHandlerForJIT uwp_build 0x10000 0x1000 0x11000
                      (fresh_world [Grant 1; Grant 1; Grant 1])) = true)
    by (vm_compute; reflexivity).
  split; [exact Hr |].
  refine (proj1 (proj2 (proj2 (proj2
            (install_metadata_points_into_entry uwp_build 0x10000 0x1000 0x11000
               (fresh_world [Grant 1; Grant 1; Grant 1]) Hr _ _))))).
  - vm_compute. discriminate.
  - vm_compute. reflexivity.
Defined.

(** X8: the distance check is laxer than the metadata needs.  An entry
    between [2 ^ 32 - 20] and [2 ^ 32 - 1] bytes behind [start_pc] passes
    the test of the third assertion, yet the 32-bit handler address wraps:
    rebased on [start_pc] it lies [2 ^ 32] bytes below the entry's code
    array. *)
Theorem install_far_entry_wraps (cfg : Build)
    (start_pc code_size unwind_handler : Z) (w : World) :
  let run := Registry.UWPInstallExceptionHandlerForJIT cfg start_pc code_size unwind_handler w in
  let uh := deref (heap (snd run)) unwind_handler in
  fst run = true ->
  2 ^ 32 - offsetof_exception_handler_code <= unwind_handler - start_pc ->
  unwind_handler - start_pc <= 2 ^ 32 - 1 ->
  (DWORD64_of (unwind_handler - start_pc) <=? 2 ^ 32 - 1) = true /\
  start_pc + exception_handler_address (unwind_info uh)
    = unwind_handler + offsetof_exception_handler_code - 2 ^ 32.
Proof.
  destruct w as [ans vm0 err tr hd tl hp]. cbn zeta.
  by_wp (Registry.UWPInstallExceptionHandlerForJIT cfg start_pc code_size unwind_handler)
        (mkWorld ans vm0 err tr hd tl hp).
  unfold Registry.UWPInstallExceptionHandlerForJIT, Registry.populate.
  wp_run; intros Hr Hlo Hhi; try discriminate Hr.
  all: simpl_heap; cbn [exception_handler_address].
  all: unfold offsetof_exception_handler_code in Hlo.
  all: unfold DWORD_of, DWORD64_of, offsetof_exception_handler_code.
  all: change (2 ^ 32) with 4294967296 in *; change (2 ^ 64) with 18446744073709551616.
  all: rewrite (Z.mod_small (unwind_handler - start_pc)) by lia.
  all: split; [apply Z.leb_le; lia |].
  all: Z.div_mod_to_equations; lia.
Qed.

(** An entry [2 ^ 32 - 8] bytes behind the start of the code. *)
Lemma install_far_entry_wraps_witness :
  fst (Registry.UWPInstallExceptionHandlerForJIT uwp_build 0x10000 0x1000 0x10000fff8
         (fresh_world [Grant 1; Grant 1; Grant 1])) = true /\
  0x10000
    + exception_handler_address
        (unwind_info
           (deref (heap (snd (Registry.UWPInstallExceptionHandlerForJIT uwp_build
                                0x10000 0x1000 0x10000fff8
                                (fresh_world [Grant 1; Grant 1; Grant 1]))))
                  0x10000fff8))
    = 0x10000fff8 + offsetof_exception_handler_code - 2 ^ 32.
Proof.
  assert (Hr : fst (Registry.UWPInstallExceptionHandlerForJIT uwp_build 0x10000 0x1000
                      0x10000fff8 (fresh_world [Grant 1; Grant 1; Grant 1])) = true)
    by (vm_compute; reflexivity).
  split; [exact Hr |].
  refine (proj2 (install_far_entry_wraps uwp_build 0x10000 0x1000 0x10000fff8
                   (fresh_world [Grant 1; Grant 1; Grant 1]) Hr _ _)).
  - vm_compute. discriminate.
  - vm_compute. discriminate.
Defined.

(** ** Page-fault exception filters, continued *)

Section FilterAgreement.
Variable Source_PageFault : Z -> DispatchOutcome.

(** X9: the two entry points agree.  On the same exception record the
    vectored filter [SysPageFaultExceptionFilter] and the frame handler
    [UnwindExceptionHandler] take the same steps, let the same exceptions
    escape, and the frame handler's disposition is continue-execution
    exactly when the filter's answer is [EXCEPTION_CONTINUE_EXECUTION]. *)
Theorem UnwindExceptionHandler_agrees_with_filter (er : EXCEPTION_RECORD) :
  let filter := PageFault.SysPageFaultExceptionFilter Source_PageFault
                  (mkEXCEPTION_POINTERS er) in
  let handler := PageFault.UnwindExceptionHandler Source_PageFault er in
  fst handler = fst filter /\
  snd handler
    = match snd filter with
      | Returned result =>
          Returned (if result =? EXCEPTION_CONTINUE_EXECUTION
                    then ExceptionContinueExecution else ExceptionContinueSearch)
      | Raised code => Raised code
      end.
Proof.
  cbn zeta.
  unfold PageFault.SysPageFaultExceptionFilter, PageFault.UnwindExceptionHandler,
    PageFault.DoSysPageFaultExceptionFilter.
  cbn [ExceptionRecord].
  destruct (ExceptionCode er =? EXCEPTION_ACCESS_VIOLATION); cbn; [| split; reflexivity].
  destruct (Source_PageFault _) as [[] | code]; cbn; try (split; reflexivity).
  destruct (PageFault.except_filter code =? EXCEPTION_EXECUTE_HANDLER); split; reflexivity.
Qed.

(** X10: both entry points resume the faulting instruction exactly when the
    exception is an access violation whose dispatch returned with the fault
    handled. *)
Theorem outer_handlers_resume_iff_handled (er : EXCEPTION_RECORD) :
  let addr := nth 1 (ExceptionInformation er) 0 in
  (snd (PageFault.SysPageFaultExceptionFilter Source_PageFault (mkEXCEPTION_POINTERS er))
     = Returned EXCEPTION_CONTINUE_EXECUTION <->
   ExceptionCode er = EXCEPTION_ACCESS_VIOLATION /\ Source_PageFault addr = Dispatched true) /\
  (snd (PageFault.UnwindExceptionHandler Source_PageFault er)
     = Returned ExceptionContinueExecution <->
   ExceptionCode er = EXCEPTION_ACCESS_VIOLATION /\ Source_PageFault addr = Dispatched true).
Proof.
  cbn zeta.
  unfold PageFault.SysPageFaultExceptionFilter, PageFault.UnwindExceptionHandler,
    PageFault.DoSysPageFaultExceptionFilter.
  cbn [ExceptionRecord].
  destruct (Z.eqb_spec (ExceptionCode er) EXCEPTION_ACCESS_VIOLATION) as [Hc | Hc]; cbn.
  - destruct (Source_PageFault _) as [[] | code]; cbn.
    + split; (split; [intros _; split; [assumption | reflexivity] | reflexivity]).
    + split; (split; [discriminate | intros [_ H]; discriminate H]).
    + destruct (PageFault.except_filter code =? EXCEPTION_EXECUTE_HANDLER);
        split; (split; [discriminate | intros [_ H]; discriminate H]).
  - split; (split; [discriminate | intros [H _]; contradiction]).
Qed.

(** X11: only access violations are caught.  When the dispatch of an access
    violation raises an exception with any other code, that exception
    leaves both entry points: neither answers on its behalf. *)
Theorem foreign_exception_escapes (er : EXCEPTION_RECORD) (code : Z) :
  ExceptionCode er = EXCEPTION_ACCESS_VIOLATION ->
  Source_PageFault (nth 1 (ExceptionInformation er) 0) = DispatchRaised code ->
  code <> EXCEPTION_ACCESS_VIOLATION ->
  snd (PageFault.SysPageFaultExceptionFilter Source_PageFault (mkEXCEPTION_POINTERS er))
    = Raised code /\
  snd (PageFault.UnwindExceptionHandler Source_PageFault er) = Raised code.
Proof.
  intros Hc Hd Hne.
  unfold PageFault.SysPageFaultExceptionFilter, PageFault.UnwindExceptionHandler,
    PageFault.DoSysPageFaultExceptionFilter.
  cbn [ExceptionRecord]. rewrite Hc, Hd. cbn.
  unfold PageFault.except_filter.
  destruct (Z.eqb_spec code EXCEPTION_ACCESS_VIOLATION) as [? | _]; [contradiction |].
  cbn. split; reflexivity.
Qed.

End FilterAgreement.

(** A stack overflow while dispatching the fault at [0x5000]. *)
Lemma foreign_exception_escapes_witness :
  snd (PageFault.SysPageFaultExceptionFilter overflowing_dispatcher
         (mkEXCEPTION_POINTERS (mkEXCEPTION_RECORD EXCEPTION_ACCESS_VIOLATION [1; 0x5000])))
    = Raised EXCEPTION_STACK_OVERFLOW /\
  snd (PageFault.UnwindExceptionHandler overflowing_dispatcher
         (mkEXCEPTION_RECORD EXCEPTION_ACCESS_VIOLATION [1; 0x5000]))
    = Raised EXCEPTION_STACK_OVERFLOW.
Proof.
  exact (foreign_exception_escapes overflowing_dispatcher
           (mkEXCEPTION_RECORD EXCEPTION_ACCESS_VIOLATION [1; 0x5000])
           EXCEPTION_STACK_OVERFLOW eq_refl eq_refl ltac:(discriminate)).
Defined.

(** ** ConvertToWinApi and commits, continued *)

(** X12: the rights behind the constant.  The page protection chosen for a
    mode allows execution exactly when the mode asks for it, reading when
    the mode asks to read or to execute, and writing when the mode asks to
    write together with reading or executing. *)
Theorem ConvertToWinApi_rights (mode : PageProtectionMode) :
  winmode_allows_execute (ConvertToWinApi mode) = CanExecute mode /\
  winmode_allows_read (ConvertToWinApi mode) = CanRead mode || CanExecute mode /\
  winmode_allows_write (ConvertToWinApi mode)
    = CanWrite mode && (CanRead mode || CanExecute mode).
Proof. destruct mode as [[] [] []]; repeat split. Qed.

Lemma Execute_false_id (mode : PageProtectionMode) :
  CanExecute mode = false -> Execute false mode = mode.
Proof. destruct mode as [r wr x]. cbn. intros ->. reflexivity. Qed.

(** X13: without execute, the build does not matter.  For a mode that does
    not ask for execution, [MmapCommitPtr] of a UWP build and of a desktop
    build are the same run: one commit with [ConvertToWinApi mode], no
    reprotection and no release. *)
Theorem MmapCommitPtr_data_pages_same_on_all_builds (cfg cfg' : Build)
    (base size : Z) (mode : PageProtectionMode) (w : World) :
  CanExecute mode = false ->
  HostSys.MmapCommitPtr cfg base size mode w = HostSys.MmapCommitPtr cfg' base size mode w.
Proof.
  intros Hx.
  assert (Hd : forall c, HostSys.MmapCommitPtr c base size mode w
                         = HostSys.MmapCommitPtr desktop_build base size mode w).
  { intros c. unfold HostSys.MmapCommitPtr.
    change (UWP desktop_build) with false. cbn [negb].
    destruct (UWP c); cbn [negb]; [| reflexivity].
    rewrite Hx, (Execute_false_id mode Hx).
    unfold Platform.VirtualAllocFromApp, bind.
    destruct (Platform.VirtualAlloc base size MEM_COMMIT (ConvertToWinApi mode) w) as [r w1].
    rewrite andb_false_r. reflexivity. }
  rewrite (Hd cfg), (Hd cfg'). reflexivity.
Qed.

(** A read-write commit on the UWP and the desktop build. *)
Lemma MmapCommitPtr_data_pages_same_on_all_builds_witness :
  HostSys.MmapCommitPtr uwp_build 0x10000 0x1000 (mkMode true true false)
      (fresh_world [Grant 0x10000])
    = HostSys.MmapCommitPtr desktop_build 0x10000 0x1000 (mkMode true true false)
        (fresh_world [Grant 0x10000]).
Proof.
  exact (MmapCommitPtr_data_pages_same_on_all_builds uwp_build desktop_build
           0x10000 0x1000 (mkMode true true false) (fresh_world [Grant 0x10000]) eq_refl).
Defined.

(** ** The registration protocol *)

Lemma platform_calls_app (evs evs' : list Event) :
  platform_calls (evs ++ evs') = platform_calls evs ++ platform_calls evs'.
Proof. apply List.filter_app. Qed.

(** An assertion makes no platform call. *)
Lemma wp_pxAssertRel_quiet (cond : bool) (msg : string) (Q : unit -> World -> Prop)
    (w : World) :
  (forall evs : list Event, platform_calls evs = [] -> Q tt (set_trace (trace w ++ evs) w)) ->
  wp (pxAssertRel cond msg) Q w.
Proof.
  intros H. unfold pxAssertRel. destruct cond.
  - unfold wp, ret. cbn. specialize (H [] eq_refl). rewrite app_nil_r in H.
    destruct w; exact H.
  - apply wp_log, H. reflexivity.
Qed.

Ltac wp_step_quiet :=
  lazymatch goal with
  | |- wp (pxAssertRel _ _) _ _ => apply wp_pxAssertRel_quiet; intros ? ?; simpl_world
  | _ => wp_step
  end.

(** X14: the order of the platform calls.  A successful registration
    installs the function-table callback for the code range (table
    identifier: the function's own address with the two low bits set), makes
    the new entry writable, relinks the previous tail between a read-write
    and a read-execute reprotection when there is one, and ends by making
    the new entry read-execute; it makes no other platform call. *)
Theorem install_call_sequence (cfg : Build)
    (start_pc code_size unwind_handler : Z) (w : World) :
  let run := Registry.UWPInstallExceptionHandlerForJIT cfg start_pc code_size unwind_handler w in
  let size := UWP_JIT_EXCEPTION_HANDLER_SIZE cfg in
  fst run = true ->
  platform_calls (trace (snd run))
    = platform_calls (trace w)
        ++ [EvInstallFunctionTable (Z.lor (addr_UWPInstallExceptionHandlerForJIT cfg) 0x3)
              (DWORD64_of start_pc) (DWORD_of code_size) true;
            EvVirtualProtect unwind_handler size PAGE_READWRITE true]
        ++ (if s_handler_tail w =? 0 then []
            else [EvVirtualProtect (s_handler_tail w) size PAGE_READWRITE true;
                  EvVirtualProtect (s_handler_tail w) size PAGE_EXECUTE_READ true])
        ++ [EvVirtualProtect unwind_handler size PAGE_EXECUTE_READ true].
Proof.
  destruct w as [ans vm0 err tr hd tl hp]. cbn zeta.
  by_wp (Registry.UWPInstallExceptionHandlerForJIT cfg start_pc code_size unwind_handler)
        (mkWorld ans vm0 err tr hd tl hp).
  unfold Registry.UWPInstallExceptionHandlerForJIT, Registry.populate.
  simpl_world; repeat wp_step_quiet; intros Hr; try discriminate Hr.
  all: rewrite_tests.
  all: rewrite !platform_calls_app.
  all: repeat match goal with H : platform_calls _ = [] |- _ => rewrite H; clear H end.
  all: rewrite <- ?app_assoc; reflexivity.
Qed.

(** The third of three registrations: five platform calls. *)
Lemma install_call_sequence_witness :
  fst (Registry.UWPInstallExceptionHandlerForJIT uwp_build 0x30000 0x1000 0x31000
         third_registration_world) = true /\
  platform_calls
    (trace (snd (Registry.UWPInstallExceptionHandlerForJIT uwp_build 0x30000 0x1000 0x31000
                   third_registration_world)))
    = platform_calls (trace third_registration_world)
        ++ [EvInstallFunctionTable (Z.lor 0x7ff600001000 0x3) 0x30000 0x1000 true;
            EvVirtualProtect 0x31000 4096 PAGE_READWRITE true;
            EvVirtualProtect 0x21000 4096 PAGE_READWRITE true;
            EvVirtualProtect 0x21000 4096 PAGE_EXECUTE_READ true;
            EvVirtualProtect 0x31000 4096 PAGE_EXECUTE_READ true].
Proof.
  assert (Hr : fst (Registry.UWPInstallExceptionHandlerForJIT uwp_build 0x30000 0x1000 0x31000
                      third_registration_world) = true)
    by (vm_compute; reflexivity).
  split; [exact Hr |].
  refine (eq_trans (install_call_sequence uwp_build 0x30000 0x1000 0x31000
                      third_registration_world Hr) _).
  vm_compute. reflexivity.
Defined.

(** ** Key names *)

Section MapFacts.

Lemma map_insert_in (k : Z) (v : string) (m : list (Z * string)) (x : Z * string) :
  In x (map_insert k v m) -> x = (k, v) \/ In x m.
Proof.
  induction m as [| [k' v'] m IH]; cbn.
  - intros [<- | []]. left; reflexivity.
  - destruct (k <? k'); [| destruct (k =? k')]; cbn.
    + intros [<- | H]; [left; reflexivity | right; exact H].
    + intros H; right; exact H.
    + intros [<- | H]; [right; left; reflexivity |].
      destruct (IH H) as [-> | H']; [left; reflexivity | right; right; exact H'].
Qed.

Lemma map_insert_ascending (k : Z) (v : string) (m : list (Z * string)) :
  keys_ascending m -> keys_ascending (map_insert k v m).
Proof.
  induction m as [| [k' v'] m IH]; cbn [map_insert keys_ascending].
  - intros _. split; [constructor | exact I].
  - intros [Hall Hs].
    destruct (Z.ltb_spec k k') as [Hlt | Hge]; [| destruct (Z.eqb_spec k k') as [-> | Hne]];
      cbn [keys_ascending fst].
    + split; [| split; assumption].
      constructor; [exact Hlt |].
      rewrite List.Forall_forall in Hall |- *. intros y Hy. specialize (Hall y Hy).
      cbn in Hall. lia.
    + split; assumption.
    + split; [| apply IH, Hs].
      rewrite List.Forall_forall in Hall |- *. intros y Hy.
      destruct (map_insert_in _ _ _ _ Hy) as [-> | Hy']; [cbn; lia | exact (Hall y Hy')].
Qed.

Lemma map_find_cons (k k' : Z) (v' : string) (m : list (Z * string)) :
  map_find k ((k', v') :: m) = if k' =? k then Some v' else map_find k m.
Proof. unfold map_find. cbn. destruct (k' =? k); reflexivity. Qed.

Lemma map_find_below (k : Z) (m : list (Z * string)) :
  Forall (fun it => k < fst it) m -> map_find k m = None.
Proof.
  induction m as [| [k' v'] m IH]; intros H; [reflexivity |].
  inversion H as [| ? ? Hlt Hrest]; subst. cbn in Hlt.
  rewrite map_find_cons.
  destruct (Z.eqb_spec k' k) as [-> | _]; [lia |]. apply IH, Hrest.
Qed.

(** Looking a key up after an insertion: a key that was present keeps its
    value. *)
Lemma map_find_insert (k k0 : Z) (v0 : string) (m : list (Z * string)) :
  keys_ascending m ->
  map_find k (map_insert k0 v0 m)
    = match map_find k m with
      | Some v => Some v
      | None => if k0 =? k then Some v0 else None
      end.
Proof.
  induction m as [| [k' v'] m IH]; cbn [map_insert keys_ascending fst].
  - intros _. rewrite map_find_cons. reflexivity.
  - intros [Hall Hs].
    destruct (Z.ltb_spec k0 k') as [Hlt | Hge]; [| destruct (Z.eqb_spec k0 k') as [-> | Hne]].
    + rewrite (map_find_cons k k0).
      destruct (Z.eqb_spec k0 k) as [-> | Hk].
      * rewrite map_find_below; [reflexivity |].
        constructor; [exact Hlt |].
        rewrite List.Forall_forall in Hall |- *. intros y Hy. specialize (Hall y Hy). lia.
      * destruct (map_find k ((k', v') :: m)); reflexivity.
    + rewrite map_find_cons. destruct (k' =? k); [reflexivity |].
      destruct (map_find k m); reflexivity.
    + rewrite !(map_find_cons k k').
      destruct (k' =? k); [reflexivity |]. apply IH, Hs.
Qed.

Lemma map_find_in (k : Z) (v : string) (m : list (Z * string)) :
  keys_ascending m -> map_find k m = Some v <-> In (k, v) m.
Proof.
  induction m as [| [k' v'] m IH]; cbn [keys_ascending fst In].
  - intros _. split; [discriminate | intros []].
  - intros [Hall Hs]. rewrite map_find_cons.
    destruct (Z.eqb_spec k' k) as [-> | Hk].
    + split.
      * intros E; injection E as ->. left; reflexivity.
      * intros [E | Hin]; [injection E as ->; reflexivity |].
        exfalso. rewrite List.Forall_forall in Hall. specialize (Hall _ Hin). cbn in Hall. lia.
    + rewrite (IH Hs). split; [intros H; right; exact H |].
      intros [E | Hin]; [injection E as -> _; contradiction | exact Hin].
Qed.

Lemma find_first {A : Type} (f : A -> bool) (l : list A) (x : A) :
  List.find f l = Some x ->
  exists i : nat, l !! i = Some x /\ f x = true /\
                  forall (j : nat) (y : A), (j < i)%nat -> l !! j = Some y -> f y = false.
Proof.
  induction l as [| a l IH]; cbn; [discriminate |].
  destruct (f a) eqn:Ha.
  - intros E; injection E as <-. exists 0%nat. repeat split; [exact Ha |]. intros j y Hj; lia.
  - intros E. destruct (IH E) as (i & Hi & Hx & Hbefore).
    exists (S i). repeat split; [exact Hi | exact Hx |].
    intros [| j] y Hj Hy; cbn in Hy; [injection Hy as <-; exact Ha |].
    apply (Hbefore j); [lia | exact Hy].
Qed.

Lemma lookup_In {A : Type} (l : list A) (i : nat) (x : A) : l !! i = Some x -> In x l.
Proof.
  revert i. induction l as [| a l IH]; intros [| i] H; cbn in H; try discriminate H.
  - injection H as ->. left; reflexivity.
  - right. exact (IH i H).
Qed.

End MapFacts.

(** No name occurs in two rows of the table. *)
Lemma s_key_names_rows_names_differ : NoDup (s_key_names_rows.*2).
Proof. apply (bool_decide_unpack _). vm_compute. reflexivity. Qed.

Section KeyNameFacts.
Variable VirtualKey : string -> Z.

Lemma fold_rows_ascending (rows : list (string * string)) (acc : list (Z * string)) :
  keys_ascending acc -> keys_ascending (fold_left (UWPKeyNames.insert_row VirtualKey) rows acc).
Proof.
  revert acc. induction rows as [| row rows IH]; intros acc Hs; [exact Hs |].
  cbn. apply IH. unfold UWPKeyNames.insert_row. apply map_insert_ascending, Hs.
Qed.

Lemma s_key_names_ascending : keys_ascending (UWPKeyNames.s_key_names VirtualKey).
Proof. apply fold_rows_ascending. exact I. Qed.

Lemma fold_rows_find (rows : list (string * string)) (acc : list (Z * string)) (k : Z) :
  keys_ascending acc ->
  map_find k (fold_left (UWPKeyNames.insert_row VirtualKey) rows acc)
    = match map_find k acc with
      | Some v => Some v
      | None => option_map snd (List.find (fun row => VirtualKey (fst row) =? k) rows)
      end.
Proof.
  revert acc. induction rows as [| row rows IH]; intros acc Hs; cbn.
  - destruct (map_find k acc); reflexivity.
  - rewrite IH by (unfold UWPKeyNames.insert_row; apply map_insert_ascending, Hs).
    unfold UWPKeyNames.insert_row at 1. rewrite map_find_insert by exact Hs.
    destruct (map_find k acc); [reflexivity |].
    destruct (VirtualKey (fst row) =? k); reflexivity.
Qed.

(** The name of a key is the one in the first row whose enumerator has the
    key's value. *)
Lemma GetKeyName_first_row (key : Z) :
  UWPKeyNames.GetKeyName VirtualKey key
    = option_map snd (List.find (fun row => VirtualKey (fst row) =? key) s_key_names_rows).
Proof.
  unfold UWPKeyNames.GetKeyName, UWPKeyNames.s_key_names.
  rewrite fold_rows_find by exact I. reflexivity.
Qed.

Lemma named_row (key : Z) (name : string) :
  UWPKeyNames.GetKeyName VirtualKey key = Some name ->
  exists (i : nat) (e : string),
    s_key_names_rows !! i = Some (e, name) /\ VirtualKey e = key /\
    forall (j : nat) (row : string * string),
      (j < i)%nat -> s_key_names_rows !! j = Some row -> VirtualKey (fst row) <> key.
Proof.
  rewrite GetKeyName_first_row.
  destruct (List.find _ _) as [[e n] |] eqn:E; cbn; [| discriminate].
  intros H; injection H as ->.
  destruct (find_first _ _ _ E) as (i & Hi & Hv & Hbefore).
  exists i, e. split; [exact Hi |]. split; [apply Z.eqb_eq, Hv |].
  intros j row Hj Hrow. apply Z.eqb_neq. exact (Hbefore j row Hj Hrow).
Qed.

Lemma row_of_name (i j : nat) (e e' name : string) :
  s_key_names_rows !! i = Some (e, name) ->
  s_key_names_rows !! j = Some (e', name) ->
  i = j /\ e = e'.
Proof.
  intros Hi Hj.
  assert (i = j) as ->.
  { apply (NoDup_lookup _ i j name s_key_names_rows_names_differ);
      rewrite list_lookup_fmap; [rewrite Hi | rewrite Hj]; reflexivity. }
  split; [reflexivity | congruence].
Qed.

(** X15: names and codes round-trip.  [GetKeyName] gives a key the name
    that [GetKeyCodeForName] turns back into that key, and the other way
    round, whatever values the platform gives the enumerators. *)
Theorem GetKeyName_GetKeyCodeForName_round_trip (key : Z) (key_name : string) :
  UWPKeyNames.GetKeyName VirtualKey key = Some key_name <->
  UWPKeyNames.GetKeyCodeForName VirtualKey key_name = Some key.
Proof.
  pose proof s_key_names_ascending as Hs.
  unfold UWPKeyNames.GetKeyCodeForName. split.
  - intros Hn.
    destruct (List.find _ _) as [[k' n'] |] eqn:E; cbn.
    + apply find_some in E. destruct E as [Hin Heq]. cbn in Heq.
      apply String.eqb_eq in Heq. subst n'.
      assert (Hn' : UWPKeyNames.GetKeyName VirtualKey k' = Some key_name)
        by (apply map_find_in; assumption).
      destruct (named_row _ _ Hn) as (i & e & Hi & Hv & _).
      destruct (named_row _ _ Hn') as (i' & e' & Hi' & Hv' & _).
      destruct (row_of_name _ _ _ _ _ Hi Hi') as [_ ->]. congruence.
    + exfalso. apply (proj1 (map_find_in _ _ _ Hs)) in Hn.
      pose proof (find_none _ _ E _ Hn) as H. cbn in H.
      rewrite String.eqb_refl in H. discriminate H.
  - destruct (List.find _ _) as [[k' n'] |] eqn:E; cbn; [| discriminate].
    intros H; injection H as ->.
    apply find_some in E. destruct E as [Hin Heq]. cbn in Heq.
    apply String.eqb_eq in Heq. subst n'. apply map_find_in; assumption.
Qed.

(** X16: aliases.  When two enumerators of the table have the same value,
    the name in the later row is dead: [GetKeyName] never returns it and
    [GetKeyCodeForName] does not recognise it. *)
Theorem later_alias_is_dropped (i j : nat) (e1 n1 e2 n2 : string) :
  (i < j)%nat ->
  s_key_names_rows !! i = Some (e1, n1) ->
  s_key_names_rows !! j = Some (e2, n2) ->
  VirtualKey e1 = VirtualKey e2 ->
  UWPKeyNames.GetKeyCodeForName VirtualKey n2 = None /\
  forall key : Z, UWPKeyNames.GetKeyName VirtualKey key <> Some n2.
Proof.
  intros Hij Hi Hj Hv.
  assert (Hdead : forall key, UWPKeyNames.GetKeyName VirtualKey key <> Some n2).
  { intros key Hn.
    destruct (named_row _ _ Hn) as (i0 & e & Hi0 & Hk & Hbefore).
    destruct (row_of_name _ _ _ _ _ Hi0 Hj) as [-> ->].
    apply (Hbefore i (e1, n1) Hij Hi). cbn. congruence. }
  split; [| exact Hdead].
  destruct (UWPKeyNames.GetKeyCodeForName VirtualKey n2) as [k |] eqn:E; [| reflexivity].
  exfalso. apply (Hdead k). apply GetKeyName_GetKeyCodeForName_round_trip. exact E.
Qed.

Lemma u32_of_s32_of (code : Z) : 0 <= code < 2 ^ 32 -> u32_of (s32_of code) = code.
Proof.
  unfold u32_of, s32_of.
  change (2 ^ 32) with 4294967296. change (2 ^ 31) with 2147483648.
  intros H. Z.div_mod_to_equations. lia.
Qed.

Lemma s32_of_u32_of (key : Z) : - 2 ^ 31 <= key < 2 ^ 31 -> s32_of (u32_of key) = key.
Proof.
  unfold u32_of, s32_of.
  change (2 ^ 32) with 4294967296. change (2 ^ 31) with 2147483648.
  intros H. Z.div_mod_to_equations. lia.
Qed.

(** X17: key bindings survive a save and a load.  With enumerator values
    that fit the 32-bit signed enumeration, the UWP window converts a
    32-bit code to a string exactly when it converts that string back to
    the same code. *)
Theorem ConvertHostKeyboard_round_trip (code : Z) (str : string) :
  values_fit VirtualKey = true ->
  0 <= code < 2 ^ 32 ->
  UWPNoGUIPlatform.ConvertHostKeyboardCodeToString VirtualKey code = Some str <->
  UWPNoGUIPlatform.ConvertHostKeyboardStringToCode VirtualKey str = Some code.
Proof.
  intros Hfit Hcode.
  unfold UWPNoGUIPlatform.ConvertHostKeyboardCodeToString,
    UWPNoGUIPlatform.ConvertHostKeyboardStringToCode.
  split.
  - destruct (UWPKeyNames.GetKeyName VirtualKey (s32_of code)) as [n |] eqn:E; [| discriminate].
    intros H; injection H as ->.
    apply GetKeyName_GetKeyCodeForName_round_trip in E. rewrite E.
    rewrite u32_of_s32_of by exact Hcode. reflexivity.
  - destruct (UWPKeyNames.GetKeyCodeForName VirtualKey str) as [k |] eqn:E; [| discriminate].
    intros H; injection H as <-.
    apply GetKeyName_GetKeyCodeForName_round_trip in E.
    destruct (named_row _ _ E) as (i & e & Hi & Hv & _).
    unfold values_fit in Hfit. rewrite forallb_forall in Hfit.
    specialize (Hfit (e, str) (lookup_In _ _ _ Hi)).
    cbn [fst] in Hfit. rewrite Hv in Hfit.
    apply andb_true_iff in Hfit. destruct Hfit as [Hlo Hhi].
    apply Z.leb_le in Hlo. apply Z.ltb_lt in Hhi.
    rewrite s32_of_u32_of by lia. rewrite E. reflexivity.
Qed.

End KeyNameFacts.

(** [Kana] and [Hangul] with one value: the name Hangul is dead. *)
Lemma later_alias_is_dropped_witness :
  UWPKeyNames.GetKeyCodeForName row_number_with_aliases "Hangul" = None /\
  forall key : Z, UWPKeyNames.GetKeyName row_number_with_aliases key <> Some "Hangul".
Proof.
  exact (later_alias_is_dropped row_number_with_aliases 15 16 "Kana" "Kana" "Hangul" "Hangul"
           ltac:(lia) eq_refl eq_refl eq_refl).
Defined.

(** The code of the Return key, with the rows numbered from 1. *)
Lemma ConvertHostKeyboard_round_trip_witness :
  UWPNoGUIPlatform.ConvertHostKeyboardCodeToString row_number 10 = Some "Return" <->
  UWPNoGUIPlatform.ConvertHostKeyboardStringToCode row_number "Return" = Some 10.
Proof.
  apply (ConvertHostKeyboard_round_trip row_number 10 "Return").
  - vm_compute. reflexivity.
  - lia.
Defined.

(** ** Threads *)

Section ThreadFacts.
Import Threading.

Lemma obj_set_native_handle_eq (p h : Z) (s : State) :
  obj (set_native_handle p h s) p = mkObject h (m_stack_size (obj s p)).
Proof. unfold obj at 1, set_native_handle. cbn. by rewrite lookup_insert_eq. Qed.

Lemma obj_set_native_handle_ne (p q h : Z) (s : State) :
  p <> q -> obj (set_native_handle p h s) q = obj s q.
Proof. intros H. unfold obj, set_native_handle. cbn. by rewrite lookup_insert_ne. Qed.

Lemma obj_set_stack_size_eq (p size : Z) (s : State) :
  obj (set_stack_size p size s) p = mkObject (m_native_handle (obj s p)) size.
Proof. unfold obj at 1, set_stack_size. cbn. by rewrite lookup_insert_eq. Qed.

Lemma obj_set_stack_size_ne (p q size : Z) (s : State) :
  p <> q -> obj (set_stack_size p size s) q = obj s q.
Proof. intros H. unfold obj, set_stack_size. cbn. by rewrite lookup_insert_ne. Qed.

(** The platform does not touch the program's objects. *)
Lemma obj_DuplicateHandle (h access p : Z) (s : State) :
  obj (snd (DuplicateHandle h access s)) p = obj s p.
Proof.
  unfold DuplicateHandle, next_verdict.
  destruct (bool_decide _); [| reflexivity].
  destruct (verdicts s) as [| [a | e] rest]; reflexivity.
Qed.

Lemma obj_CloseHandle (h p : Z) (s : State) : obj (snd (CloseHandle h s)) p = obj s p.
Proof. unfold CloseHandle. destruct (bool_decide _); reflexivity. Qed.

Lemma closed_after_CloseHandle (h : Z) (s : State) :
  h ∉ open_handles (snd (CloseHandle h s)).
Proof.
  unfold CloseHandle. destruct (bool_decide_reflect (h ∈ open_handles s)) as [Hin | Hout]; cbn.
  - intros [_ Hn]%elem_of_difference. apply Hn, elem_of_singleton. reflexivity.
  - exact Hout.
Qed.

Lemma DuplicateHandle_not_open (h access : Z) (s : State) :
  h ∉ open_handles s ->
  DuplicateHandle h access s
    = (false, 0, record (CallDuplicateHandle h access 0) (fail_with ERROR_INVALID_HANDLE s)).
Proof.
  intros H. unfold DuplicateHandle. rewrite bool_decide_eq_false_2 by exact H. reflexivity.
Qed.

(** The source of a copy keeps its handle. *)
Lemma ThreadHandle_copy_source (this handle : Z) (s : State) :
  this <> handle ->
  obj (ThreadHandle_copy this handle s) handle = obj s handle.
Proof.
  intros Hne. unfold ThreadHandle_copy.
  destruct (negb _); [| reflexivity].
  destruct (DuplicateHandle _ _ s) as [[ok new_handle] s1] eqn:E.
  assert (Ho : obj s1 handle = obj s handle)
    by (change s1 with (snd (ok, new_handle, s1)); rewrite <- E; apply obj_DuplicateHandle).
  destruct ok; [| exact Ho].
  rewrite obj_set_native_handle_ne by exact Hne. exact Ho.
Qed.

Lemma ThreadHandle_assign_copy_source (this handle : Z) (s : State) :
  this <> handle ->
  obj (ThreadHandle_assign_copy this handle s) handle = obj s handle.
Proof.
  intros Hne. unfold ThreadHandle_assign_copy.
  set (s0 := if negb _ then _ else s).
  assert (H0 : obj s0 handle = obj s handle).
  { subst s0. destruct (negb _); [| reflexivity].
    rewrite obj_set_native_handle_ne by exact Hne. apply obj_CloseHandle. }
  destruct (DuplicateHandle _ _ s0) as [[ok new_handle] s1] eqn:E.
  assert (Ho : obj s1 handle = obj s0 handle)
    by (change s1 with (snd (ok, new_handle, s1)); rewrite <- E; apply obj_DuplicateHandle).
  destruct ok; [| congruence].
  rewrite obj_set_native_handle_ne by exact Hne. congruence.
Qed.

Lemma stack_size_handover (this thread : Z) (s1 : State) :
  this <> thread ->
  let s' := set_stack_size thread 0
              (set_stack_size this (m_stack_size (obj s1 thread)) s1) in
  m_native_handle (obj s' thread) = m_native_handle (obj s1 thread) /\
  m_stack_size (obj s' thread) = 0 /\
  m_stack_size (obj s' this) = m_stack_size (obj s1 thread).
Proof.
  intros Hne. cbn zeta.
  rewrite obj_set_stack_size_eq.
  rewrite (obj_set_stack_size_ne thread this) by congruence.
  rewrite obj_set_stack_size_eq.
  rewrite (obj_set_stack_size_ne this thread) by exact Hne.
  repeat split.
Qed.

Lemma Thread_destroy_started (this : Z) (s : State) :
  m_native_handle (obj s this) <> 0 ->
  In (CallAssertFailed "Thread should be detached or joined at destruction")
     (calls (Thread_destroy this s)).
Proof.
  intros Hstarted. unfold Thread_destroy, pxAssertRel_thread.
  destruct (Z.eqb_spec (m_native_handle (obj s this)) 0) as [? | _]; [contradiction |].
  unfold ThreadHandle_destroy.
  destruct (negb _).
  - unfold CloseHandle. destruct (bool_decide _); cbn;
      rewrite !in_app_iff; left; right; left; reflexivity.
  - cbn. rewrite in_app_iff. right; left; reflexivity.
Qed.

(** X18: a moved-from [Thread] keeps its handle.  Move construction and
    move assignment of a [Thread] from another object hand over the stack
    size (the source's becomes 0) but leave the source's native handle in
    place, so destroying a moved-from thread that had been started trips
    the destructor's assertion. *)
Theorem Thread_move_keeps_source_handle (this thread : Z) (s : State) :
  this <> thread ->
  forall s' : State,
    s' = Thread_move this thread s \/ s' = Thread_assign_move this thread s ->
    m_native_handle (obj s' thread) = m_native_handle (obj s thread) /\
    m_stack_size (obj s' thread) = 0 /\
    m_stack_size (obj s' this) = m_stack_size (obj s thread) /\
    (m_native_handle (obj s thread) <> 0 ->
     In (CallAssertFailed "Thread should be detached or joined at destruction")
        (calls (Thread_destroy thread s'))).
Proof.
  intros Hne s' Hs'.
  assert (H : m_native_handle (obj s' thread) = m_native_handle (obj s thread) /\
              m_stack_size (obj s' thread) = 0 /\
              m_stack_size (obj s' this) = m_stack_size (obj s thread)).
  { destruct Hs' as [-> | ->].
    - unfold Thread_move.
      destruct (stack_size_handover this thread (ThreadHandle_copy this thread s) Hne)
        as (H1 & H2 & H3).
      rewrite H1, H2, H3, (ThreadHandle_copy_source this thread s Hne). repeat split.
    - unfold Thread_assign_move.
      destruct (stack_size_handover this thread (ThreadHandle_assign_copy this thread s) Hne)
        as (H1 & H2 & H3).
      rewrite H1, H2, H3, (ThreadHandle_assign_copy_source this thread s Hne). repeat split. }
  destruct H as (H1 & H2 & H3). repeat split; try assumption.
  intros Hstarted. apply Thread_destroy_started. congruence.
Qed.

(** X19: self-assignment loses the thread.  After [a = a] through the copy
    assignment, and after [a = std::move(a)], the object holds no handle
    and the handle it held is closed. *)
Theorem ThreadHandle_self_assignment_drops_handle (a : Z) (s : State) :
  0 ∉ open_handles s ->
  forall s' : State,
    s' = ThreadHandle_assign_copy a a s \/ s' = ThreadHandle_assign_move a a s ->
    m_native_handle (obj s' a) = 0 /\
    m_native_handle (obj s a) ∉ open_handles s'.
Proof.
  intros Hnull s' [-> | ->].
  - unfold ThreadHandle_assign_copy.
    set (s0 := if negb _ then _ else s).
    assert (H0 : m_native_handle (obj s0 a) = 0 /\ (0 ∉ open_handles s0) /\
                 (m_native_handle (obj s a) ∉ open_handles s0)).
    { subst s0. destruct (Z.eqb_spec (m_native_handle (obj s a)) 0) as [Hz | Hnz]; cbn [negb].
      - rewrite Hz. repeat split; assumption.
      - rewrite obj_set_native_handle_eq. split; [reflexivity |].
        split; [| exact (closed_after_CloseHandle _ s)].
        unfold CloseHandle. destruct (bool_decide _); cbn; [| exact Hnull].
        intros [H _]%elem_of_difference. exact (Hnull H). }
    destruct H0 as (Hh & Hn & Hc).
    rewrite Hh, (DuplicateHandle_not_open 0 copy_access s0 Hn).
    split; [exact Hh | exact Hc].
  - unfold ThreadHandle_assign_move.
    rewrite obj_set_native_handle_eq. cbn [m_native_handle]. split; [reflexivity |].
    destruct (Z.eqb_spec (m_native_handle (obj s a)) 0) as [Hz | Hnz]; cbn [negb].
    + cbn. rewrite Hz. exact Hnull.
    + exact (closed_after_CloseHandle (m_native_handle (obj s a)) s).
Qed.

Lemma obj_beginthreadex (size p : Z) (s : State) :
  obj (snd (beginthreadex size s)) p = obj s p.
Proof.
  unfold beginthreadex, next_verdict.
  destruct (verdicts s) as [| [q | e] rest]; reflexivity.
Qed.

Ltac simpl_state :=
  cbn [fst snd verdicts open_handles error calls objects
       record fail_with open_handle set_native_handle set_stack_size negb].

Lemma CloseHandle_open (h : Z) (s : State) :
  h ∈ open_handles s ->
  CloseHandle h s
    = (true, record (CallCloseHandle h true)
               (mkState (verdicts s) (open_handles s ∖ {[h]}) (error s) (calls s) (objects s))).
Proof. intros H. unfold CloseHandle. rewrite bool_decide_eq_true_2 by exact H. reflexivity. Qed.

(** [Join] and [Detach] on a started thread. *)
Lemma finish_started (this : Z) (s s' : State) :
  m_native_handle (obj s this) <> 0 ->
  m_native_handle (obj s this) ∈ open_handles s ->
  s' = Join this s \/ s' = Detach this s ->
  m_native_handle (obj s' this) = 0 /\
  open_handles s' = open_handles s ∖ {[m_native_handle (obj s this)]} /\
  exists evs, calls s' = calls s ++ evs /\ Forall not_failed_close evs.
Proof.
  intros Hnz Hopen [-> | ->].
  - unfold Join, pxAssertRel_thread.
    destruct (Z.eqb_spec (m_native_handle (obj s this)) 0) as [? | _]; [contradiction |].
    cbn [negb]. unfold WaitForSingleObject.
    rewrite (bool_decide_eq_true_2 _ Hopen). unfold next_verdict.
    destruct (verdicts s) as [| [q | e] rest] eqn:Ev.
    all: unfold WAIT_OBJECT_0, WAIT_FAILED, pxFailRel_thread; cbn [Z.eqb negb].
    all: match goal with
         | |- context [CloseHandle (m_native_handle (obj ?t ?x)) ?t] =>
             change (obj t x) with (obj s x);
             rewrite (CloseHandle_open (m_native_handle (obj s this)) t) by exact Hopen
         end.
    all: rewrite obj_set_native_handle_eq; simpl_state.
    all: split; [reflexivity |]; split; [reflexivity |].
    all: rewrite <- ?app_assoc; eexists; split; [reflexivity |].
    all: repeat constructor; intros ?; discriminate.
  - unfold Detach, pxAssertRel_thread.
    destruct (Z.eqb_spec (m_native_handle (obj s this)) 0) as [? | _]; [contradiction |].
    cbn [negb]. rewrite (CloseHandle_open _ s Hopen).
    rewrite obj_set_native_handle_eq; simpl_state.
    split; [reflexivity |]. split; [reflexivity |].
    eexists; split; [reflexivity |]. repeat constructor; intros ?; discriminate.
Qed.

(** X20: start, then join or detach.  A successful [Start] stores the new
    thread's handle, which is open; [Join] (whatever the wait returns) and
    [Detach] then close exactly that handle, by a close that succeeds, and
    leave the object without one.  A failed [Start] leaves the object
    without a handle and opens none. *)
Theorem Start_then_Join_or_Detach (this : Z) (s : State) :
  let started := snd (Start this s) in
  let h := m_native_handle (obj started this) in
  (fst (Start this s) = true ->
   h <> 0 /\ h ∈ open_handles started /\
   forall s' : State,
     s' = Join this started \/ s' = Detach this started ->
     m_native_handle (obj s' this) = 0 /\
     open_handles s' = open_handles started ∖ {[h]} /\
     exists evs, calls s' = calls started ++ evs /\ Forall not_failed_close evs) /\
  (fst (Start this s) = false ->
   h = 0 /\ open_handles started = open_handles s).
Proof.
  cbn zeta.
  assert (Hstart :
    (fst (Start this s) = true ->
     m_native_handle (obj (snd (Start this s)) this) <> 0 /\
     m_native_handle (obj (snd (Start this s)) this) ∈ open_handles (snd (Start this s))) /\
    (fst (Start this s) = false ->
     m_native_handle (obj (snd (Start this s)) this) = 0 /\
     open_handles (snd (Start this s)) = open_handles s)).
  { unfold Start.
    set (s0 := pxAssertRel_thread _ _ s).
    assert (Ho0 : open_handles s0 = open_handles s)
      by (subst s0; unfold pxAssertRel_thread; destruct (_ =? _); reflexivity).
    unfold beginthreadex, next_verdict.
    destruct (verdicts s0) as [| [p | e] rest] eqn:Ev;
      rewrite obj_set_native_handle_eq; cbn [m_native_handle].
    - rewrite Z.eqb_refl. cbn [fst snd]. split; [discriminate |].
      intros _. rewrite obj_set_native_handle_eq. split; [reflexivity | exact Ho0].
    - change (Z.pos p =? 0) with false. cbn [fst snd]. split; [| discriminate].
      intros _. rewrite obj_set_native_handle_eq. cbn [m_native_handle].
      split; [discriminate |].
      simpl_state. apply elem_of_union_l, elem_of_singleton. reflexivity.
    - rewrite Z.eqb_refl. cbn [fst snd]. split; [discriminate |].
      intros _. rewrite obj_set_native_handle_eq. split; [reflexivity | exact Ho0]. }
  destruct Hstart as [Hok Hfail]. split; [| exact Hfail].
  intros Hr. destruct (Hok Hr) as [Hnz Hopen].
  split; [exact Hnz |]. split; [exact Hopen |].
  intros s' Hs'. exact (finish_started this _ s' Hnz Hopen Hs').
Qed.

(** X21: what [SetAffinity] reports.  The mask handed to the platform is
    the caller's, or all 64 bits set when the caller passed 0; the native
    handle of the object is not consulted (the call acts on the calling
    thread).  The result is false only when the platform call fails and
    leaves no error code: a failure with an error code is reported as
    success. *)
Theorem SetAffinity_outcome (this processor_mask : Z) (s : State) :
  let run := SetAffinity this processor_mask s in
  (exists ret : Z,
     calls (snd run)
       = calls s ++ [CallSetThreadAffinityMask
                       (if processor_mask =? 0 then 2 ^ 64 - 1 else processor_mask) ret] /\
     (fst run = false <-> ret = 0 /\ error (snd run) = ERROR_SUCCESS)) /\
  (forall other : Z, SetAffinity other processor_mask s = run).
Proof.
  cbn zeta. split; [| reflexivity].
  unfold SetAffinity.
  assert (Hm : (if processor_mask =? 0 then DWORD64_of (Z.lnot processor_mask)
                else processor_mask)
               = (if processor_mask =? 0 then 2 ^ 64 - 1 else processor_mask)).
  { destruct (Z.eqb_spec processor_mask 0) as [-> | _]; reflexivity. }
  rewrite Hm. unfold SetThreadAffinityMask, next_verdict.
  destruct (verdicts s) as [| [q | e] rest]; cbn [fst snd negb].
  - change (0 =? 0) with true. cbn [negb fst snd calls record fail_with error].
    eexists. split; [reflexivity |].
    unfold ERROR_NOT_ENOUGH_MEMORY, ERROR_SUCCESS. cbn.
    split; [discriminate | intros [_ H]; discriminate H].
  - change (Z.pos q =? 0) with false. cbn [negb fst snd calls record].
    eexists. split; [reflexivity |].
    split; [discriminate | intros [H _]; discriminate H].
  - change (0 =? 0) with true. cbn [negb fst snd calls record fail_with error].
    eexists. split; [reflexivity |].
    unfold ERROR_SUCCESS. destruct (Z.eqb_spec e 0) as [-> | Hne]; cbn [negb].
    + split; [intros _; split; reflexivity | reflexivity].
    + split; [discriminate | intros [_ H]; contradiction].
Qed.

(** X22: a copy is a handle of its own.  Copying a started thread's handle
    into another object gives that object the duplicate the platform
    returns; destroying the copy closes the duplicate only, and the source
    keeps its handle, still open. *)
Theorem copy_then_destroy_keeps_source (this handle : Z) (s : State)
    (p : positive) (rest : list Answer) :
  this <> handle ->
  m_native_handle (obj s handle) <> 0 ->
  m_native_handle (obj s handle) ∈ open_handles s ->
  verdicts s = Grant p :: rest ->
  Z.pos p ∉ open_handles s ->
  let copied := ThreadHandle_copy this handle s in
  let destroyed := ThreadHandle_destroy this copied in
  m_native_handle (obj copied this) = Z.pos p /\
  open_handles destroyed = open_handles s /\
  m_native_handle (obj destroyed handle) = m_native_handle (obj s handle) /\
  m_native_handle (obj destroyed handle) ∈ open_handles destroyed.
Proof.
  intros Hne Hnz Hopen Hv Hfresh. cbn zeta.
  assert (Hc : ThreadHandle_copy this handle s
               = set_native_handle this (Z.pos p)
                   (record (CallDuplicateHandle (m_native_handle (obj s handle)) copy_access
                              (Z.pos p))
                      (open_handle (Z.pos p)
                         (mkState rest (open_handles s) (error s) (calls s) (objects s))))).
  { unfold ThreadHandle_copy.
    destruct (Z.eqb_spec (m_native_handle (obj s handle)) 0) as [? | _]; [contradiction |].
    cbn [negb]. unfold DuplicateHandle.
    rewrite (bool_decide_eq_true_2 _ Hopen). unfold next_verdict. rewrite Hv. reflexivity. }
  rewrite Hc. clear Hc.
  set (copied := set_native_handle this (Z.pos p) _).
  assert (Hthis : m_native_handle (obj copied this) = Z.pos p)
    by (subst copied; rewrite obj_set_native_handle_eq; reflexivity).
  assert (Hsrc : obj copied handle = obj s handle)
    by (subst copied; rewrite obj_set_native_handle_ne by exact Hne; reflexivity).
  assert (Ho : open_handles copied = {[Z.pos p]} ∪ open_handles s) by reflexivity.
  split; [exact Hthis |].
  unfold ThreadHandle_destroy. rewrite Hthis. change (negb (Z.pos p =? 0)) with true.
  cbn iota.
  rewrite CloseHandle_open by (rewrite Ho; apply elem_of_union_l, elem_of_singleton; reflexivity).
  cbn [snd]. change (obj (record _ _) handle) with (obj copied handle).
  cbn [open_handles record]. rewrite Ho, Hsrc.
  assert (Hset : ({[Z.pos p]} ∪ open_handles s) ∖ {[Z.pos p]} = open_handles s).
  { apply set_eq. intros y.
    rewrite elem_of_difference, elem_of_union, elem_of_singleton. split.
    - intros [[Hy | Hy] Hn]; [contradiction | exact Hy].
    - intros Hy. split; [right; exact Hy | intros ->; exact (Hfresh Hy)]. }
  rewrite Hset. repeat split. exact Hopen.
Qed.

End ThreadFacts.

(** A started thread moved into a new object. *)
Lemma Thread_move_keeps_source_handle_witness :
  Threading.m_native_handle
    (Threading.obj (Threading.Thread_move 0x200 0x100 (one_thread [Grant 0x48])) 0x100) = 0x44 /\
  Threading.m_native_handle
    (Threading.obj (Threading.Thread_move 0x200 0x100 (one_thread [Grant 0x48])) 0x200) = 0x48.
Proof.
  split; [| vm_compute; reflexivity].
  exact (proj1 (Thread_move_keeps_source_handle 0x200 0x100 (one_thread [Grant 0x48])
                  ltac:(discriminate) _ (or_introl eq_refl))).
Defined.

(** The thread object at [0x100] assigned to itself. *)
Lemma ThreadHandle_self_assignment_drops_handle_witness :
  Threading.m_native_handle
    (Threading.obj (Threading.ThreadHandle_assign_copy 0x100 0x100 (one_thread [Grant 0x48]))
       0x100) = 0 /\
  0x44 ∉ Threading.open_handles
           (Threading.ThreadHandle_assign_copy 0x100 0x100 (one_thread [Grant 0x48])).
Proof.
  refine (ThreadHandle_self_assignment_drops_handle 0x100 (one_thread [Grant 0x48])
            _ _ (or_introl eq_refl)).
  apply (bool_decide_unpack _). vm_compute. reflexivity.
Defined.

(** The handle [0x44] copied into the object at [0x200], and the copy
    destroyed. *)
Lemma copy_then_destroy_keeps_source_witness :
  Threading.open_handles
    (Threading.ThreadHandle_destroy 0x200
       (Threading.ThreadHandle_copy 0x200 0x100 (one_thread [Grant 0x48])))
    = Threading.open_handles (one_thread [Grant 0x48]).
Proof.
  refine (proj1 (proj2 (copy_then_destroy_keeps_source 0x200 0x100 (one_thread [Grant 0x48])
                          0x48 [] _ _ _ eq_refl _))).
  - discriminate.
  - vm_compute. discriminate.
  - apply (bool_decide_unpack _). vm_compute. reflexivity.
  - apply (bool_decide_unpack _). vm_compute. reflexivity.
Defined.

(** ** Pointer input *)

Lemma land_single_bit (x : Z) (k : Z) :
  0 <= k -> Z.land x (2 ^ k) = if Z.testbit x k then 2 ^ k else 0.
Proof.
  intros Hk. apply Z.bits_inj'. intros n Hn.
  rewrite Z.land_spec, Z.pow2_bits_eqb by lia.
  destruct (Z.eqb_spec k n) as [-> | Hne].
  - rewrite andb_true_r. destruct (Z.testbit x n) eqn:E.
    + rewrite Z.pow2_bits_true by lia. reflexivity.
    + rewrite Z.bits_0. reflexivity.
  - rewrite andb_false_r. destruct (Z.testbit x k).
    + rewrite Z.pow2_bits_false by lia. reflexivity.
    + rewrite Z.bits_0. reflexivity.
Qed.

Lemma single_bit_test (x k : Z) :
  0 <= k -> (Z.land x (2 ^ k) =? 0) = negb (Z.testbit x k).
Proof.
  intros Hk. rewrite land_single_bit by exact Hk.
  destruct (Z.testbit x k); [| reflexivity].
  apply Z.eqb_neq. pose proof (Z.pow_pos_nonneg 2 k ltac:(lia) Hk). lia.
Qed.

(** A bit of the word changed when it differs between the two words. *)
Lemma changed_bit_test (x y k : Z) :
  0 <= k ->
  (Z.land (Z.lxor x y) (2 ^ k) =? 0)
    = Bool.eqb (Z.land x (2 ^ k) =? 0) (Z.land y (2 ^ k) =? 0).
Proof.
  intros Hk. rewrite !single_bit_test by exact Hk. rewrite Z.lxor_spec.
  destruct (Z.testbit x k), (Z.testbit y k); reflexivity.
Qed.

Ltac small_numbers :=
  change (Z.of_nat 0) with 0; change (Z.of_nat 1) with 1; change (Z.of_nat 2) with 2;
  change (Z.of_nat 3) with 3; change (Z.of_nat 4) with 4;
  change (Z.to_nat 0) with 0%nat; change (Z.to_nat 1) with 1%nat;
  change (Z.to_nat 2) with 2%nat; change (Z.to_nat 3) with 3%nat;
  change (Z.to_nat 4) with 4%nat.

Ltac use_changed_bits :=
  repeat match goal with
         | H : (Z.land (Z.lxor _ _) (2 ^ _) =? 0) = _ |- _ =>
             rewrite changed_bit_test in H by lia
         end.

(** X23: the Win32 window keeps the input manager in step.  After a mouse
    button message the stored word is the message's button word, and an
    observer who knew the five buttons as of the previous word and applies
    the requests issued knows them as of the new word; a message that
    repeats the stored word issues no request. *)
Theorem WndProc_mouse_button_tracks_state (last wParam i : Z) :
  0 <= i < 5 ->
  let run := Win32Input.WndProc_mouse_button last wParam in
  fst run = DWORD_of wParam /\
  replay (snd run) (held_in last) i = held_in (DWORD_of wParam) i /\
  (last = DWORD_of wParam -> snd run = []).
Proof.
  intros Hi. cbn zeta. unfold Win32Input.WndProc_mouse_button. cbn [fst snd].
  split; [reflexivity |].
  set (buttons := DWORD_of wParam).
  cbn [length Win32Input.masks seq flat_map nth
       NoGUIHost.ProcessPlatformMouseButtonEvent Z.of_nat Pos.of_succ_nat Pos.succ].
  change MK_LBUTTON with (2 ^ 0). change MK_RBUTTON with (2 ^ 1).
  change MK_MBUTTON with (2 ^ 4). change MK_XBUTTON1 with (2 ^ 5).
  change MK_XBUTTON2 with (2 ^ 6).
  split.
  - assert (Hcases : i = 0 \/ i = 1 \/ i = 2 \/ i = 3 \/ i = 4) by lia.
    unfold held_in, Win32Input.masks.
    change MK_LBUTTON with (2 ^ 0). change MK_RBUTTON with (2 ^ 1).
    change MK_MBUTTON with (2 ^ 4). change MK_XBUTTON1 with (2 ^ 5).
    change MK_XBUTTON2 with (2 ^ 6).
    destruct (Z.land (Z.lxor last buttons) (2 ^ 0) =? 0) eqn:E0,
             (Z.land (Z.lxor last buttons) (2 ^ 1) =? 0) eqn:E1,
             (Z.land (Z.lxor last buttons) (2 ^ 4) =? 0) eqn:E2,
             (Z.land (Z.lxor last buttons) (2 ^ 5) =? 0) eqn:E3,
             (Z.land (Z.lxor last buttons) (2 ^ 6) =? 0) eqn:E4;
      use_changed_bits;
      destruct Hcases as [-> | [-> | [-> | [-> | ->]]]];
      small_numbers; cbn -[Z.land Z.pow];
      small_numbers; cbn -[Z.land Z.pow];
      try reflexivity;
      match goal with
      | |- negb (Z.land last ?m =? 0) = negb (Z.land buttons ?m =? 0) =>
          destruct (Z.land last m =? 0), (Z.land buttons m =? 0);
          first [reflexivity | discriminate]
      end.
  - intros ->. rewrite Z.lxor_nilpotent. reflexivity.
Qed.

(** The left button pressed while the right one is held. *)
Lemma WndProc_mouse_button_tracks_state_witness :
  replay (snd (Win32Input.WndProc_mouse_button 0x0002 0x0003)) (held_in 0x0002) 0
    = held_in (DWORD_of 0x0003) 0.
Proof.
  exact (proj1 (proj2 (WndProc_mouse_button_tracks_state 0x0002 0x0003 0 ltac:(lia)))).
Defined.

(** X24: the UWP window keeps the input manager in step.  With the three
    button flags of a pointer point, [UpdateMouseButtonState] stores those
    flags, and an observer who knew buttons 1 to 3 as of the stored flags
    and applies the requests issued knows them as of the new flags; a point
    with the stored flags issues no request. *)
Theorem UpdateMouseButtonState_tracks_state (last states : list bool)
    (held : Z -> bool) (i : nat) :
  length last = 3%nat ->
  length states = 3%nat ->
  (forall k : nat, (k < 3)%nat -> held (Z.of_nat k + 1) = nth k last false) ->
  (i < 3)%nat ->
  let run := UWPInput.UpdateMouseButtonState last states in
  fst run = states /\
  replay (snd run) held (Z.of_nat i + 1) = nth i states false /\
  (last = states -> snd run = []).
Proof.
  intros Hl Hs Hheld Hi. cbn zeta.
  destruct last as [| l0 [| l1 [| l2 [| ? ?]]]]; try discriminate Hl.
  destruct states as [| s0 [| s1 [| s2 [| ? ?]]]]; try discriminate Hs.
  pose proof (Hheld 0%nat ltac:(lia)) as H0.
  pose proof (Hheld 1%nat ltac:(lia)) as H1.
  pose proof (Hheld 2%nat ltac:(lia)) as H2.
  cbn in H0, H1, H2.
  assert (Hcases : i = 0%nat \/ i = 1%nat \/ i = 2%nat) by lia.
  split; [| split].
  - destruct l0, l1, l2, s0, s1, s2; reflexivity.
  - destruct Hcases as [-> | [-> | ->]];
      destruct l0, l1, l2, s0, s1, s2; cbn; first [exact H0 | exact H1 | exact H2 | reflexivity].
  - intros E. injection E as -> -> ->. destruct s0, s1, s2; reflexivity.
Qed.

(** The middle button pressed. *)
Lemma UpdateMouseButtonState_tracks_state_witness :
  replay (snd (UWPInput.UpdateMouseButtonState [false; false; false] [false; false; true]))
         (fun _ => false) (Z.of_nat 2 + 1)
    = nth 2 [false; false; true] false.
Proof.
  refine (proj1 (proj2 (UpdateMouseButtonState_tracks_state
                          [false; false; false] [false; false; true] (fun _ => false) 2
                          eq_refl eq_refl _ ltac:(lia)))).
  intros [| [| [| k]]] Hk; first [reflexivity | lia].
Defined.

(** X25: the two windows number the buttons differently.  For the same
    change of the left, right and middle button, the UWP window issues the
    requests the Win32 window issues for those buttons, each with a button
    number one higher (left is 0 on Win32 and 1 on UWP). *)
Theorem UWP_buttons_are_one_higher (last wParam : Z) :
  snd (UWPInput.UpdateMouseButtonState
         (map (held_in last) [0; 1; 2]) (map (held_in (DWORD_of wParam)) [0; 1; 2]))
    = map one_higher (main_buttons (snd (Win32Input.WndProc_mouse_button last wParam))).
Proof.
  unfold Win32Input.WndProc_mouse_button. cbn [fst snd].
  set (buttons := DWORD_of wParam).
  cbn [length Win32Input.masks seq flat_map nth map
       NoGUIHost.ProcessPlatformMouseButtonEvent].
  unfold held_in, Win32Input.masks. small_numbers. cbn [nth].
  change MK_LBUTTON with (2 ^ 0). change MK_RBUTTON with (2 ^ 1).
  change MK_MBUTTON with (2 ^ 4). change MK_XBUTTON1 with (2 ^ 5).
  change MK_XBUTTON2 with (2 ^ 6).
  rewrite !(changed_bit_test last buttons) by lia.
  generalize (Z.land last (2 ^ 0) =? 0), (Z.land last (2 ^ 1) =? 0),
    (Z.land last (2 ^ 4) =? 0), (Z.land last (2 ^ 5) =? 0), (Z.land last (2 ^ 6) =? 0),
    (Z.land buttons (2 ^ 0) =? 0), (Z.land buttons (2 ^ 1) =? 0),
    (Z.land buttons (2 ^ 4) =? 0), (Z.land buttons (2 ^ 5) =? 0),
    (Z.land buttons (2 ^ 6) =? 0).
  intros [] [] [] [] [] [] [] [] [] []; reflexivity.
Qed.

(** X26: the wheel.  The UWP window drops a vertical wheel movement and
    reports a horizontal one on both axes; the Win32 window reports each
    wheel message on its own axis.  The amount is the wheel delta over
    [WHEEL_DELTA], clamped to one notch. *)
Theorem wheel_axes :
  (forall delta : Z, UWPInput.OnPointerWheelChanged delta false = []) /\
  (forall delta : Z,
     delta <> 0 ->
     UWPInput.OnPointerWheelChanged delta true
       = [UpdatePointerRelativeDelta WheelX (clamp delta (- WHEEL_DELTA) WHEEL_DELTA);
          UpdatePointerRelativeDelta WheelY (clamp delta (- WHEEL_DELTA) WHEEL_DELTA)]) /\
  (forall wParam : Z,
     let d := clamp (s16_of (HIWORD wParam)) (- WHEEL_DELTA) WHEEL_DELTA in
     s16_of (HIWORD wParam) <> 0 ->
     - WHEEL_DELTA <= d <= WHEEL_DELTA /\
     Win32Input.WndProc_mouse_wheel false wParam = [UpdatePointerRelativeDelta WheelY d] /\
     Win32Input.WndProc_mouse_wheel true wParam = [UpdatePointerRelativeDelta WheelX d]).
Proof.
  assert (Hclamp : forall v, v <> 0 ->
            clamp v (- WHEEL_DELTA) WHEEL_DELTA <> 0 /\
            - WHEEL_DELTA <= clamp v (- WHEEL_DELTA) WHEEL_DELTA <= WHEEL_DELTA).
  { intros v Hv. unfold clamp, WHEEL_DELTA.
    destruct (Z.ltb_spec v (Z.opp 120)) as [Hlo | Hlo]; [split; lia |].
    destruct (Z.ltb_spec 120 v) as [Hhi | Hhi]; split; lia. }
  split; [| split].
  - intros delta. reflexivity.
  - intros delta Hd. unfold UWPInput.OnPointerWheelChanged,
      NoGUIHost.ProcessPlatformMouseWheelEvent.
    destruct (Hclamp delta Hd) as [Hnz _].
    destruct (Z.eqb_spec (clamp delta (- WHEEL_DELTA) WHEEL_DELTA) 0); [contradiction |].
    reflexivity.
  - intros wParam d Hd. subst d.
    destruct (Hclamp _ Hd) as [Hnz Hrange]. split; [exact Hrange |].
    unfold Win32Input.WndProc_mouse_wheel, NoGUIHost.ProcessPlatformMouseWheelEvent.
    cbn [negb].
    destruct (Z.eqb_spec (clamp (s16_of (HIWORD wParam)) (- WHEEL_DELTA) WHEEL_DELTA) 0);
      [contradiction |].
    split; reflexivity.
Qed.

(** ** The Win32 window *)

Section WindowFacts.
Import Win32NoGUIPlatform.

Lemma window_of_with_window (hwnd : Z) (f : WindowState -> WindowState) (p : Win32) :
  window_of (with_window hwnd f p) hwnd = f (window_of p hwnd).
Proof. unfold window_of at 1, with_window. cbn. by rewrite lookup_insert_eq. Qed.

(** Bits of the window style: what entering and leaving fullscreen does to
    a style that has the windowed bits and is not a popup. *)
Lemma windowed_style_restored (style : Z) :
  Z.land style WINDOWED_STYLE = WINDOWED_STYLE ->
  Z.land style WS_POPUP = 0 ->
  Z.lor (Z.land (Z.lor (Z.land style (Z.lnot WINDOWED_STYLE)) FULLSCREEN_STYLE)
                (Z.lnot FULLSCREEN_STYLE))
        WINDOWED_STYLE
    = style.
Proof.
  intros Hw Hp.
  assert (Hf : Z.land FULLSCREEN_STYLE (Z.lnot (Z.lor WINDOWED_STYLE WS_POPUP)) = 0)
    by reflexivity.
  apply Z.bits_inj'. intros n Hn.
  apply (f_equal (fun z => Z.testbit z n)) in Hw, Hp, Hf.
  repeat first [ rewrite Z.lor_spec in Hf | rewrite Z.land_spec in Hf
               | rewrite Z.lnot_spec in Hf by exact Hn ].
  rewrite Z.land_spec in Hw, Hp. rewrite Z.bits_0 in Hp, Hf.
  repeat first [ rewrite Z.lor_spec | rewrite Z.land_spec
               | rewrite Z.lnot_spec by exact Hn ].
  destruct (Z.testbit style n), (Z.testbit WINDOWED_STYLE n),
    (Z.testbit FULLSCREEN_STYLE n), (Z.testbit WS_POPUP n);
    cbn in *; congruence.
Qed.

Ltac simpl_window :=
  repeat first
    [ progress cbv beta iota zeta delta
        [SetWindowLongPtrW_style SetWindowLongPtrW_exstyle SetWindowPos with_window
         window_of ui m_hwnd m_fullscreen m_windowed_rect m_window_scale
         m_last_mouse_buttons s_is_fullscreen settings windows ui_calls
         ws_style ws_exstyle ws_rect fst snd]
    | rewrite lookup_insert_eq
    | rewrite insert_insert_eq
    | progress cbn [default] ].

(** Entering fullscreen, when the platform cooperates. *)
Lemma SetFullscreen_enter (d : Desktop) (p : Win32) (rcMonitor : RECT) :
  m_hwnd p <> 0 ->
  m_fullscreen p = false ->
  MonitorFromWindow_result d <> 0 ->
  GetMonitorInfo_result d = Some rcMonitor ->
  GetWindowRect_ok d = true ->
  let w := window_of p (m_hwnd p) in
  let style := Z.lor (Z.land (ws_style w) (Z.lnot WINDOWED_STYLE)) FULLSCREEN_STYLE in
  SetFullscreen d true p
    = mkWin32 (m_hwnd p) true (ws_rect w) (m_window_scale p) (m_last_mouse_buttons p)
        (s_is_fullscreen p) (settings p)
        (<[m_hwnd p := mkWindowState style (Z.land style (Z.lnot WINDOWED_EXSTYLE))
                         (mkRECT (left rcMonitor) (top rcMonitor)
                            (left rcMonitor + (right rcMonitor - left rcMonitor))
                            (top rcMonitor + (bottom rcMonitor - top rcMonitor)))]>
           (windows p))
        (ui_calls p).
Proof.
  intros Hh Hf Hm Hi Hr. apply Z.eqb_neq in Hh, Hm.
  destruct p as [hwnd fs wr sc mb sf st ws ui0]. cbn [m_hwnd m_fullscreen] in *. subst fs.
  cbn zeta. unfold SetFullscreen. cbn [m_hwnd m_fullscreen Bool.eqb orb].
  rewrite Hh, Hm, Hi, Hr. cbn [orb negb]. cbv beta zeta.
  simpl_window. reflexivity.
Qed.

(** Leaving fullscreen. *)
Lemma SetFullscreen_leave (d : Desktop) (p : Win32) :
  m_hwnd p <> 0 ->
  m_fullscreen p = true ->
  let w := window_of p (m_hwnd p) in
  let rc := m_windowed_rect p in
  SetFullscreen d false p
    = mkWin32 (m_hwnd p) false rc (m_window_scale p) (m_last_mouse_buttons p)
        (s_is_fullscreen p) (settings p)
        (<[m_hwnd p := mkWindowState
                         (Z.lor (Z.land (ws_style w) (Z.lnot FULLSCREEN_STYLE)) WINDOWED_STYLE)
                         (Z.lor (ws_exstyle w) WINDOWED_EXSTYLE)
                         (mkRECT (left rc) (top rc) (left rc + (right rc - left rc))
                                 (top rc + (bottom rc - top rc)))]>
           (windows p))
        (ui_calls p).
Proof.
  intros Hh Hf. apply Z.eqb_neq in Hh.
  destruct p as [hwnd fs wr sc mb sf st ws ui0]. cbn [m_hwnd m_fullscreen] in *. subst fs.
  cbn zeta. unfold SetFullscreen. cbn [m_hwnd m_fullscreen Bool.eqb orb].
  rewrite Hh. cbn [orb]. cbv beta zeta.
  simpl_window. reflexivity.
Qed.

Lemma RECT_eta (rc : RECT) :
  mkRECT (left rc) (top rc) (left rc + (right rc - left rc)) (top rc + (bottom rc - top rc))
    = rc.
Proof. destruct rc as [l t r b]. cbn. f_equal; lia. Qed.

(** X27: fullscreen and back.  Entering fullscreen moves the window onto
    the monitor; leaving it again restores the rectangle and, for a window
    style that has the windowed bits and is not a popup, the style.  The
    extended style is not restored: it is computed from the window style
    and does not depend on the extended style the window had. *)
Theorem SetFullscreen_round_trip (d d' : Desktop) (p : Win32) (rcMonitor : RECT) :
  let w0 := window_of p (m_hwnd p) in
  let p1 := SetFullscreen d true p in
  let p2 := SetFullscreen d' false p1 in
  m_hwnd p <> 0 ->
  m_fullscreen p = false ->
  MonitorFromWindow_result d <> 0 ->
  GetMonitorInfo_result d = Some rcMonitor ->
  GetWindowRect_ok d = true ->
  Z.land (ws_style w0) WINDOWED_STYLE = WINDOWED_STYLE ->
  Z.land (ws_style w0) WS_POPUP = 0 ->
  (m_fullscreen p1 = true /\ ws_rect (window_of p1 (m_hwnd p)) = rcMonitor) /\
  m_fullscreen p2 = false /\
  ws_rect (window_of p2 (m_hwnd p)) = ws_rect w0 /\
  ws_style (window_of p2 (m_hwnd p)) = ws_style w0 /\
  ws_exstyle (window_of p2 (m_hwnd p))
    = Z.lor (Z.land (Z.lor (Z.land (ws_style w0) (Z.lnot WINDOWED_STYLE)) FULLSCREEN_STYLE)
                    (Z.lnot WINDOWED_EXSTYLE))
            WINDOWED_EXSTYLE.
Proof.
  cbn zeta. intros Hh Hf Hm Hi Hr Hw Hp.
  rewrite (SetFullscreen_enter d p rcMonitor Hh Hf Hm Hi Hr).
  set (w0 := window_of p (m_hwnd p)) in *.
  set (style1 := Z.lor (Z.land (ws_style w0) (Z.lnot WINDOWED_STYLE)) FULLSCREEN_STYLE).
  split.
  { split; [reflexivity |]. simpl_window. apply RECT_eta. }
  rewrite SetFullscreen_leave by (cbn [m_hwnd m_fullscreen]; first [exact Hh | reflexivity]).
  simpl_window.
  split; [reflexivity |]. split; [apply RECT_eta |].
  split; [| reflexivity].
  apply windowed_style_restored; assumption.
Qed.

(** X28: a window created while the fullscreen flag is set stays windowed.
    [CreatePlatformWindow] asks for fullscreen through [SetFullscreen(true)],
    which returns at once because the flag already says so: the new window
    has the windowed style, the flag still says fullscreen, and further
    [SetFullscreen(true)] calls change nothing either. *)
Theorem CreatePlatformWindow_stays_windowed (d : Desktop) (p : Win32) :
  let created := snd (CreatePlatformWindow d p) in
  m_fullscreen p = true ->
  CreateWindowExW_result d <> 0 ->
  fst (CreatePlatformWindow d p) = true /\
  m_hwnd created = CreateWindowExW_result d /\
  m_fullscreen created = true /\
  ws_style (window_of created (m_hwnd created)) = WINDOWED_STYLE /\
  ws_exstyle (window_of created (m_hwnd created)) = WS_EX_CLIENTEDGE /\
  forall d' : Desktop, SetFullscreen d' true created = created.
Proof.
  cbn zeta. intros Hf Hc. apply Z.eqb_neq in Hc.
  destruct p as [hwnd fs wr sc mb sf st ws ui0]. cbn [m_fullscreen] in Hf. subst fs.
  unfold CreatePlatformWindow.
  destruct (match GetSavedPlatformWindowGeometry _ with Some g => g | None => _ end)
    as [[[x y] width] height].
  rewrite Hc. simpl_window.
  assert (Hnoop : forall (d' : Desktop) (q : Win32),
            m_fullscreen q = true -> SetFullscreen d' true q = q).
  { intros d' q Hq. unfold SetFullscreen. rewrite Hq. cbn [Bool.eqb].
    rewrite orb_true_r. reflexivity. }
  rewrite Hnoop by reflexivity. simpl_window.
  split; [reflexivity |]. split; [reflexivity |]. split; [reflexivity |].
  split; [reflexivity |]. split; [reflexivity |].
  intros d'. apply Hnoop. reflexivity.
Qed.

(** Destroying a windowed window. *)
Lemma DestroyPlatformWindow_windowed (d : Desktop) (p : Win32) :
  m_hwnd p <> 0 ->
  m_fullscreen p = false ->
  s_is_fullscreen p = false ->
  GetWindowRect_ok d = true ->
  let rc := ws_rect (window_of p (m_hwnd p)) in
  DestroyPlatformWindow d p
    = mkWin32 0 false (m_windowed_rect p) (m_window_scale p) (m_last_mouse_buttons p) false
        (<["WindowHeight"%string := bottom rc - top rc]>
           (<["WindowWidth"%string := right rc - left rc]>
              (<["WindowY"%string := top rc]>
                 (<["WindowX"%string := left rc]> (settings p)))))
        (delete (m_hwnd p) (windows p))
        (ui_calls p ++ [CallDestroyWindow (m_hwnd p)]).
Proof.
  intros Hh Hf Hs Hr. apply Z.eqb_neq in Hh.
  destruct p as [hwnd fs wr sc mb sf st ws ui0].
  cbn [m_hwnd m_fullscreen s_is_fullscreen] in *. subst fs sf.
  cbn zeta. unfold DestroyPlatformWindow. cbn [m_hwnd m_fullscreen].
  rewrite Hh, Hr. cbn [negb andb]. unfold SavePlatformWindowGeometry.
  cbn [s_is_fullscreen]. simpl_window. reflexivity.
Qed.

(** X29: the window comes back where it was.  Destroying a windowed window
    saves its position and size (the host not being in fullscreen); a
    window created afterwards is requested at, and given, that rectangle. *)
Theorem DestroyPlatformWindow_then_Create_same_rectangle (d d' : Desktop) (p : Win32) :
  let rc := ws_rect (window_of p (m_hwnd p)) in
  let destroyed := DestroyPlatformWindow d p in
  let created := snd (CreatePlatformWindow d' destroyed) in
  m_hwnd p <> 0 ->
  m_fullscreen p = false ->
  s_is_fullscreen p = false ->
  GetWindowRect_ok d = true ->
  CreateWindowExW_result d' <> 0 ->
  left rc <> CW_USEDEFAULT ->
  GetSavedPlatformWindowGeometry destroyed
    = Some (left rc, top rc, right rc - left rc, bottom rc - top rc) /\
  m_hwnd created = CreateWindowExW_result d' /\
  ws_rect (window_of created (m_hwnd created)) = rc.
Proof.
  cbn zeta. intros Hh Hf Hs Hr Hc Hx. apply Z.eqb_neq in Hc, Hx.
  rewrite (DestroyPlatformWindow_windowed d p Hh Hf Hs Hr).
  set (rc := ws_rect (window_of p (m_hwnd p))) in *.
  assert (Hsaved :
    forall q, settings q
                = <["WindowHeight"%string := bottom rc - top rc]>
                    (<["WindowWidth"%string := right rc - left rc]>
                       (<["WindowY"%string := top rc]>
                          (<["WindowX"%string := left rc]> (settings p)))) ->
    GetSavedPlatformWindowGeometry q
      = Some (left rc, top rc, right rc - left rc, bottom rc - top rc)).
  { intros q Hq. unfold GetSavedPlatformWindowGeometry. rewrite Hq.
    rewrite lookup_insert_ne by discriminate.
    rewrite lookup_insert_ne by discriminate.
    rewrite lookup_insert_ne by discriminate.
    rewrite lookup_insert_eq.
    rewrite lookup_insert_ne by discriminate.
    rewrite lookup_insert_ne by discriminate.
    rewrite lookup_insert_eq.
    rewrite lookup_insert_ne by discriminate.
    rewrite lookup_insert_eq. rewrite lookup_insert_eq. reflexivity. }
  split; [apply Hsaved; reflexivity |].
  unfold CreatePlatformWindow. rewrite Hsaved by reflexivity.
  rewrite Hc, Hx. simpl_window.
  split; [reflexivity |]. apply RECT_eta.
Qed.

End WindowFacts.

(** The window of the plain desktop, sent to fullscreen and back. *)
Lemma SetFullscreen_round_trip_witness :
  ws_style
    (Win32NoGUIPlatform.window_of
       (Win32NoGUIPlatform.SetFullscreen plain_desktop false
          (Win32NoGUIPlatform.SetFullscreen plain_desktop true plain_window))
       (m_hwnd plain_window))
    = ws_style (Win32NoGUIPlatform.window_of plain_window (m_hwnd plain_window)) /\
  ws_exstyle
    (Win32NoGUIPlatform.window_of
       (Win32NoGUIPlatform.SetFullscreen plain_desktop false
          (Win32NoGUIPlatform.SetFullscreen plain_desktop true plain_window))
       (m_hwnd plain_window))
    <> ws_exstyle (Win32NoGUIPlatform.window_of plain_window (m_hwnd plain_window)).
Proof.
  split; [| vm_compute; discriminate].
  refine (proj1 (proj2 (proj2 (proj2
            (SetFullscreen_round_trip plain_desktop plain_desktop plain_window
               (mkRECT 0 0 1920 1080) _ _ _ _ _ _ _))))).
  all: vm_compute; first [reflexivity | discriminate].
Defined.

(** The fullscreen flag is set, the window is gone, and a new one is made. *)
Lemma CreatePlatformWindow_stays_windowed_witness :
  ws_style
    (Win32NoGUIPlatform.window_of
       (snd (Win32NoGUIPlatform.CreatePlatformWindow plain_desktop
               (mkWin32 0 true (mkRECT 100 100 1380 820) 96 0 false ∅ ∅ [])))
       0x50)
    = WINDOWED_STYLE.
Proof.
  refine (proj1 (proj2 (proj2 (proj2
            (CreatePlatformWindow_stays_windowed plain_desktop
               (mkWin32 0 true (mkRECT 100 100 1380 820) 96 0 false ∅ ∅ []) _ _))))).
  - reflexivity.
  - vm_compute. discriminate.
Defined.

(** The plain window destroyed and created again. *)
Lemma DestroyPlatformWindow_then_Create_same_rectangle_witness :
  ws_rect
    (Win32NoGUIPlatform.window_of
       (snd (Win32NoGUIPlatform.CreatePlatformWindow plain_desktop
               (Win32NoGUIPlatform.DestroyPlatformWindow plain_desktop plain_window)))
       (m_hwnd (snd (Win32NoGUIPlatform.CreatePlatformWindow plain_desktop
                       (Win32NoGUIPlatform.DestroyPlatformWindow plain_desktop
                          plain_window)))))
    = ws_rect (Win32NoGUIPlatform.window_of plain_window (m_hwnd plain_window)).
Proof.
  refine (proj2 (proj2 (DestroyPlatformWindow_then_Create_same_rectangle
                          plain_desktop plain_desktop plain_window _ _ _ _ _ _))).
  all: vm_compute; first [reflexivity | discriminate].
Defined.

(** ** Recursive faults *)

Section NestedFacts.
Variable PageFault_Mutex : MutexKind.
Variable Source_PageFault : Z -> DispatchOutcome.
Variable nested_information : Z -> list Z.

(** Without a vectored handler, and on a thread that does not hold the lock,
    the delivery is what the handlers answer by themselves. *)
Lemma delivered_without_vectored_handler (fuel : nat) (er : EXCEPTION_RECORD) :
  Nested.DoSysPageFaultExceptionFilter_delivered false PageFault_Mutex Source_PageFault
      nested_information (S fuel) 0 er
    = (fst (PageFault.DoSysPageFaultExceptionFilter Source_PageFault er),
       delivered_of (snd (PageFault.DoSysPageFaultExceptionFilter Source_PageFault er))) /\
  Nested.SysPageFaultExceptionFilter_delivered false PageFault_Mutex Source_PageFault
      nested_information (S fuel) (mkEXCEPTION_POINTERS er)
    = (fst (PageFault.SysPageFaultExceptionFilter Source_PageFault (mkEXCEPTION_POINTERS er)),
       delivered_of
         (snd (PageFault.SysPageFaultExceptionFilter Source_PageFault
                 (mkEXCEPTION_POINTERS er)))) /\
  Nested.UnwindExceptionHandler_delivered false PageFault_Mutex Source_PageFault
      nested_information (S fuel) er
    = (fst (PageFault.UnwindExceptionHandler Source_PageFault er),
       delivered_of (snd (PageFault.UnwindExceptionHandler Source_PageFault er))).
Proof.
  unfold Nested.SysPageFaultExceptionFilter_delivered, Nested.UnwindExceptionHandler_delivered,
    PageFault.SysPageFaultExceptionFilter, PageFault.UnwindExceptionHandler,
    PageFault.DoSysPageFaultExceptionFilter.
  cbn [Nested.DoSysPageFaultExceptionFilter_delivered ExceptionRecord].
  destruct (ExceptionCode er =? EXCEPTION_ACCESS_VIOLATION); cbn [negb].
  - assert (Hm : forall (T : Type) (a b : T),
               match PageFault_Mutex with
               | PlainMutex => match 0%nat with O => a | S _ => b end
               | RecursiveMutex => a
               end = a)
      by (intros T a b; destruct PageFault_Mutex; reflexivity).
    destruct PageFault_Mutex;
      (destruct (Source_PageFault _) as [[] | code]; cbn;
       [repeat split .. |
        destruct (PageFault.except_filter code =? EXCEPTION_EXECUTE_HANDLER);
        repeat split]).
  - repeat split.
Qed.

(** X30: on the UWP path a recursive fault is caught.  No vectored handler
    is installed there; when the dispatch of an access violation raises an
    access violation, [UnwindExceptionHandler] catches it in its own
    [__except] and answers continue-search, the dispatcher having been
    entered once and the lock taken once, whatever kind of mutex the lock
    is. *)
Theorem frame_handler_catches_recursive_fault (cfg : Build) (fuel : nat)
    (er : EXCEPTION_RECORD) :
  UWP cfg = true ->
  ExceptionCode er = EXCEPTION_ACCESS_VIOLATION ->
  Source_PageFault (nth 1 (ExceptionInformation er) 0)
    = DispatchRaised EXCEPTION_ACCESS_VIOLATION ->
  Nested.UnwindExceptionHandler_delivered (_platform_InstallSignalHandler cfg)
      PageFault_Mutex Source_PageFault nested_information (S fuel) er
    = ([EvLock; EvDispatch (nth 1 (ExceptionInformation er) 0)],
       Answered ExceptionContinueSearch).
Proof.
  intros Hu Hc Hd. unfold _platform_InstallSignalHandler. rewrite Hu. cbn [negb].
  unfold Nested.UnwindExceptionHandler_delivered.
  cbn [Nested.DoSysPageFaultExceptionFilter_delivered].
  rewrite Hc, Hd, Z.eqb_refl. cbn [negb].
  destruct PageFault_Mutex; reflexivity.
Qed.

Lemma caught_events {A : Type} (body : list FilterEvent * Delivered A) (handler : A) :
  fst (Nested.caught body handler) = fst body.
Proof.
  destruct body as [evs []]; cbn; try reflexivity.
  destruct (PageFault.except_filter code =? EXCEPTION_EXECUTE_HANDLER); reflexivity.
Qed.

(** One turn of the recursion, for a thread that gets the lock. *)
Lemma delivered_step (vectored : bool) (fuel held : nat) (er : EXCEPTION_RECORD) :
  ExceptionCode er = EXCEPTION_ACCESS_VIOLATION ->
  PageFault_Mutex = RecursiveMutex \/ held = 0%nat ->
  Nested.DoSysPageFaultExceptionFilter_delivered vectored PageFault_Mutex
      Source_PageFault nested_information (S fuel) held er
    = let addr := nth 1 (ExceptionInformation er) 0 in
      match Source_PageFault addr with
      | Dispatched WasHandled =>
          ([EvLock; EvDispatch addr; EvUnlock],
           Answered (if WasHandled then EXCEPTION_CONTINUE_EXECUTION
                     else EXCEPTION_CONTINUE_SEARCH))
      | DispatchRaised code =>
          let '(evs, first_chance) :=
            if vectored
            then Nested.caught
                   (Nested.DoSysPageFaultExceptionFilter_delivered vectored PageFault_Mutex
                      Source_PageFault nested_information fuel (S held)
                      (mkEXCEPTION_RECORD code (nested_information addr)))
                   EXCEPTION_CONTINUE_SEARCH
            else ([], Answered EXCEPTION_CONTINUE_SEARCH) in
          ([EvLock; EvDispatch addr] ++ evs,
           match first_chance with
           | Answered disposition =>
               if disposition =? EXCEPTION_CONTINUE_EXECUTION then Continued
               else Unhandled code
           | Unhandled code' => Unhandled code'
           | Continued => Continued
           | Relocked => Relocked
           | OutOfFuel => OutOfFuel
           end)
      end.
Proof.
  intros Hc Hl. cbn [Nested.DoSysPageFaultExceptionFilter_delivered].
  rewrite Hc, Z.eqb_refl. cbn [negb].
  destruct Hl as [-> | ->]; [| destruct PageFault_Mutex]; reflexivity.
Qed.

(** An invocation that gets the lock enters the dispatcher. *)
Lemma delivered_enters_dispatch (vectored : bool) (fuel held : nat) (er : EXCEPTION_RECORD) :
  ExceptionCode er = EXCEPTION_ACCESS_VIOLATION ->
  PageFault_Mutex = RecursiveMutex \/ held = 0%nat ->
  exists evs : list FilterEvent,
    fst (Nested.DoSysPageFaultExceptionFilter_delivered vectored PageFault_Mutex
           Source_PageFault nested_information (S fuel) held er)
      = [EvLock; EvDispatch (nth 1 (ExceptionInformation er) 0)] ++ evs.
Proof.
  intros Hc Hl. rewrite delivered_step by assumption. cbn zeta.
  destruct (Source_PageFault _) as [[] | code]; cbn [fst].
  1, 2: eexists [_]; reflexivity.
  destruct (if vectored then _ else _) as [evs fc]. exists evs. reflexivity.
Qed.

(** On the desktop build the nested fault is offered to the vectored
    handler first: the filter runs again on the thread that holds the lock
    and asks for it.  With a plain mutex the thread then waits for itself;
    with a recursive one the dispatcher is entered a second time. *)
Lemma vectored_filter_requests_held_lock (cfg : Build) (fuel : nat)
    (eps : EXCEPTION_POINTERS) :
  let addr := nth 1 (ExceptionInformation (ExceptionRecord eps)) 0 in
  let run := Nested.SysPageFaultExceptionFilter_delivered (_platform_InstallSignalHandler cfg)
               PageFault_Mutex Source_PageFault nested_information (S (S fuel)) eps in
  UWP cfg = false ->
  ExceptionCode (ExceptionRecord eps) = EXCEPTION_ACCESS_VIOLATION ->
  Source_PageFault addr = DispatchRaised EXCEPTION_ACCESS_VIOLATION ->
  match PageFault_Mutex with
  | PlainMutex => run = ([EvLock; EvDispatch addr], Relocked)
  | RecursiveMutex =>
      exists evs : list FilterEvent,
        fst run = [EvLock; EvDispatch addr;
                   EvLock; EvDispatch (nth 1 (nested_information addr) 0)] ++ evs
  end.
Proof.
  cbn zeta. intros Hu Hc Hd. unfold _platform_InstallSignalHandler. rewrite Hu. cbn [negb].
  unfold Nested.SysPageFaultExceptionFilter_delivered.
  destruct PageFault_Mutex eqn:Ek.
  - cbn [Nested.DoSysPageFaultExceptionFilter_delivered].
    rewrite Hc, Hd. cbn [ExceptionCode ExceptionInformation].
    rewrite Z.eqb_refl. reflexivity.
  - rewrite caught_events.
    destruct (delivered_enters_dispatch true fuel 1
                (mkEXCEPTION_RECORD EXCEPTION_ACCESS_VIOLATION
                   (nested_information
                      (nth 1 (ExceptionInformation (ExceptionRecord eps)) 0)))
                eq_refl (or_introl Ek)) as [evs Hevs].
    rewrite Ek in Hevs. cbn [ExceptionInformation] in Hevs.
    exists evs.
    rewrite <- Ek. rewrite delivered_step by (first [exact Hc | right; reflexivity]).
    cbn zeta. rewrite Hd, Ek.
    destruct (Nested.caught _ _) as [evs1 fc] eqn:E.
    cbn [fst]. apply (f_equal fst) in E. rewrite caught_events, Hevs in E.
    cbn [fst] in E. subst evs1. reflexivity.
Qed.

End NestedFacts.

(** With a recursive lock and a dispatcher that faults on every fault, the
    vectored filter is entered again and again: whatever the fuel, the run
    has not returned, and the dispatcher has been entered once per turn. *)
Lemma vectored_filter_never_returns (fuel held : nat) (information : list Z) :
  let run := Nested.DoSysPageFaultExceptionFilter_delivered true RecursiveMutex
               faulting_dispatcher same_address fuel held
               (mkEXCEPTION_RECORD EXCEPTION_ACCESS_VIOLATION information) in
  snd run = OutOfFuel /\ dispatch_count (fst run) = fuel /\ lock_count (fst run) = fuel.
Proof.
  cbn zeta. revert held information.
  induction fuel as [| fuel IH]; intros held information; [repeat split |].
  rewrite delivered_step by (first [reflexivity | left; reflexivity]).
  cbn zeta. cbn [ExceptionInformation].
  change (faulting_dispatcher (nth 1 information 0))
    with (DispatchRaised EXCEPTION_ACCESS_VIOLATION).
  cbn iota.
  destruct (IH (S held) (same_address (nth 1 information 0))) as (Hs & Hd & Hl).
  destruct (Nested.DoSysPageFaultExceptionFilter_delivered _ _ _ _ fuel (S held) _)
    as [evs r]. cbn [fst snd] in Hs, Hd, Hl. subst r.
  cbn [Nested.caught fst snd app].
  split; [reflexivity |].
  split; [exact (f_equal S Hd) | exact (f_equal S Hl)].
Qed.

(** C7: a recursive fault is dispatched again on the desktop build.  There
    [_platform_InstallSignalHandler] makes the filter the first vectored
    handler, so the access violation raised by the dispatch of the fault at
    [0x5000] is offered to [SysPageFaultExceptionFilter] again before the
    [__except] of the running invocation is consulted.  The second
    invocation asks for [PageFault_Mutex], which its own thread holds: with
    a plain mutex the thread waits for itself after one dispatch; with a
    recursive one the dispatcher is entered again for the nested fault, and
    so on, once per unit of fuel, without the filter ever answering.  On the
    UWP build, where no vectored handler is installed, the same fault is
    caught by [UnwindExceptionHandler], which answers continue-search after
    one dispatch. *)
Theorem recursive_fault_reenters_vectored_filter :
  Nested.SysPageFaultExceptionFilter_delivered (_platform_InstallSignalHandler desktop_build)
      PlainMutex faulting_dispatcher same_address 2 recursive_fault
    = ([EvLock; EvDispatch 0x5000], Relocked) /\
  (forall fuel : nat,
     snd (Nested.SysPageFaultExceptionFilter_delivered
            (_platform_InstallSignalHandler desktop_build)
            RecursiveMutex faulting_dispatcher same_address fuel recursive_fault)
       = OutOfFuel /\
     dispatch_count
       (fst (Nested.SysPageFaultExceptionFilter_delivered
               (_platform_InstallSignalHandler desktop_build)
               RecursiveMutex faulting_dispatcher same_address fuel recursive_fault))
       = fuel) /\
  (forall PageFault_Mutex : MutexKind,
     Nested.UnwindExceptionHandler_delivered (_platform_InstallSignalHandler uwp_build)
         PageFault_Mutex faulting_dispatcher same_address 1 (ExceptionRecord recursive_fault)
       = ([EvLock; EvDispatch 0x5000], Answered ExceptionContinueSearch)).
Proof.
  split; [reflexivity |]. split.
  - intros fuel. unfold Nested.SysPageFaultExceptionFilter_delivered.
    change (_platform_InstallSignalHandler desktop_build) with true.
    cbn [ExceptionRecord recursive_fault].
    destruct (vectored_filter_never_returns fuel 0 [1; 0x5000]) as (Hs & Hd & _).
    destruct (Nested.DoSysPageFaultExceptionFilter_delivered _ _ _ _ fuel 0 _) as [evs r].
    cbn [fst snd] in Hs, Hd. subst r. cbn [Nested.caught fst snd].
    split; [reflexivity | exact Hd].
  - intros []; reflexivity.
Qed.

(** The write fault at [0x5000], its dispatch faulting, on the UWP build. *)
Lemma frame_handler_catches_recursive_fault_witness :
  UWP uwp_build = true /\
  Nested.UnwindExceptionHandler_delivered (_platform_InstallSignalHandler uwp_build)
      PlainMutex faulting_dispatcher same_address 1 (ExceptionRecord recursive_fault)
    = ([EvLock; EvDispatch 0x5000], Answered ExceptionContinueSearch).
Proof.
  split; [reflexivity |].
  exact (frame_handler_catches_recursive_fault PlainMutex faulting_dispatcher same_address
           uwp_build 0 (ExceptionRecord recursive_fault) eq_refl eq_refl eq_refl).
Defined.
